(** * SecureAuditAI: compliance rule engine, finding normaliser, scoring and
      report compiler

    A shallow embedding of
      - [src/agent/compliance_analyzer.py]  (ComplianceAnalyzer),
      - [src/agent/main.py]                 (audit_compliance, generate_resources),
      - [src/agent/report_generator.py]     (ComplianceReportGenerator),
      - [src/agent/mock_data_generator.py]  (MockResourceGenerator),
      - [src/lambda/trigger_scan.py]        (simulate_compliance_scan),
    together with the properties stated about them.

    Python values are the JSON-shaped values the code manipulates.  Dicts are
    association lists in insertion order.  A str is the bytes of its UTF-8
    encoding; it is iterated and measured by characters, and lower-cased on
    its ASCII letters only.  Exceptions and the reads of the outside world
    (clock, uuid generator, random source, model endpoint, object store) go
    through a small state-and-error monad.

    Ints are exact and unbounded.  A float is modelled by the rational it
    stands for ([Q]): the overflow of an int that does not fit a float is
    part of the model, the rounding of double-precision arithmetic is not.
    What is stated about scores is therefore stated as it also holds of the
    rounded arithmetic: as bounds, as equalities on whole numbers, and up to
    [rounding_slack] elsewhere. *)

From Stdlib Require Import List String Ascii Bool Arith ZArith QArith Qround Qminmax Qabs Lia Lqa.
From Stdlib Require Import DecimalString.
Import ListNotations.

Local Open Scope string_scope.
Local Open Scope list_scope.

(* ================================================================== *)
(** ** Python values *)
(* ================================================================== *)

#[warnings="-register-all"]
Inductive pyval : Type :=
| VNone
| VBool (b : bool)
| VInt (z : Z)
| VFloat (q : Q)
| VStr (s : string)
| VList (l : list pyval)
| VDict (d : list (string * pyval)).

(** A dict with string keys, in insertion order. *)
Definition dict : Type := list (string * pyval).

(** [d.get(k)] as an option. *)
Fixpoint dict_get (k : string) (d : dict) : option pyval :=
  match d with
  | [] => None
  | (k', v) :: d' => if String.eqb k k' then Some v else dict_get k d'
  end.

(** [d.get(k, default)]. *)
Definition dict_get_or (k : string) (d : dict) (default : pyval) : pyval :=
  match dict_get k d with
  | Some v => v
  | None => default
  end.

(** The dict without key [k] (used to compare findings up to one field). *)
Fixpoint dict_remove (k : string) (d : dict) : dict :=
  match d with
  | [] => []
  | (k', v) :: d' =>
      if String.eqb k k' then dict_remove k d' else (k', v) :: dict_remove k d'
  end.

(** Python truthiness, [bool(v)]. *)
Definition py_truthy (v : pyval) : bool :=
  match v with
  | VNone => false
  | VBool b => b
  | VInt z => negb (z =? 0)%Z
  | VFloat q => negb (Qeq_bool q 0)
  | VStr s => negb (s =? "")
  | VList l => match l with [] => false | _ => true end
  | VDict d => match d with [] => false | _ => true end
  end.

(** [v == s] for a string literal [s]: only an equal str compares equal. *)
Definition py_eq_str (v : pyval) (s : string) : bool :=
  match v with
  | VStr t => String.eqb t s
  | _ => false
  end.

(** The numeric value of a bool, int or float; [None] for everything else. *)
Definition as_number (v : pyval) : option Q :=
  match v with
  | VBool b => Some (if b then 1 else 0)
  | VInt z => Some (inject_Z z)
  | VFloat q => Some q
  | _ => None
  end.

(** [v == False] in Python: bools are integers, so 0 and 0.0 compare equal
    to [False]; nothing else does. *)
Definition py_eq_false (v : pyval) : bool :=
  match as_number v with
  | Some q => Qeq_bool q 0
  | None => false
  end.

Definition py_type_name (v : pyval) : string :=
  match v with
  | VNone => "NoneType"
  | VBool _ => "bool"
  | VInt _ => "int"
  | VFloat _ => "float"
  | VStr _ => "str"
  | VList _ => "list"
  | VDict _ => "dict"
  end.

(* ------------------------------------------------------------------ *)
(** *** Strings *)

(** [p in s] for two strs: [p] occurs in [s] as a substring. *)
Fixpoint str_contains (p s : string) : bool :=
  String.prefix p s ||
  match s with
  | EmptyString => false
  | String _ s' => str_contains p s'
  end.

(** [str.lower()] on the ASCII letters (bytes outside A-Z are kept). *)
Definition lower_ascii (c : ascii) : ascii :=
  let n := nat_of_ascii c in
  if (65 <=? n)%nat && (n <=? 90)%nat then ascii_of_nat (n + 32) else c.

Fixpoint str_lower (s : string) : string :=
  match s with
  | EmptyString => EmptyString
  | String c s' => String (lower_ascii c) (str_lower s')
  end.


(** [', '.join(l)] and friends. *)
Fixpoint str_join (sep : string) (l : list string) : string :=
  match l with
  | [] => ""
  | [x] => x
  | x :: l' => x ++ sep ++ str_join sep l'
  end.

Definition str_of_Z (z : Z) : string := NilZero.string_of_int (Z.to_int z).
Definition str_of_nat (n : nat) : string := str_of_Z (Z.of_nat n).

(* ================================================================== *)
(** ** Exceptions and effects *)
(* ================================================================== *)

(** A raised exception: its class name and [str(e)]. *)
Inductive exn : Type := Exn (cls : string) (msg : string).

Definition exn_str (e : exn) : string :=
  match e with Exn _ msg => msg end.

Inductive result (A : Type) : Type :=
| Ok (a : A)
| Raise (e : exn).
Arguments Ok {A} a.
Arguments Raise {A} e.

(** The world is the number of reads of the outside made so far; the
    outside itself is a family of oracles indexed by that number. *)
Definition world : Type := nat.

Definition M (A : Type) : Type := world -> result A * world.

Definition ret {A} (a : A) : M A := fun w => (Ok a, w).

Definition raise {A} (e : exn) : M A := fun w => (Raise e, w).

Definition bind {A B} (m : M A) (k : A -> M B) : M B :=
  fun w =>
    match m w with
    | (Ok a, w') => k a w'
    | (Raise e, w') => (Raise e, w')
    end.

(** [try: m  except Exception as e: h e]. *)
Definition try_except {A} (m : M A) (h : exn -> M A) : M A :=
  fun w =>
    match m w with
    | (Ok a, w') => (Ok a, w')
    | (Raise e, w') => h e w'
    end.

Declare Scope py_scope.
Delimit Scope py_scope with py.
Notation "x <- m ;; k" := (bind m (fun x => k))
  (at level 61, m at next level, right associativity) : py_scope.
Local Open Scope py_scope.

Definition attribute_error {A} (v : pyval) (attr : string) : M A :=
  raise (Exn "AttributeError"
           ("'" ++ py_type_name v ++ "' object has no attribute '" ++ attr ++ "'")).

Definition type_error {A} (msg : string) : M A := raise (Exn "TypeError" msg).

(** [v.get(k, default)]: only a dict has [get]. *)
Definition py_get (v : pyval) (k : string) (default : pyval) : M pyval :=
  match v with
  | VDict d => ret (dict_get_or k d default)
  | _ => attribute_error v "get"
  end.

(** [v.keys()]: only a dict has [keys]. *)
Definition py_keys (v : pyval) : M (list string) :=
  match v with
  | VDict d => ret (map fst d)
  | _ => attribute_error v "keys"
  end.

(** [s in v] for a string literal [s]: membership in a list, substring of a
    str, key of a dict; the other values are not containers. *)
Definition py_str_in (s : string) (v : pyval) : M bool :=
  match v with
  | VList l => ret (existsb (fun x => py_eq_str x s) l)
  | VStr t => ret (str_contains s t)
  | VDict d => ret (existsb (String.eqb s) (map fst d))
  | _ => type_error ("argument of type '" ++ py_type_name v ++ "' is not iterable")
  end.

(** A str is kept as the bytes of its UTF-8 encoding.  A byte of the form
    10xxxxxx continues the character begun before it. *)
Definition continuation_byte (c : ascii) : bool :=
  let n := nat_of_ascii c in (128 <=? n)%nat && (n <? 192)%nat.

(** [s] begins with a continuation byte. *)
Definition begins_with_continuation (s : string) : bool :=
  match s with
  | String c _ => continuation_byte c
  | EmptyString => false
  end.

(** The characters (code points) of a str, each with all its bytes: a byte
    joins what follows it when that begins with a continuation byte. *)
Fixpoint str_chars (s : string) : list string :=
  match s with
  | EmptyString => []
  | String c s' =>
      match str_chars s' with
      | char :: chars =>
          if begins_with_continuation s' then String c char :: chars
          else String c EmptyString :: char :: chars
      | [] => [String c EmptyString]
      end
  end.

(** The elements [for x in v] goes through: those of a list, the characters
    of a str, the keys of a dict; the other values are not iterable. *)
Definition py_iter (v : pyval) : M (list pyval) :=
  match v with
  | VList l => ret l
  | VStr s => ret (map VStr (str_chars s))
  | VDict d => ret (map (fun kv => VStr (fst kv)) d)
  | _ => type_error ("'" ++ py_type_name v ++ "' object is not iterable")
  end.

(** [len(v)]. *)
Definition py_len (v : pyval) : M nat :=
  match v with
  | VList l => ret (List.length l)
  | VStr s => ret (List.length (str_chars s))
  | VDict d => ret (List.length d)
  | _ => type_error ("object of type '" ++ py_type_name v ++ "' has no len()")
  end.

(** [v.items()]: only a dict has [items]. *)
Definition py_items (v : pyval) : M dict :=
  match v with
  | VDict d => ret d
  | _ => attribute_error v "items"
  end.

Definition lift {A} (r : result A) : M A := fun w => (r, w).

(* ================================================================== *)
(** ** compliance_analyzer.py *)
(* ================================================================== *)

Section ComplianceAnalyzer.

(** [datetime.utcnow().isoformat()] when the world is [w]. *)
Variable utcnow_isoformat : world -> string.

(** [str(v)] for floats, lists and dicts (Python's repr, not modelled). *)
Variable py_repr : pyval -> string.

(** The model call of [_analyze_resource] (build the prompt, invoke the
    model, decode the two JSON layers) when the world is [w]: the decoded
    [analysis_result], or the exception any of these steps raised. *)
Variable bedrock_analysis : world -> string -> dict -> pyval -> result pyval.

Definition utcnow : M string := fun w => (Ok (utcnow_isoformat w), S w).

(** [str(v)], as an f-string substitutes it. *)
Definition py_str (v : pyval) : string :=
  match v with
  | VStr s => s
  | VNone => "None"
  | VBool true => "True"
  | VBool false => "False"
  | VInt z => str_of_Z z
  | _ => py_repr v
  end.

Definition sensitive_patterns : list string :=
  ["password"; "secret"; "key"; "token"].

(** [any(any(pattern in var_name.lower() for pattern in sensitive_patterns)
         for var_name in env_vars.keys())] *)
Definition has_sensitive_name (var_names : list string) : bool :=
  existsb
    (fun var_name =>
       existsb (fun pattern => str_contains pattern (str_lower var_name))
               sensitive_patterns)
    var_names.

(** [ComplianceAnalyzer._rule_based_analysis]. *)
Definition rule_based_analysis (framework : string) (resource : dict)
  : M (list dict) :=
  let findings : list dict := [] in
  let resource_type := dict_get_or "type" resource (VStr "") in
  let config := dict_get_or "config" resource (VDict []) in
  let resource_id := dict_get_or "id" resource VNone in
  if py_eq_str resource_type "S3_BUCKET" then
    public_access <- py_get config "publicAccess" (VBool false) ;;
    findings <-
      (if py_truthy public_access then
         created_at <- utcnow ;;
         ret (findings ++
           [[ ("title", VStr ("S3 Bucket Public Access (" ++ framework ++ ")"));
              ("description",
                VStr ("S3 bucket " ++ py_str resource_id ++ " has public access enabled"));
              ("severity", VStr "HIGH");
              ("resourceType", resource_type);
              ("resourceId", resource_id);
              ("complianceFrameworks", VList [VStr framework]);
              ("riskScore", VInt 75);
              ("remediationSteps",
                VList [ VStr "Disable public access on S3 bucket";
                        VStr "Review bucket policy for public permissions";
                        VStr "Enable S3 Block Public Access" ]);
              ("requirement", VStr (framework ++ ": Data protection requirements"));
              ("createdAt", VStr created_at) ]])
       else ret findings) ;;
    encryption <- py_get config "encryption" (VBool false) ;;
    findings <-
      (if negb (py_truthy encryption) then
         created_at <- utcnow ;;
         ret (findings ++
           [[ ("title", VStr ("S3 Bucket Encryption (" ++ framework ++ ")"));
              ("description",
                VStr ("S3 bucket " ++ py_str resource_id
                      ++ " does not have encryption enabled"));
              ("severity", VStr "MEDIUM");
              ("resourceType", resource_type);
              ("resourceId", resource_id);
              ("complianceFrameworks", VList [VStr framework]);
              ("riskScore", VInt 60);
              ("remediationSteps",
                VList [ VStr "Enable S3 default encryption";
                        VStr "Use AES-256 or AWS-KMS encryption" ]);
              ("requirement", VStr (framework ++ ": Encryption requirements"));
              ("createdAt", VStr created_at) ]])
       else ret findings) ;;
    ret findings
  else if py_eq_str resource_type "EC2_INSTANCE" then
    public_ip <- py_get config "publicIp" (VBool false) ;;
    if py_truthy public_ip then
      created_at <- utcnow ;;
      ret (findings ++
        [[ ("title", VStr ("EC2 Public IP Exposure (" ++ framework ++ ")"));
           ("description",
             VStr ("EC2 instance " ++ py_str resource_id ++ " has a public IP address"));
           ("severity", VStr "MEDIUM");
           ("resourceType", resource_type);
           ("resourceId", resource_id);
           ("complianceFrameworks", VList [VStr framework]);
           ("riskScore", VInt 50);
           ("remediationSteps",
             VList [ VStr "Review security group configurations";
                     VStr "Consider using private subnets";
                     VStr "Implement proper network access controls" ]);
           ("requirement", VStr (framework ++ ": Network security requirements"));
           ("createdAt", VStr created_at) ]])
    else ret findings
  else if py_eq_str resource_type "IAM_ROLE" then
    permissions <- py_get config "permissions" (VList []) ;;
    wildcard <- py_str_in "*" permissions ;;
    if (wildcard : bool) then
      created_at <- utcnow ;;
      ret (findings ++
        [[ ("title", VStr ("Over-Privileged IAM Role (" ++ framework ++ ")"));
           ("description",
             VStr ("IAM role " ++ py_str resource_id ++ " has wildcard permissions"));
           ("severity", VStr "CRITICAL");
           ("resourceType", resource_type);
           ("resourceId", resource_id);
           ("complianceFrameworks", VList [VStr framework]);
           ("riskScore", VInt 90);
           ("remediationSteps",
             VList [ VStr "Remove wildcard permissions";
                     VStr "Apply principle of least privilege";
                     VStr "Use specific IAM actions only" ]);
           ("requirement", VStr (framework ++ ": Least privilege requirements"));
           ("createdAt", VStr created_at) ]])
    else ret findings
  else if py_eq_str resource_type "LAMBDA_FUNCTION" then
    env_vars <- py_get config "environmentVariables" (VDict []) ;;
    var_names <- py_keys env_vars ;;
    let has_sensitive := has_sensitive_name var_names in
    if has_sensitive then
      created_at <- utcnow ;;
      ret (findings ++
        [[ ("title", VStr ("Sensitive Data in Lambda Environment (" ++ framework ++ ")"));
           ("description",
             VStr ("Lambda function " ++ py_str resource_id
                   ++ " contains sensitive data in environment variables"));
           ("severity", VStr "HIGH");
           ("resourceType", resource_type);
           ("resourceId", resource_id);
           ("complianceFrameworks", VList [VStr framework]);
           ("riskScore", VInt 70);
           ("remediationSteps",
             VList [ VStr "Remove sensitive data from environment variables";
                     VStr "Use AWS Secrets Manager or Parameter Store";
                     VStr "Update function configuration" ]);
           ("requirement", VStr (framework ++ ": Data protection requirements"));
           ("createdAt", VStr created_at) ]])
    else ret findings
  else ret findings.

(** The loop of [_parse_analysis_result] over the candidates, with the
    findings appended so far. *)
Fixpoint parse_candidates (framework : string) (resource : dict)
    (candidates : list pyval) (findings : list dict) : M (list dict) :=
  match candidates with
  | [] => ret findings
  | finding :: rest =>
      title <- py_get finding "title" (VStr (framework ++ " Compliance Issue")) ;;
      description <-
        py_get finding "description" (VStr "Compliance violation detected") ;;
      severity <- py_get finding "severity" (VStr "MEDIUM") ;;
      risk_score <- py_get finding "riskScore" (VInt 50) ;;
      remediation_steps <- py_get finding "remediationSteps" (VList []) ;;
      requirement <-
        py_get finding "requirement" (VStr (framework ++ " requirement")) ;;
      created_at <- utcnow ;;
      let structured_finding : dict :=
        [ ("title", title);
          ("description", description);
          ("severity", severity);
          ("resourceType", dict_get_or "type" resource (VStr "Unknown"));
          ("resourceId", dict_get_or "id" resource (VStr "Unknown"));
          ("complianceFrameworks", VList [VStr framework]);
          ("riskScore", risk_score);
          ("remediationSteps", remediation_steps);
          ("requirement", requirement);
          ("createdAt", VStr created_at) ] in
      parse_candidates framework resource rest (findings ++ [structured_finding])
  end.

(** [ComplianceAnalyzer._parse_analysis_result]. *)
Definition parse_analysis_result (framework : string) (resource : dict)
    (analysis_result : pyval) : M (list dict) :=
  match analysis_result with
  | VList candidates => parse_candidates framework resource candidates []
  | _ => ret []
  end.

(** The model call as an effect. *)
Definition invoke_bedrock (framework : string) (resource : dict)
    (scan_config : pyval) : M pyval :=
  fun w => (bedrock_analysis w framework resource scan_config, S w).

(** [ComplianceAnalyzer._analyze_resource]. *)
Definition analyze_resource (framework : string) (resource : dict)
    (scan_config : pyval) : M (list dict) :=
  try_except
    (analysis_result <- invoke_bedrock framework resource scan_config ;;
     parse_analysis_result framework resource analysis_result)
    (fun _ => rule_based_analysis framework resource).

(** The loop of [analyze_compliance] over the resources. *)
Fixpoint analyze_resources (framework : string) (resources : list dict)
    (scan_config : pyval) (findings : list dict) : M (list dict) :=
  match resources with
  | [] => ret findings
  | resource :: rest =>
      resource_findings <- analyze_resource framework resource scan_config ;;
      analyze_resources framework rest scan_config (findings ++ resource_findings)
  end.

(** [ComplianceAnalyzer.analyze_compliance]. *)
Definition analyze_compliance (framework : string) (resources : list dict)
    (scan_config : pyval) : M (list dict) :=
  analyze_resources framework resources scan_config [].

End ComplianceAnalyzer.

(* ================================================================== *)
(** ** main.py: the scoring step of [audit_compliance] *)
(* ================================================================== *)

(** [compliance_scores]: framework name to score, in insertion order. *)
Definition scores : Type := list (string * Q).


(** [compliance_scores[k] = v]: an existing key keeps its place. *)
Fixpoint scores_set (k : string) (v : Q) (d : scores) : scores :=
  match d with
  | [] => [(k, v)]
  | (k', v') :: d' =>
      if String.eqb k k' then (k, v) :: d' else (k', v') :: scores_set k v d'
  end.

(** The least magnitude an int cannot have as a float: the largest double,
    2^1024 - 2^971, and half a unit in its last place. *)
Definition float_limit : Z := (2 ^ 1024 - 2 ^ 970)%Z.

(** The int a value is, a bool counting as 0 or 1. *)
Definition as_int (v : pyval) : option Z :=
  match v with
  | VInt z => Some z
  | VBool b => Some (if b then 1 else 0)%Z
  | _ => None
  end.

(** The float a number becomes next to a float operand: an int beyond the
    doubles raises OverflowError; [None] for what is not a number. *)
Definition to_float (v : pyval) : option (result Q) :=
  match v with
  | VFloat q => Some (Ok q)
  | _ =>
      match as_int v with
      | Some z =>
          Some (if (Z.abs z <? float_limit)%Z then Ok (inject_Z z)
                else Raise (Exn "OverflowError" "int too large to convert to float"))
      | None => None
      end
  end.

(** [a + b] as [sum] adds numbers: ints exactly; with a float operand the
    other one is converted first, and the float sum is taken on the exact
    values.  What is not a number cannot be added to one. *)
Definition py_add (a b : pyval) : result pyval :=
  match as_int a, as_int b with
  | Some x, Some y => Ok (VInt (x + y))
  | _, _ =>
      match to_float a, to_float b with
      | Some (Ok x), Some (Ok y) => Ok (VFloat (x + y))
      | Some (Raise e), Some _ => Raise e
      | Some (Ok _), Some (Raise e) => Raise e
      | _, _ =>
          Raise (Exn "TypeError"
                   ("unsupported operand type(s) for +: '" ++ py_type_name a
                    ++ "' and '" ++ py_type_name b ++ "'"))
      end
  end.

(** [sum(finding.get('riskScore', 50) for finding in framework_findings)],
    from the running total [acc]. *)
Fixpoint sum_risk (framework_findings : list dict) (acc : pyval) : result pyval :=
  match framework_findings with
  | [] => Ok acc
  | finding :: rest =>
      match py_add acc (dict_get_or "riskScore" finding (VInt 50)) with
      | Ok acc' => sum_risk rest acc'
      | Raise e => Raise e
      end
  end.

(** [total / n] for a sum [total] and a length [n > 0]: the quotient of two
    ints is rounded to a float at once, and raises OverflowError when it is
    beyond the doubles. *)
Definition py_truediv (total : pyval) (n : Z) : result Q :=
  match total with
  | VFloat q => Ok (q / inject_Z n)
  | _ =>
      match as_int total with
      | Some z =>
          if (Z.abs z <? float_limit * n)%Z then Ok (inject_Z z / inject_Z n)
          else Raise (Exn "OverflowError"
                        "integer division result too large for a float")
      | None =>
          Raise (Exn "TypeError"
                   ("unsupported operand type(s) for /: '" ++ py_type_name total
                    ++ "' and 'int'"))
      end
  end.

(** [max(0, x)]: the second argument wins only when it is greater. *)
Definition py_max0 (x : Q) : Q := if Qle_bool x 0 then 0 else x.

Definition len_Q {A} (l : list A) : Q := inject_Z (Z.of_nat (List.length l)).

(** Lines 59-63: the score of one framework from its findings. *)
Definition framework_score (framework_findings : list dict) : result Q :=
  match framework_findings with
  | _ :: _ =>
      match sum_risk framework_findings (VInt 0) with
      | Ok total =>
          match py_truediv total (Z.of_nat (List.length framework_findings)) with
          | Ok avg_risk => Ok (py_max0 (100 - avg_risk))
          | Raise e => Raise e
          end
      | Raise e => Raise e
      end
  | [] => Ok 100
  end.

(** [sum(compliance_scores.values())]. *)
Definition sum_values (compliance_scores : scores) : Q :=
  fold_left Qplus (map snd compliance_scores) 0.

(** Line 67. *)
Definition overall_score (compliance_scores : scores) : Q :=
  match compliance_scores with
  | _ :: _ => sum_values compliance_scores / len_Q compliance_scores
  | [] => 100
  end.

Section AuditCompliance.

Variable utcnow_isoformat : world -> string.
Variable py_repr : pyval -> string.
Variable bedrock_analysis : world -> string -> dict -> pyval -> result pyval.

Local Notation "'analyze'" :=
  (analyze_compliance utcnow_isoformat py_repr bedrock_analysis).

(** Lines 53-63: the loop over the requested frameworks. *)
Fixpoint audit_frameworks (compliance_frameworks : list string)
    (resources : list dict) (scan_config : pyval)
    (all_findings : list dict) (compliance_scores : scores)
  : M (list dict * scores) :=
  match compliance_frameworks with
  | [] => ret (all_findings, compliance_scores)
  | framework :: rest =>
      framework_findings <- analyze framework resources scan_config ;;
      let all_findings := all_findings ++ framework_findings in
      score <- lift (framework_score framework_findings) ;;
      audit_frameworks rest resources scan_config
        all_findings (scores_set framework score compliance_scores)
  end.

(** Lines 50-67: findings, per-framework scores and overall score. *)
Definition audit_scoring (compliance_frameworks : list string)
    (resources : list dict) (scan_config : pyval)
  : M (list dict * scores * Q) :=
  r <- audit_frameworks compliance_frameworks resources scan_config [] [] ;;
  ret (fst r, snd r, overall_score (snd r)).

(** Ghost trace: the findings each framework's analysis returns, in the
    order the loop runs them. *)
Fixpoint framework_runs (compliance_frameworks : list string)
    (resources : list dict) (scan_config : pyval)
  : M (list (string * list dict)) :=
  match compliance_frameworks with
  | [] => ret []
  | framework :: rest =>
      framework_findings <- analyze framework resources scan_config ;;
      runs <- framework_runs rest resources scan_config ;;
      ret ((framework, framework_findings) :: runs)
  end.

End AuditCompliance.


(* ------------------------------------------------------------------ *)
(** *** The scoring policy as the specification words it *)

(** The riskScore values of a finding sequence, when all are numbers. *)
Fixpoint risk_values (findings : list dict) : option (list Q) :=
  match findings with
  | [] => Some []
  | finding :: rest =>
      match as_number (dict_get_or "riskScore" finding (VInt 50)), risk_values rest with
      | Some x, Some xs => Some (x :: xs)
      | _, _ => None
      end
  end.

Fixpoint Qsum (l : list Q) : Q :=
  match l with
  | [] => 0
  | x :: l' => x + Qsum l'
  end.

(** The riskScore values of a finding sequence, when all are ints (a bool
    counting as one). *)
Fixpoint int_risk_values (findings : list dict) : option (list Z) :=
  match findings with
  | [] => Some []
  | finding :: rest =>
      match as_int (dict_get_or "riskScore" finding (VInt 50)), int_risk_values rest with
      | Some z, Some zs => Some (z :: zs)
      | _, _ => None
      end
  end.

Definition Zsum (l : list Z) : Z := fold_right Z.add 0%Z l.

Definition mean (l : list Q) : Q := Qsum l / len_Q l.

(** [max(0, 100 - mean(riskScore))], or 100.0 without findings. *)
Definition spec_framework_score (risks : list Q) : Q :=
  match risks with
  | [] => 100
  | _ => Qmax 0 (100 - mean risks)
  end.

(** The mean of the per-framework scores, or 100.0 without frameworks. *)
Definition spec_overall_score (per_framework : list Q) : Q :=
  match per_framework with
  | [] => 100
  | _ => mean per_framework
  end.

(* ================================================================== *)
(** ** report_generator.py *)
(* ================================================================== *)

Definition nl : string := String (ascii_of_nat 10) "".

(** The bullet U+2022 in UTF-8. *)
Definition bullet : string :=
  String (ascii_of_nat 226) (String (ascii_of_nat 128) (String (ascii_of_nat 162) "")).

(** The indentation the triple-quoted texts carry. *)
Definition indent : string := "        ".

Definition is_space (c : ascii) : bool :=
  let n := nat_of_ascii c in
  ((9 <=? n)%nat && (n <=? 13)%nat) || ((28 <=? n)%nat && (n <=? 32)%nat).

Fixpoint str_lstrip (s : string) : string :=
  match s with
  | String c s' => if is_space c then str_lstrip s' else s
  | EmptyString => EmptyString
  end.

Fixpoint str_rev (s : string) : string :=
  match s with
  | EmptyString => EmptyString
  | String c s' => str_rev s' ++ String c EmptyString
  end.

(** [s.strip()]. *)
Definition str_strip (s : string) : string :=
  str_rev (str_lstrip (str_rev (str_lstrip s))).

(** Nearest integer, ties to even. *)
Definition round_half_even (x : Q) : Z :=
  let f := Qfloor x in
  match Qcompare (x - inject_Z f) (1 # 2) with
  | Lt => f
  | Gt => (f + 1)%Z
  | Eq => if Z.even f then f else (f + 1)%Z
  end.

(** [f"{q:.1f}"] on the exact value. *)
Definition fmt_1f (q : Q) : string :=
  let n := round_half_even (q * 10) in
  let negative := (n <? 0)%Z || ((n =? 0)%Z && negb (Qle_bool 0 q)) in
  let a := Z.abs n in
  (if negative then "-" else "")
  ++ str_of_Z (a / 10) ++ "." ++ str_of_Z (a mod 10).

(** [f"{v:.1f}"]: numbers only, and an int has to fit a float. *)
Definition format_1f (v : pyval) : M string :=
  match v with
  | VStr _ =>
      raise (Exn "ValueError" "Unknown format code 'f' for object of type 'str'")
  | _ =>
      match to_float v with
      | Some (Ok q) => ret (fmt_1f q)
      | Some (Raise e) => raise e
      | None =>
          type_error ("unsupported format string passed to "
                      ++ py_type_name v ++ ".__format__")
      end
  end.

(** [round(v, 1)]: an int stays an int, a float is rounded to one decimal. *)
Definition py_round1 (v : pyval) : M pyval :=
  match v with
  | VInt z => ret (VInt z)
  | VBool b => ret (VInt (if b then 1 else 0))
  | VFloat q => ret (VFloat (inject_Z (round_half_even (q * 10)) / 10))
  | _ => type_error ("type " ++ py_type_name v ++ " doesn't define __round__ method")
  end.

(** The items of [sep.join(l)]: every one has to be a str. *)
Fixpoint join_items (l : list pyval) (i : nat) : M (list string) :=
  match l with
  | [] => ret []
  | VStr s :: rest =>
      items <- join_items rest (S i) ;;
      ret (s :: items)
  | v :: _ =>
      type_error ("sequence item " ++ str_of_nat i ++ ": expected str instance, "
                  ++ py_type_name v ++ " found")
  end.

(** The elements [sep.join(v)] goes through; what cannot be iterated is
    refused by [join] itself. *)
Definition join_iter (v : pyval) : M (list pyval) :=
  match v with
  | VList _ | VStr _ | VDict _ => py_iter v
  | _ => type_error "can only join an iterable"
  end.

(** [sep.join(v)]. *)
Definition py_join (sep : string) (v : pyval) : M string :=
  l <- join_iter v ;;
  items <- join_items l 0 ;;
  ret (str_join sep items).

(** Lists and dicts cannot be dict keys. *)
Definition py_hashable (v : pyval) : bool :=
  match v with
  | VList _ | VDict _ => false
  | _ => true
  end.

(** Equality of two hashable values as dict keys. *)
Definition py_key_eq (a b : pyval) : bool :=
  match as_number a, as_number b with
  | Some x, Some y => Qeq_bool x y
  | None, None =>
      match a, b with
      | VStr s, VStr t => String.eqb s t
      | VNone, VNone => true
      | _, _ => false
      end
  | _, _ => false
  end.

(** [[f for f in findings if f.get('severity') == severity]]. *)
Fixpoint filter_severity (severity : string) (findings : list pyval)
  : M (list pyval) :=
  match findings with
  | [] => ret []
  | f :: rest =>
      s <- py_get f "severity" VNone ;;
      kept <- filter_severity severity rest ;;
      ret (if py_eq_str s severity then f :: kept else kept)
  end.

(** Lines 84-89: the dict of the four severity buckets. *)
Definition group_by_severity (findings : list pyval)
  : M (list (string * list pyval)) :=
  critical <- filter_severity "CRITICAL" findings ;;
  high <- filter_severity "HIGH" findings ;;
  medium <- filter_severity "MEDIUM" findings ;;
  low <- filter_severity "LOW" findings ;;
  ret [ ("CRITICAL", critical); ("HIGH", high); ("MEDIUM", medium); ("LOW", low) ].

(** [findings_by_severity.get(k, [])]. *)
Fixpoint bucket (k : string) (findings_by_severity : list (string * list pyval))
  : list pyval :=
  match findings_by_severity with
  | [] => []
  | (k', fs) :: rest => if String.eqb k k' then fs else bucket k rest
  end.

(** [findings_by_type[resource_type].append(finding)], after creating the
    empty list for a new key. *)
Fixpoint by_type_append (resource_type finding : pyval)
    (findings_by_type : list (pyval * list pyval)) : list (pyval * list pyval) :=
  match findings_by_type with
  | [] => [(resource_type, [finding])]
  | (k, fs) :: rest =>
      if py_key_eq resource_type k then (k, fs ++ [finding]) :: rest
      else (k, fs) :: by_type_append resource_type finding rest
  end.

(** Lines 92-97. *)
Fixpoint group_by_type (findings : list pyval)
    (findings_by_type : list (pyval * list pyval))
  : M (list (pyval * list pyval)) :=
  match findings with
  | [] => ret findings_by_type
  | finding :: rest =>
      resource_type <- py_get finding "resourceType" (VStr "Unknown") ;;
      if py_hashable resource_type then
        group_by_type rest (by_type_append resource_type finding findings_by_type)
      else
        type_error ("unhashable type: '" ++ py_type_name resource_type ++ "'")
  end.

(** The loop of [_generate_executive_summary] over the framework scores. *)
Fixpoint framework_score_lines (items : dict) (summary : string) : M string :=
  match items with
  | [] => ret summary
  | (framework, score) :: rest =>
      text <- format_1f score ;;
      framework_score_lines rest
        (summary ++ bullet ++ " " ++ framework ++ ": " ++ text ++ "/100" ++ nl)
  end.

(** [ComplianceReportGenerator._generate_executive_summary]. *)
Definition generate_executive_summary (overall_score : pyval)
    (findings_by_severity : list (string * list pyval))
    (compliance_scores : pyval) (frameworks : pyval) : M string :=
  let critical_count := List.length (bucket "CRITICAL" findings_by_severity) in
  let high_count := List.length (bucket "HIGH" findings_by_severity) in
  joined <- py_join ", " frameworks ;;
  overall <- format_1f overall_score ;;
  let total :=
    fold_left Nat.add (map (fun kv => List.length (snd kv)) findings_by_severity) 0%nat in
  let summary :=
   (nl ++ indent ++ "EXECUTIVE SUMMARY" ++ nl
    ++ nl
    ++ indent ++ "This compliance audit report presents the results of a comprehensive security assessment" ++ nl
    ++ indent ++ "conducted against " ++ joined ++ " requirements." ++ nl
    ++ nl
    ++ indent ++ "OVERALL COMPLIANCE SCORE: " ++ overall ++ "/100" ++ nl
    ++ nl
    ++ indent ++ "KEY FINDINGS:" ++ nl
    ++ indent ++ bullet ++ " " ++ str_of_nat critical_count
       ++ " Critical severity findings requiring immediate attention" ++ nl
    ++ indent ++ bullet ++ " " ++ str_of_nat high_count
       ++ " High severity findings requiring prompt remediation" ++ nl
    ++ indent ++ bullet ++ " Total of " ++ str_of_nat total
       ++ " compliance issues identified" ++ nl
    ++ nl
    ++ indent ++ "FRAMEWORK SCORES:" ++ nl
    ++ indent)%string in
  items <- py_items compliance_scores ;;
  summary <- framework_score_lines items summary ;;
  let summary :=
   (if (0 <? critical_count)%nat then
      summary
      ++ nl ++ indent ++ "IMMEDIATE ACTION REQUIRED:" ++ nl
      ++ indent ++ str_of_nat critical_count
         ++ " critical findings have been identified that pose significant security risks" ++ nl
      ++ indent ++ "and require immediate remediation to maintain compliance." ++ nl
      ++ indent
    else
      summary
      ++ nl ++ indent ++ "No critical findings were identified in this audit. Continue monitoring and" ++ nl
      ++ indent ++ "regular assessments to maintain compliance posture." ++ nl
      ++ indent)%string in
  ret (str_strip summary).

(** The loop of [_generate_detailed_findings], numbering from [i]. *)
Fixpoint detailed_findings_from (i : nat) (findings : list pyval)
    (detailed_findings : list dict) : M (list dict) :=
  match findings with
  | [] => ret detailed_findings
  | finding :: rest =>
      title <- py_get finding "title" (VStr "Untitled Finding") ;;
      severity <- py_get finding "severity" (VStr "UNKNOWN") ;;
      resource_type <- py_get finding "resourceType" (VStr "Unknown") ;;
      resource_id <- py_get finding "resourceId" (VStr "Unknown") ;;
      description <- py_get finding "description" (VStr "No description provided") ;;
      frameworks <- py_get finding "complianceFrameworks" (VList []) ;;
      risk_score <- py_get finding "riskScore" (VInt 0) ;;
      remediation_steps <- py_get finding "remediationSteps" (VList []) ;;
      recommendations <- py_get finding "recommendations" (VStr "") ;;
      status <- py_get finding "status" (VStr "OPEN") ;;
      let detailed_finding : dict :=
        [ ("findingNumber", VInt (Z.of_nat i));
          ("title", title);
          ("severity", severity);
          ("resourceType", resource_type);
          ("resourceId", resource_id);
          ("description", description);
          ("complianceFrameworks", frameworks);
          ("riskScore", risk_score);
          ("remediationSteps", remediation_steps);
          ("recommendations", recommendations);
          ("status", status) ] in
      detailed_findings_from (S i) rest (detailed_findings ++ [detailed_finding])
  end.

(** [ComplianceReportGenerator._generate_detailed_findings]. *)
Definition generate_detailed_findings (findings : list pyval) : M (list dict) :=
  detailed_findings_from 1 findings [].

(** [ComplianceReportGenerator._generate_recommendations]. *)
Definition generate_recommendations (findings : list pyval) : M (list string) :=
  let recommendations : list string := [] in
  critical_findings <- filter_severity "CRITICAL" findings ;;
  high_findings <- filter_severity "HIGH" findings ;;
  let recommendations :=
    match critical_findings with
    | _ :: _ =>
        recommendations ++
        [("PRIORITY 1: Address " ++ str_of_nat (List.length critical_findings)
          ++ " critical findings immediately")%string]
    | [] => recommendations
    end in
  let recommendations :=
    match high_findings with
    | _ :: _ =>
        recommendations ++
        [("PRIORITY 2: Remediate " ++ str_of_nat (List.length high_findings)
          ++ " high-severity findings within 30 days")%string]
    | [] => recommendations
    end in
  ret (recommendations ++
       [ "Implement automated compliance monitoring to detect issues proactively";
         "Establish regular compliance audit schedules";
         "Train development teams on compliance requirements";
         "Implement automated remediation for common issues" ]).

(** The report content, field by field. *)
Record report_content : Type := {
  rc_metadata : dict;
  rc_executiveSummary : string;
  rc_complianceScores : pyval;
  rc_bySeverity : list (string * nat);
  rc_byResourceType : list (pyval * nat);
  rc_detailedFindings : list dict;
  rc_recommendations : list string;
  rc_appendices : dict
}.

Section ComplianceReportGenerator.

(** [datetime.utcnow().isoformat()] when the world is [w]. *)
Variable utcnow_isoformat : world -> string.

(** [datetime.utcnow().strftime('%Y%m%d-%H%M%S')] when the world is [w]. *)
Variable utcnow_strftime : world -> string.

(** [str(uuid.uuid4())] when the world is [w]. *)
Variable uuid4_str : world -> string.

(** [str(v)] for floats, lists and dicts (Python's repr, not modelled). *)
Variable py_repr : pyval -> string.

(** [s3_client.put_object(Bucket, Key, Body, ...)] when the world is [w];
    the body is given as the value whose JSON text the buffer holds, the
    last argument is the [generated-at] metadata. *)
Variable s3_put_object : world -> string -> string -> dict -> string -> result unit.

(** [s3_client.generate_presigned_url('get_object', Bucket, Key, ...)]. *)
Variable s3_generate_presigned_url : world -> string -> string -> result string.

Definition now_isoformat : M string := utcnow utcnow_isoformat.

Definition now_strftime : M string := fun w => (Ok (utcnow_strftime w), S w).

Definition uuid4 : M string := fun w => (Ok (uuid4_str w), S w).

(** [ComplianceReportGenerator._create_report_content]. *)
Definition create_report_content (audit_run_id findings compliance_scores
    overall_score frameworks resources_scanned : pyval) : M report_content :=
  items <- py_iter findings ;;
  findings_by_severity <- group_by_severity items ;;
  findings_by_type <- group_by_type items [] ;;
  executive_summary <-
    generate_executive_summary overall_score findings_by_severity
      compliance_scores frameworks ;;
  detailed_findings <- generate_detailed_findings items ;;
  recommendations <- generate_recommendations items ;;
  report_id <- uuid4 ;;
  generated_at <- now_isoformat ;;
  total_findings <- py_len findings ;;
  rounded <- py_round1 overall_score ;;
  ret {| rc_metadata :=
           [ ("reportId", VStr report_id);
             ("auditRunId", audit_run_id);
             ("generatedAt", VStr generated_at);
             ("frameworks", frameworks);
             ("resourcesScanned", resources_scanned);
             ("totalFindings", VInt (Z.of_nat total_findings));
             ("overallComplianceScore", rounded) ];
         rc_executiveSummary := executive_summary;
         rc_complianceScores := compliance_scores;
         rc_bySeverity :=
           map (fun kv => (fst kv, List.length (snd kv))) findings_by_severity;
         rc_byResourceType :=
           map (fun kv => (fst kv, List.length (snd kv))) findings_by_type;
         rc_detailedFindings := detailed_findings;
         rc_recommendations := recommendations;
         rc_appendices :=
           [ ("scanConfiguration", VStr "Standard compliance scan configuration");
             ("scoringMethodology", VStr "Risk-based scoring with 0-100 scale");
             ("reportVersion", VStr "1.0.0") ] |}.

(** [ComplianceReportGenerator._generate_pdf_report]: the buffer holds the
    JSON text of the value returned here. *)
Definition generate_pdf_report (content : report_content) : M dict :=
  generated_at <- now_isoformat ;;
  ret [ ("contentType", VStr "application/pdf");
        ("metadata", VDict (rc_metadata content));
        ("structure",
          VDict [ ("sections",
                    VList [ VStr "Executive Summary";
                            VStr "Compliance Scores";
                            VStr "Findings Summary";
                            VStr "Detailed Findings";
                            VStr "Recommendations";
                            VStr "Appendices" ]) ]);
        ("pageCount", VInt 15);
        ("generatedAt", VStr generated_at) ].

(** [self.reports_bucket or 'secureauditai-reports-dev'], the bucket never
    being set. *)
Definition bucket_name : string := "secureauditai-reports-dev".

(** [ComplianceReportGenerator._upload_to_s3]. *)
Definition upload_to_s3 (pdf_buffer : dict) (report_key : string) : M string :=
  try_except
    (generated_at <- now_isoformat ;;
     _ <- (fun w => (s3_put_object w bucket_name report_key pdf_buffer generated_at, S w)) ;;
     presigned_url <- (fun w => (s3_generate_presigned_url w bucket_name report_key, S w)) ;;
     ret presigned_url)
    (fun e => raise (Exn "Exception" ("Failed to upload report to S3: " ++ exn_str e))).

(** The [try] block of [generate_compliance_report]. *)
Definition generate_compliance_report_body (audit_run_id findings
    compliance_scores overall_score frameworks resources_scanned : pyval) : M dict :=
  content <-
    create_report_content audit_run_id findings compliance_scores overall_score
      frameworks resources_scanned ;;
  pdf_buffer <- generate_pdf_report content ;;
  stamp <- now_strftime ;;
  let report_key :=
    ("reports/" ++ py_str py_repr audit_run_id ++ "/compliance-report-" ++ stamp ++ ".pdf")%string in
  s3_url <- upload_to_s3 pdf_buffer report_key ;;
  report_id <- uuid4 ;;
  generated_at <- now_isoformat ;;
  findings_count <- py_len findings ;;
  ret [ ("reportId", VStr report_id);
        ("auditRunId", audit_run_id);
        ("generatedAt", VStr generated_at);
        ("s3Location", VStr s3_url);
        ("s3Key", VStr report_key);
        ("findingsCount", VInt (Z.of_nat findings_count));
        ("overallScore", overall_score);
        ("frameworks", frameworks);
        ("status", VStr "COMPLETED") ].

(** The [except Exception as e] handler of [generate_compliance_report]. *)
Definition generate_compliance_report_handler (audit_run_id : pyval) (e : exn)
  : M dict :=
  report_id <- uuid4 ;;
  generated_at <- now_isoformat ;;
  ret [ ("reportId", VStr report_id);
        ("auditRunId", audit_run_id);
        ("generatedAt", VStr generated_at);
        ("status", VStr "ERROR");
        ("error", VStr (exn_str e)) ].

(** [ComplianceReportGenerator.generate_compliance_report]. *)
Definition generate_compliance_report (audit_run_id findings
    compliance_scores overall_score frameworks resources_scanned : pyval) : M dict :=
  try_except
    (generate_compliance_report_body audit_run_id findings compliance_scores
       overall_score frameworks resources_scanned)
    (generate_compliance_report_handler audit_run_id).

End ComplianceReportGenerator.

(* ================================================================== *)
(** ** Vocabulary of the specification *)
(* ================================================================== *)

(** The four severity tokens. *)
Definition severity_levels : list string := ["CRITICAL"; "HIGH"; "MEDIUM"; "LOW"].

(** The severity of a finding, [f.get('severity')]. *)
Definition severity_of (f : dict) : pyval := dict_get_or "severity" f VNone.

Definition valid_severity (v : pyval) : bool :=
  existsb (py_eq_str v) severity_levels.

(** riskScore is an integer in [0,100]. *)
Definition valid_risk_score (v : pyval) : bool :=
  match v with
  | VInt z => (0 <=? z)%Z && (z <=? 100)%Z
  | _ => false
  end.

(** Structural validation of a candidate as the specification words it:
    severity in the four-value enum and riskScore in [0,100] (after the
    defaults for unset fields). *)
Definition valid_candidate (candidate : dict) : bool :=
  valid_severity (dict_get_or "severity" candidate (VStr "MEDIUM"))
  && valid_risk_score (dict_get_or "riskScore" candidate (VInt 50)).

(** [normalize(framework, resource, candidate)] of the specification: the
    candidate's fields, with the policy default for each unset one. *)
Definition normalize (framework : string) (resource candidate : dict)
    (created_at : string) : dict :=
  [ ("title", dict_get_or "title" candidate (VStr (framework ++ " Compliance Issue")));
    ("description",
      dict_get_or "description" candidate (VStr "Compliance violation detected"));
    ("severity", dict_get_or "severity" candidate (VStr "MEDIUM"));
    ("resourceType", dict_get_or "type" resource (VStr "Unknown"));
    ("resourceId", dict_get_or "id" resource (VStr "Unknown"));
    ("complianceFrameworks", VList [VStr framework]);
    ("riskScore", dict_get_or "riskScore" candidate (VInt 50));
    ("remediationSteps", dict_get_or "remediationSteps" candidate (VList []));
    ("requirement",
      dict_get_or "requirement" candidate (VStr (framework ++ " requirement")));
    ("createdAt", VStr created_at) ].

(** One normalised finding per candidate, the clock read once for each. *)
Fixpoint normalize_all (clock : world -> string) (framework : string)
    (resource : dict) (candidates : list dict) (w : world) : list dict :=
  match candidates with
  | [] => []
  | c :: rest =>
      normalize framework resource c (clock w)
      :: normalize_all clock framework resource rest (S w)
  end.

(** The MEDIUM / riskScore 60 finding of the encryption rule. *)
Definition is_encryption_finding (f : dict) : bool :=
  py_eq_str (severity_of f) "MEDIUM"
  && match dict_get "riskScore" f with
     | Some (VInt z) => (z =? 60)%Z
     | _ => false
     end.

(** [config.encryption == false]: the key is there and its value equals
    [False]. *)
Definition encryption_equals_false (config : dict) : bool :=
  match dict_get "encryption" config with
  | Some v => py_eq_false v
  | None => false
  end.

(** The riskScore of a finding is an integer in [0,100]. *)
Definition risk_in_range (f : dict) : bool :=
  match dict_get "riskScore" f with
  | Some v => valid_risk_score v
  | None => false
  end.

(** [f.get('severity') == severity]. *)
Definition has_severity (severity : string) (f : dict) : bool :=
  py_eq_str (severity_of f) severity.

(** The finding has a [riskScore] field. *)
Definition has_risk (f : dict) : Prop := dict_get "riskScore" f <> None.

(** A score within [0,100]. *)
Definition in_0_100 (q : Q) : Prop := 0 <= q <= 100.


(** The riskScore of the finding is no float: an int, a bool, or no number
    at all. *)
Definition risk_not_float (f : dict) : bool :=
  match dict_get_or "riskScore" f (VInt 50) with
  | VFloat _ => false
  | _ => true
  end.



(** The sizes of the buckets, summed. *)
Definition bucket_total (findings_by_severity : list (string * list pyval)) : nat :=
  fold_right Nat.add 0%nat (map (fun kv => List.length (snd kv)) findings_by_severity).

(** What the loop of [audit_compliance] records for a trace of runs. *)
Definition score_of (framework_findings : list dict) : Q :=
  match framework_score framework_findings with
  | Ok q => q
  | Raise _ => 0
  end.

Definition record_scores (runs : list (string * list dict)) (compliance_scores : scores)
  : scores :=
  fold_left (fun sc run => scores_set (fst run) (score_of (snd run)) sc)
            runs compliance_scores.

(** Two findings that differ at most in [createdAt]. *)
Definition same_but_createdAt (f1 f2 : dict) : Prop :=
  forall k, k <> "createdAt" -> dict_get k f1 = dict_get k f2.

(* ================================================================== *)
(** ** Sample inputs *)
(* ================================================================== *)

Module Sample.

Definition clock (w : world) : string := "2024-01-01T00:00:" ++ str_of_nat w.

Definition stamp (w : world) : string := "20240101-0000" ++ str_of_nat w.

Definition uuid (w : world) : string := "uuid-" ++ str_of_nat w.

Definition repr (v : pyval) : string := "<" ++ py_type_name v ++ ">".

(** A model endpoint that is down: every call raises. *)
Definition bedrock_down (w : world) (framework : string) (resource : dict)
    (scan_config : pyval) : result pyval :=
  Raise (Exn "EndpointConnectionError" "Could not connect to the endpoint URL").

(** Scenario A: a public, unencrypted bucket. *)
Definition bucket_a : dict :=
  [ ("type", VStr "S3_BUCKET");
    ("id", VStr "b1");
    ("config", VDict [ ("publicAccess", VBool true); ("encryption", VBool false) ]) ].

(** A bucket whose config says nothing about encryption. *)
Definition bucket_no_key : dict :=
  [ ("type", VStr "S3_BUCKET"); ("id", VStr "b2"); ("config", VDict []) ].

(** A resource without [type]. *)
Definition untyped : dict :=
  [ ("id", VStr "x1"); ("config", VDict [ ("publicAccess", VBool true) ]) ].

(** A candidate that fails validation on both counts. *)
Definition bad_candidate : dict :=
  [ ("title", VStr "Odd finding"); ("severity", VStr "BOGUS"); ("riskScore", VInt 999) ].

(** A candidate with only a title. *)
Definition bare_candidate : dict := [ ("title", VStr "Bare finding") ].

(** Scenario D: the model reports a CRITICAL/90 and a HIGH/70 candidate. *)
Definition candidates_d : pyval :=
  VList [ VDict [ ("title", VStr "Card data unencrypted");
                  ("severity", VStr "CRITICAL"); ("riskScore", VInt 90) ];
          VDict [ ("title", VStr "Open security group");
                  ("severity", VStr "HIGH"); ("riskScore", VInt 70) ] ].

Definition bedrock_d (w : world) (framework : string) (resource : dict)
    (scan_config : pyval) : result pyval :=
  Ok candidates_d.

(** A finding whose severity is none of the four tokens. *)
Definition info_finding : dict :=
  [ ("title", VStr "Note"); ("severity", VStr "INFO"); ("riskScore", VInt 10) ].

Definition critical_finding : dict :=
  [ ("title", VStr "Wildcard role"); ("severity", VStr "CRITICAL"); ("riskScore", VInt 90) ].

Definition low_finding : dict :=
  [ ("title", VStr "Old tag"); ("severity", VStr "LOW"); ("riskScore", VInt 5) ].

(** An object store that accepts every upload. *)
Definition s3_put_ok (w : world) (bucket key : string) (body : dict)
    (generated_at : string) : result unit := Ok tt.

(** An object store that refuses every upload. *)
Definition s3_put_denied (w : world) (bucket key : string) (body : dict)
    (generated_at : string) : result unit :=
  Raise (Exn "ClientError" "AccessDenied").

Definition s3_presign (w : world) (bucket key : string) : result string :=
  Ok ("https://" ++ bucket ++ ".s3.amazonaws.com/" ++ key)%string.

End Sample.

(* ================================================================== *)
(** ** mock_data_generator.py *)
(* ================================================================== *)

Section MockResourceGenerator.

(** The random source: the raw number drawn when the world is [w]. *)
Variable entropy : world -> nat.

(** [uuid.uuid4().hex] when the world is [w]. *)
Variable uuid4_hex : world -> string.

(** [(datetime.utcnow() - timedelta(days=d)).isoformat()], the clock being
    read when the world is [w]. *)
Variable days_ago_isoformat : world -> nat -> string.

(** [random.randint(a, b)], for [a <= b]. *)
Definition randint (a b : nat) : M nat :=
  fun w => (Ok (a + entropy w mod (b - a + 1))%nat, S w).

(** [random.choice([first] + others)]. *)
Definition choice {A} (first : A) (others : list A) : M A :=
  fun w =>
    (Ok (nth (entropy w mod S (List.length others)) (first :: others) first), S w).

(** [uuid.uuid4().hex[:n]]. *)
Definition uuid_hex_prefix (n : nat) : M string :=
  fun w => (Ok (substring 0 n (uuid4_hex w)), S w).

(** [(datetime.utcnow() - timedelta(days=random.randint(a, b))).isoformat()]:
    the clock is read, then the number of days is drawn. *)
Definition days_ago (a b : nat) : M string :=
  fun w =>
    match randint a b (S w) with
    | (Ok d, w') => (Ok (days_ago_isoformat w d), w')
    | (Raise e, w') => (Raise e, w')
    end.

(** [random.choice(self.regions)]. *)
Definition choice_region : M string :=
  choice "us-west-2" ["us-west-2"; "eu-west-1"; "ap-southeast-1"].

(** [random.choice(self.environments)]. *)
Definition choice_environment : M string :=
  choice "dev" ["staging"; "prod"].

(** [random.choice([True, False, False])]. *)
Definition one_in_three : M bool := choice true [false; false].

(** [random.choice([True, True, False])]. *)
Definition two_in_three : M bool := choice true [true; false].

(** [random.choice([True, False])]. *)
Definition one_in_two : M bool := choice true [false].

(** The loop of [_generate_s3_buckets], [n] rounds to go. *)
Fixpoint s3_buckets_loop (n : nat) (buckets : list dict) : M (list dict) :=
  match n with
  | O => ret buckets
  | S n' =>
      number <- randint 100 999 ;;
      hex <- uuid_hex_prefix 8 ;;
      let bucket_name := ("example-bucket-" ++ str_of_nat number ++ "-" ++ hex)%string in
      has_public_access <- one_in_three ;;
      has_encryption <- two_in_three ;;
      has_versioning <- one_in_two ;;
      has_logging <- one_in_two ;;
      region <- choice_region ;;
      created_at <- days_ago 30 365 ;;
      environment <- choice_environment ;;
      project <- randint 1 5 ;;
      let config : dict :=
        [ ("publicAccess", VBool has_public_access);
          ("encryption", VBool has_encryption);
          ("versioning", VBool has_versioning);
          ("logging", VBool has_logging);
          ("blockPublicAccess", VBool (negb has_public_access));
          ("tags", VDict [ ("Environment", VStr environment);
                           ("Project", VStr ("Project-" ++ str_of_nat project)) ]) ] in
      let config : dict :=
        if has_public_access then
          config ++
          [ ("policy",
              VDict [ ("Version", VStr "2012-10-17");
                      ("Statement",
                        VList [ VDict [ ("Effect", VStr "Allow");
                                        ("Principal", VStr "*");
                                        ("Action", VStr "s3:GetObject");
                                        ("Resource",
                                          VStr ("arn:aws:s3:::" ++ bucket_name ++ "/*")) ] ]) ]) ]
        else config in
      let bucket : dict :=
        [ ("type", VStr "S3_BUCKET");
          ("id", VStr bucket_name);
          ("region", VStr region);
          ("createdAt", VStr created_at);
          ("config", VDict config) ] in
      s3_buckets_loop n' (buckets ++ [bucket])
  end.

(** [MockResourceGenerator._generate_s3_buckets]. *)
Definition generate_s3_buckets : M (list dict) :=
  num_buckets <- randint 5 15 ;;
  s3_buckets_loop num_buckets [].

(** The loop of [_generate_ec2_instances]. *)
Fixpoint ec2_instances_loop (n : nat) (instances : list dict) : M (list dict) :=
  match n with
  | O => ret instances
  | S n' =>
      hex <- uuid_hex_prefix 17 ;;
      let instance_id := ("i-" ++ hex)%string in
      has_public_ip <- one_in_three ;;
      open_security_group <- one_in_two ;;
      outdated_ami <- one_in_three ;;
      region <- choice_region ;;
      instance_type <- choice "t3.micro" ["t3.small"; "t3.medium"; "m5.large"] ;;
      launch_time <- days_ago 30 365 ;;
      ip3 <- randint 1 255 ;;
      ip4 <- randint 1 255 ;;
      group_hex <- uuid_hex_prefix 8 ;;
      monitoring <- one_in_two ;;
      server <- randint 1 10 ;;
      environment <- choice_environment ;;
      let config : dict :=
        [ ("publicIp", VBool has_public_ip);
          ("privateIp", VStr ("10.0." ++ str_of_nat ip3 ++ "." ++ str_of_nat ip4));
          ("securityGroups", VList [VStr ("sg-" ++ group_hex)]);
          ("openSecurityGroup", VBool open_security_group);
          ("outdatedAmi", VBool outdated_ami);
          ("monitoring", VBool monitoring);
          ("tags", VDict [ ("Name", VStr ("WebServer-" ++ str_of_nat server));
                           ("Environment", VStr environment) ]) ] in
      let config : dict :=
        if open_security_group then
          config ++
          [ ("securityGroupRules",
              VList [ VDict [ ("FromPort", VInt 22); ("ToPort", VInt 22);
                              ("IpProtocol", VStr "tcp");
                              ("IpRanges", VList [VDict [("CidrIp", VStr "0.0.0.0/0")]]) ];
                      VDict [ ("FromPort", VInt 80); ("ToPort", VInt 80);
                              ("IpProtocol", VStr "tcp");
                              ("IpRanges", VList [VDict [("CidrIp", VStr "0.0.0.0/0")]]) ] ]) ]
        else config in
      let instance : dict :=
        [ ("type", VStr "EC2_INSTANCE");
          ("id", VStr instance_id);
          ("region", VStr region);
          ("instanceType", VStr instance_type);
          ("state", VStr "running");
          ("launchTime", VStr launch_time);
          ("config", VDict config) ] in
      ec2_instances_loop n' (instances ++ [instance])
  end.

(** [MockResourceGenerator._generate_ec2_instances]. *)
Definition generate_ec2_instances : M (list dict) :=
  num_instances <- randint 3 10 ;;
  ec2_instances_loop num_instances [].

(** The permissions of a role generated without the wildcard. *)
Definition specific_permissions : list pyval :=
  [ VStr "s3:GetObject"; VStr "s3:PutObject"; VStr "dynamodb:GetItem";
    VStr "dynamodb:PutItem"; VStr "lambda:InvokeFunction" ].

(** [[f'policy-{i}' for i in range(n)]]. *)
Definition policy_names (n : nat) : list pyval :=
  map (fun i => VStr ("policy-" ++ str_of_nat i)) (seq 0 n).

(** The loop of [_generate_iam_roles]. *)
Fixpoint iam_roles_loop (n : nat) (roles : list dict) : M (list dict) :=
  match n with
  | O => ret roles
  | S n' =>
      kind <- choice "service" ["app"; "lambda"; "ec2"] ;;
      number <- randint 1 100 ;;
      let role_name := (kind ++ "-role-" ++ str_of_nat number)%string in
      has_wildcard <- one_in_three ;;
      attached_policies <- randint 1 5 ;;
      created_at <- days_ago 30 365 ;;
      environment <- choice_environment ;;
      let role : dict :=
        [ ("type", VStr "IAM_ROLE");
          ("id", VStr role_name);
          ("arn", VStr ("arn:aws:iam::123456789012:role/" ++ role_name));
          ("createdAt", VStr created_at);
          ("config",
            VDict [ ("permissions",
                      if has_wildcard then VList [VStr "*"]
                      else VList specific_permissions);
                    ("attachedPolicies", VList (policy_names attached_policies));
                    ("maxSessionDuration", VInt 3600);
                    ("tags", VDict [ ("Environment", VStr environment);
                                     ("ManagedBy", VStr "terraform") ]) ]) ] in
      iam_roles_loop n' (roles ++ [role])
  end.

(** [MockResourceGenerator._generate_iam_roles]. *)
Definition generate_iam_roles : M (list dict) :=
  num_roles <- randint 3 8 ;;
  iam_roles_loop num_roles [].

(** The loop of [_generate_lambda_functions]. *)
Fixpoint lambda_functions_loop (n : nat) (functions : list dict) : M (list dict) :=
  match n with
  | O => ret functions
  | S n' =>
      kind <- choice "process" ["api"; "worker"; "handler"] ;;
      number <- randint 1 100 ;;
      let function_name := (kind ++ "-function-" ++ str_of_nat number)%string in
      has_sensitive_env <- one_in_three ;;
      overprivileged_role <- one_in_two ;;
      runtime <- choice "python3.9" ["python3.8"; "nodejs14.x"; "java11"] ;;
      timeout <- randint 30 900 ;;
      memory_size <- choice 128%Z [256%Z; 512%Z; 1024%Z; 2048%Z] ;;
      created_at <- days_ago 30 365 ;;
      environment <- choice_environment ;;
      let environment_variables : dict :=
        if negb has_sensitive_env then
          [ ("ENVIRONMENT", VStr environment); ("LOG_LEVEL", VStr "INFO") ]
        else
          [ ("ENVIRONMENT", VStr environment);
            ("DB_PASSWORD", VStr "plaintext-password-123");
            ("API_KEY", VStr "secret-api-key-456");
            ("LOG_LEVEL", VStr "INFO") ] in
      vpc_config <- one_in_two ;;
      dead_letter_config <- one_in_two ;;
      project <- randint 1 3 ;;
      tag_environment <- choice_environment ;;
      let function : dict :=
        [ ("type", VStr "LAMBDA_FUNCTION");
          ("id", VStr function_name);
          ("arn",
            VStr ("arn:aws:lambda:us-west-2:123456789012:function:" ++ function_name));
          ("runtime", VStr runtime);
          ("handler", VStr (function_name ++ ".lambda_handler"));
          ("timeout", VInt (Z.of_nat timeout));
          ("memorySize", VInt memory_size);
          ("createdAt", VStr created_at);
          ("config",
            VDict [ ("environmentVariables", VDict environment_variables);
                    ("role",
                      VStr ("arn:aws:iam::123456789012:role/" ++ function_name ++ "-role"));
                    ("vpcConfig", VBool vpc_config);
                    ("deadLetterConfig", VBool dead_letter_config);
                    ("tags", VDict [ ("Project", VStr ("Project-" ++ str_of_nat project));
                                     ("Environment", VStr tag_environment) ]) ]) ] in
      lambda_functions_loop n' (functions ++ [function])
  end.

(** [MockResourceGenerator._generate_lambda_functions]. *)
Definition generate_lambda_functions : M (list dict) :=
  num_functions <- randint 2 8 ;;
  lambda_functions_loop num_functions [].

(** The loop of [_generate_rds_instances]. *)
Fixpoint rds_instances_loop (n : nat) (instances : list dict) : M (list dict) :=
  match n with
  | O => ret instances
  | S n' =>
      number <- randint 1 100 ;;
      let instance_id := ("database-" ++ str_of_nat number)%string in
      public_access <- one_in_three ;;
      encryption <- two_in_three ;;
      engine <- choice "mysql" ["postgresql"; "aurora-mysql"] ;;
      instance_class <- choice "db.t3.micro" ["db.t3.small"; "db.t3.medium"] ;;
      allocated_storage <- randint 20 100 ;;
      region <- choice_region ;;
      created_at <- days_ago 30 365 ;;
      backup_retention <- randint 7 35 ;;
      multi_az <- one_in_two ;;
      environment <- choice_environment ;;
      application <- randint 1 3 ;;
      let instance : dict :=
        [ ("type", VStr "RDS_INSTANCE");
          ("id", VStr instance_id);
          ("engine", VStr engine);
          ("engineVersion", VStr "8.0.23");
          ("instanceClass", VStr instance_class);
          ("allocatedStorage", VInt (Z.of_nat allocated_storage));
          ("region", VStr region);
          ("createdAt", VStr created_at);
          ("config",
            VDict [ ("publiclyAccessible", VBool public_access);
                    ("encryption", VBool encryption);
                    ("backupRetentionPeriod", VInt (Z.of_nat backup_retention));
                    ("multiAz", VBool multi_az);
                    ("tags", VDict [ ("Environment", VStr environment);
                                     ("Application",
                                       VStr ("App-" ++ str_of_nat application)) ]) ]) ] in
      rds_instances_loop n' (instances ++ [instance])
  end.

(** [MockResourceGenerator._generate_rds_instances]. *)
Definition generate_rds_instances : M (list dict) :=
  num_instances <- randint 1 4 ;;
  rds_instances_loop num_instances [].

(** The loop of [_generate_cloudtrail_trails] over the additional trails. *)
Fixpoint cloudtrail_trails_loop (n : nat) (trails : list dict) : M (list dict) :=
  match n with
  | O => ret trails
  | S n' =>
      number <- randint 1 100 ;;
      let trail_id := ("trail-" ++ str_of_nat number)%string in
      region <- choice_region ;;
      created_at <- days_ago 30 180 ;;
      validation <- one_in_two ;;
      environment <- choice_environment ;;
      purpose <- choice "security" ["audit"; "debug"] ;;
      let trail : dict :=
        [ ("type", VStr "CLOUDTRAIL_TRAIL");
          ("id", VStr trail_id);
          ("name", VStr trail_id);
          ("region", VStr region);
          ("createdAt", VStr created_at);
          ("config",
            VDict [ ("isMultiRegion", VBool false);
                    ("includeGlobalServiceEvents", VBool false);
                    ("isOrganizationTrail", VBool false);
                    ("logFileValidationEnabled", VBool validation);
                    ("tags", VDict [ ("Environment", VStr environment);
                                     ("Purpose", VStr purpose) ]) ]) ] in
      cloudtrail_trails_loop n' (trails ++ [trail])
  end.

(** [MockResourceGenerator._generate_cloudtrail_trails]. *)
Definition generate_cloudtrail_trails : M (list dict) :=
  created_at <- days_ago 180 365 ;;
  validation <- one_in_two ;;
  let main_trail : dict :=
    [ ("type", VStr "CLOUDTRAIL_TRAIL");
      ("id", VStr "main-trail");
      ("name", VStr "main-trail");
      ("region", VStr "us-west-2");
      ("createdAt", VStr created_at);
      ("config",
        VDict [ ("isMultiRegion", VBool true);
                ("includeGlobalServiceEvents", VBool true);
                ("isOrganizationTrail", VBool false);
                ("logFileValidationEnabled", VBool validation);
                ("tags", VDict [ ("Environment", VStr "prod");
                                 ("Compliance", VStr "required") ]) ]) ] in
  additional <- randint 0 2 ;;
  cloudtrail_trails_loop additional [main_trail].

(** [MockResourceGenerator.generate_mock_resources]; the scan
    configuration is not used. *)
Definition generate_mock_resources (scan_config : pyval) : M (list dict) :=
  let resources : list dict := [] in
  s3_buckets <- generate_s3_buckets ;;
  let resources := resources ++ s3_buckets in
  ec2_instances <- generate_ec2_instances ;;
  let resources := resources ++ ec2_instances in
  iam_roles <- generate_iam_roles ;;
  let resources := resources ++ iam_roles in
  lambda_functions <- generate_lambda_functions ;;
  let resources := resources ++ lambda_functions in
  rds_instances <- generate_rds_instances ;;
  let resources := resources ++ rds_instances in
  cloudtrail_trails <- generate_cloudtrail_trails ;;
  let resources := resources ++ cloudtrail_trails in
  ret resources.

End MockResourceGenerator.

(* ================================================================== *)
(** ** main.py: the entry points *)
(* ================================================================== *)

(** A score as the value stored: a float, but the int [0] of [max(0, x)]
    when the clamp has taken effect (no other score is zero). *)
Definition score_value (score : Q) : pyval :=
  if Qeq_bool score 0 then VInt 0 else VFloat score.

(** [compliance_scores] as the value handed on. *)
Definition scores_value (compliance_scores : scores) : pyval :=
  VDict (map (fun kv => (fst kv, score_value (snd kv))) compliance_scores).

(** [['GDPR', 'SOC2', 'PCI-DSS']]. *)
Definition default_frameworks : pyval :=
  VList [VStr "GDPR"; VStr "SOC2"; VStr "PCI-DSS"].

Section EntryPoints.

Variable utcnow_isoformat : world -> string.
Variable utcnow_strftime : world -> string.
Variable uuid4_str : world -> string.
Variable py_repr : pyval -> string.
Variable bedrock_analysis : world -> string -> dict -> pyval -> result pyval.
Variable s3_put_object : world -> string -> string -> dict -> string -> result unit.
Variable s3_generate_presigned_url : world -> string -> string -> result string.
Variable entropy : world -> nat.
Variable uuid4_hex : world -> string.
Variable days_ago_isoformat : world -> nat -> string.

(** The [try] block of [audit_compliance].  The calls of [print] are taken
    to succeed; of the first one, the join of the framework names is kept,
    since it raises on a value that is not an iterable of strs. *)
Definition audit_compliance_body (request : pyval) : M dict :=
  compliance_frameworks <- py_get request "complianceFrameworks" default_frameworks ;;
  scan_config <- py_get request "scanConfig" (VDict []) ;;
  fresh_id <- uuid4 uuid4_str ;;
  audit_run_id <- py_get request "auditRunId" (VStr fresh_id) ;;
  items <- join_iter compliance_frameworks ;;
  names <- join_items items 0 ;;
  resources <-
    generate_mock_resources entropy uuid4_hex days_ago_isoformat scan_config ;;
  scored <-
    audit_frameworks utcnow_isoformat py_repr bedrock_analysis
      names resources scan_config [] [] ;;
  let all_findings := fst scored in
  let compliance_scores := snd scored in
  let overall := overall_score compliance_scores in
  report <-
    generate_compliance_report utcnow_isoformat utcnow_strftime uuid4_str py_repr
      s3_put_object s3_generate_presigned_url
      audit_run_id (VList (map VDict all_findings)) (scores_value compliance_scores)
      (VFloat overall) compliance_frameworks
      (VInt (Z.of_nat (List.length resources))) ;;
  rounded <- py_round1 (VFloat overall) ;;
  completed_at <- utcnow utcnow_isoformat ;;
  ret [ ("auditRunId", audit_run_id);
        ("status", VStr "COMPLETED");
        ("findings", VList (map VDict all_findings));
        ("complianceScores", scores_value compliance_scores);
        ("overallScore", rounded);
        ("resourcesScanned", VInt (Z.of_nat (List.length resources)));
        ("frameworks", compliance_frameworks);
        ("reportGenerated", VBool true);
        ("completedAt", VStr completed_at) ].

(** The [except Exception as e] handler of [audit_compliance]. *)
Definition audit_compliance_handler (request : pyval) (e : exn) : M dict :=
  audit_run_id <- py_get request "auditRunId" (VStr "unknown") ;;
  completed_at <- utcnow utcnow_isoformat ;;
  ret [ ("auditRunId", audit_run_id);
        ("status", VStr "ERROR");
        ("error", VStr (exn_str e));
        ("completedAt", VStr completed_at) ].

(** [audit_compliance]. *)
Definition audit_compliance (request : pyval) : M dict :=
  try_except (audit_compliance_body request) (audit_compliance_handler request).

(** [generate_resources]. *)
Definition generate_resources (request : pyval) : M dict :=
  try_except
    (scan_config <- py_get request "scanConfig" (VDict []) ;;
     resources <-
       generate_mock_resources entropy uuid4_hex days_ago_isoformat scan_config ;;
     ret [ ("resources", VList (map VDict resources));
           ("count", VInt (Z.of_nat (List.length resources)));
           ("status", VStr "COMPLETED") ])
    (fun e => ret [ ("status", VStr "ERROR"); ("error", VStr (exn_str e)) ]).

End EntryPoints.

(* ================================================================== *)
(** ** trigger_scan.py: the simulated scan *)
(* ================================================================== *)

(** [v[k]] for a string literal [k]: the value under [k] of a dict, KeyError
    when there is none; a str and a list take no str as index, and the other
    values cannot be subscripted at all. *)
Definition py_subscript (v : pyval) (k : string) : M pyval :=
  match v with
  | VDict d =>
      match dict_get k d with
      | Some x => ret x
      | None => raise (Exn "KeyError" ("'" ++ k ++ "'"))
      end
  | VStr _ => type_error "string indices must be integers, not 'str'"
  | VList _ => type_error "list indices must be integers or slices, not str"
  | _ => type_error ("'" ++ py_type_name v ++ "' object is not subscriptable")
  end.

(** Lines 183-204. *)
Definition mock_resources : list dict :=
  [ [ ("type", VStr "S3_BUCKET");
      ("id", VStr "example-bucket-123");
      ("config", VDict [ ("public_access", VBool true);
                         ("encryption", VBool false) ]) ];
    [ ("type", VStr "EC2_INSTANCE");
      ("id", VStr "i-1234567890abcdef0");
      ("config", VDict [ ("security_groups", VList [VStr "sg-12345"]);
                         ("public_ip", VBool true) ]) ];
    [ ("type", VStr "IAM_ROLE");
      ("id", VStr "overprivileged-role");
      ("config", VDict [ ("permissions", VList [VStr "*"]);
                         ("attached_policies",
                          VList [VStr "AdministratorAccess"]) ]) ];
    [ ("type", VStr "LAMBDA_FUNCTION");
      ("id", VStr "vulnerable-function");
      ("config", VDict [ ("environment_variables",
                          VDict [("DB_PASSWORD", VStr "plaintext")]) ]) ] ].

(** Line 207. *)
Definition risk_scores : dict :=
  [ ("CRITICAL", VInt 90); ("HIGH", VInt 70); ("MEDIUM", VInt 50); ("LOW", VInt 30) ].

(** [sum(finding['risk_score'] for finding in findings)], from the running
    total [acc]. *)
Fixpoint total_risk_score (findings : list dict) (acc : Q) : M Q :=
  match findings with
  | [] => ret acc
  | finding :: rest =>
      risk <- py_subscript (VDict finding) "risk_score" ;;
      match as_number risk with
      | Some x => total_risk_score rest (acc + x)
      | None =>
          type_error ("unsupported operand type(s) for +: 'int' and '"
                      ++ py_type_name risk ++ "'")
      end
  end.

(** [max(0, x)] for a float [x]: the int [0] unless [x] is greater. *)
Definition py_max_0 (x : Q) : pyval := if Qle_bool x 0 then VInt 0 else VFloat x.

Section SimulateScan.

Variable entropy : world -> nat.
Variable py_repr : pyval -> string.

(** [resource['type'] == resource_type and <test of resource['config']>]:
    the config is looked at only when the type is the one asked for. *)
Definition type_and (resource : dict) (resource_type : string)
    (test : pyval -> M bool) : M bool :=
  t <- py_subscript (VDict resource) "type" ;;
  if py_eq_str t resource_type then
    config <- py_subscript (VDict resource) "config" ;;
    test config
  else ret false.

(** [resource['config'][key]], as a condition. *)
Definition config_flag (key : string) (config : pyval) : M bool :=
  flag <- py_subscript config key ;;
  ret (py_truthy flag).

(** ['*' in resource['config']['permissions']]. *)
Definition wildcard_permission (config : pyval) : M bool :=
  permissions <- py_subscript config "permissions" ;;
  py_str_in "*" permissions.

(** ['DB_PASSWORD' in str(resource['config'])]. *)
Definition password_in_text (config : pyval) : M bool :=
  ret (str_contains "DB_PASSWORD" (py_str py_repr config)).

(** [risk_scores[random.choice([first, second])]]. *)
Definition drawn_risk_score (first second : string) : M pyval :=
  severity <- choice entropy first [second] ;;
  py_subscript (VDict risk_scores) severity.

(** The dict literal of a finding (the four of lines 212-277 have the same
    fields, evaluated in this order): [describe] makes the description of the
    resource's id and the joined framework names, [severity] and [risk_score]
    are the expressions of these two fields. *)
Definition scan_finding (compliance_frameworks : pyval) (resource : dict)
    (title : string) (describe : string -> string -> string)
    (severity : M string) (remediation_steps : list string)
    (risk_score : M pyval) (compliance : string) : M dict :=
  described_id <- py_subscript (VDict resource) "id" ;;
  names <- py_join ", " compliance_frameworks ;;
  severity <- severity ;;
  resource_type <- py_subscript (VDict resource) "type" ;;
  resource_id <- py_subscript (VDict resource) "id" ;;
  risk_score <- risk_score ;;
  tagged_type <- py_subscript (VDict resource) "type" ;;
  ret [ ("title", VStr title);
        ("description", VStr (describe (py_str py_repr described_id) names));
        ("severity", VStr severity);
        ("resource_type", resource_type);
        ("resource_id", resource_id);
        ("compliance_frameworks", compliance_frameworks);
        ("remediation_steps", VList (map VStr remediation_steps));
        ("risk_score", risk_score);
        ("tags", VDict [ ("resource", tagged_type);
                         ("compliance", VStr compliance) ]) ].

(** Lines 209-277: the body of the loop over the resources. *)
Definition scan_resource (compliance_frameworks : pyval) (resource : dict)
    (findings : list dict) : M (list dict) :=
  public_bucket <- type_and resource "S3_BUCKET" (config_flag "public_access") ;;
  if public_bucket then
    finding <-
      scan_finding compliance_frameworks resource
        "S3 Bucket Public Access Enabled"
        (fun id names =>
           "S3 bucket " ++ id ++ " has public access enabled, violating "
           ++ names ++ " requirements")%string
        (choice entropy "HIGH" ["CRITICAL"])
        [ "Disable public access on S3 bucket";
          "Review bucket policy";
          "Enable S3 Block Public Access" ]
        (drawn_risk_score "HIGH" "CRITICAL")
        "public-access" ;;
    ret (findings ++ [finding])
  else
  public_instance <- type_and resource "EC2_INSTANCE" (config_flag "public_ip") ;;
  if public_instance then
    finding <-
      scan_finding compliance_frameworks resource
        "EC2 Instance Public IP Exposure"
        (fun id names =>
           "EC2 instance " ++ id
           ++ " has a public IP address, potentially violating " ++ names)%string
        (choice entropy "MEDIUM" ["HIGH"])
        [ "Review security group rules";
          "Consider using private subnets";
          "Implement proper access controls" ]
        (drawn_risk_score "MEDIUM" "HIGH")
        "network-exposure" ;;
    ret (findings ++ [finding])
  else
  wildcard_role <- type_and resource "IAM_ROLE" wildcard_permission ;;
  if wildcard_role then
    finding <-
      scan_finding compliance_frameworks resource
        "Over-Privileged IAM Role"
        (fun id names =>
           "IAM role " ++ id
           ++ " has wildcard permissions, violating least privilege principle in "
           ++ names)%string
        (ret "CRITICAL")
        [ "Review and remove wildcard permissions";
          "Apply principle of least privilege";
          "Use specific IAM actions only" ]
        (ret (VInt 90))
        "least-privilege" ;;
    ret (findings ++ [finding])
  else
  secret_function <- type_and resource "LAMBDA_FUNCTION" password_in_text ;;
  if secret_function then
    finding <-
      scan_finding compliance_frameworks resource
        "Sensitive Data in Lambda Environment Variables"
        (fun id names =>
           "Lambda function " ++ id
           ++ " contains sensitive data in environment variables, violating "
           ++ names)%string
        (ret "HIGH")
        [ "Remove sensitive data from environment variables";
          "Use AWS Secrets Manager or Parameter Store";
          "Update function configuration" ]
        (ret (VInt 70))
        "data-protection" ;;
    ret (findings ++ [finding])
  else ret findings.

Fixpoint scan_resources (compliance_frameworks : pyval) (resources : list dict)
    (findings : list dict) : M (list dict) :=
  match resources with
  | [] => ret findings
  | resource :: rest =>
      findings <- scan_resource compliance_frameworks resource findings ;;
      scan_resources compliance_frameworks rest findings
  end.

(** [simulate_compliance_scan]; the scan configuration is not looked at. *)
Definition simulate_compliance_scan (compliance_frameworks scan_config : pyval)
  : M dict :=
  findings <- scan_resources compliance_frameworks mock_resources [] ;;
  total_risk <- total_risk_score findings 0 ;;
  let max_possible_risk := (Z.of_nat (List.length findings) * 100)%Z in
  let compliance_score :=
    py_max_0 (100 - (total_risk / inject_Z (Z.max max_possible_risk 1)) * 100) in
  rounded <- py_round1 compliance_score ;;
  ret [ ("findings", VList (map VDict findings));
        ("compliance_score", rounded);
        ("summary",
         VStr ("Found " ++ str_of_nat (List.length findings)
               ++ " compliance issues across "
               ++ str_of_nat (List.length mock_resources) ++ " resources"));
        ("scanned_resources", VInt (Z.of_nat (List.length mock_resources)));
        ("compliance_frameworks", compliance_frameworks) ].

End SimulateScan.

(* ================================================================== *)
(** ** Vocabulary for the rest of the code *)
(* ================================================================== *)

(** The ten fields of a finding, in the order both producers write them. *)
Definition finding_keys : list string :=
  [ "title"; "description"; "severity"; "resourceType"; "resourceId";
    "complianceFrameworks"; "riskScore"; "remediationSteps"; "requirement";
    "createdAt" ].

(** The resource types the rule engine has rules for. *)
Definition ruled_types : list string :=
  [ "S3_BUCKET"; "EC2_INSTANCE"; "IAM_ROLE"; "LAMBDA_FUNCTION" ].

Definition has_rules (resource_type : pyval) : bool :=
  existsb (py_eq_str resource_type) ruled_types.

Definition is_dict (v : pyval) : bool :=
  match v with
  | VDict _ => true
  | _ => false
  end.

(** The values [s in v] accepts. *)
Definition is_container (v : pyval) : bool :=
  match v with
  | VList _ | VStr _ | VDict _ => true
  | _ => false
  end.

(** The resources the rule engine gets through without an exception: the
    type has no rules, or the config is a dict whose [permissions] (for a
    role) can be searched and whose [environmentVariables] (for a function)
    is a dict. *)
Definition rule_engine_safe (resource : dict) : bool :=
  let resource_type := dict_get_or "type" resource (VStr "") in
  if has_rules resource_type then
    match dict_get_or "config" resource (VDict []) with
    | VDict config =>
        if py_eq_str resource_type "IAM_ROLE" then
          is_container (dict_get_or "permissions" config (VList []))
        else if py_eq_str resource_type "LAMBDA_FUNCTION" then
          is_dict (dict_get_or "environmentVariables" config (VDict []))
        else true
    | _ => false
    end
  else true.

(** The (severity, riskScore) pairs of the rule table. *)
Definition rule_table : list (string * Z) :=
  [ ("HIGH", 75%Z); ("MEDIUM", 60%Z); ("MEDIUM", 50%Z); ("CRITICAL", 90%Z);
    ("HIGH", 70%Z) ].

Definition on_rule_table (f : dict) : bool :=
  match dict_get "riskScore" f with
  | Some (VInt risk) =>
      existsb (fun row => py_eq_str (severity_of f) (fst row) && (risk =? snd row)%Z)
              rule_table
  | _ => false
  end.

(** What every finding of the rule engine looks like for a framework and a
    resource. *)
Definition rule_finding (framework : string) (resource f : dict) : Prop :=
  map fst f = finding_keys /\
  dict_get "resourceType" f = Some (dict_get_or "type" resource (VStr "")) /\
  dict_get "resourceId" f = Some (dict_get_or "id" resource VNone) /\
  dict_get "complianceFrameworks" f = Some (VList [VStr framework]) /\
  on_rule_table f = true.

(** A finding with the ten fields, tagged with one framework. *)
Definition tagged_finding (framework : string) (f : dict) : Prop :=
  map fst f = finding_keys /\
  dict_get "complianceFrameworks" f = Some (VList [VStr framework]).

(** The severity and riskScore of each finding, in order. *)
Definition severity_and_risk (findings : list dict) : list (pyval * option pyval) :=
  map (fun f => (severity_of f, dict_get "riskScore" f)) findings.

(** The position of the first candidate that is not a record, if any. *)
Fixpoint first_non_dict (candidates : list pyval) : option nat :=
  match candidates with
  | [] => None
  | VDict _ :: rest => option_map S (first_non_dict rest)
  | _ :: _ => Some 0%nat
  end.

(** The records at the head of a candidate list. *)
Fixpoint leading_dicts (candidates : list pyval) : list dict :=
  match candidates with
  | VDict d :: rest => d :: leading_dicts rest
  | _ => []
  end.

(** The candidates an analysis result holds: those of a list, none for
    anything else. *)
Definition candidates_of (analysis_result : pyval) : list pyval :=
  match analysis_result with
  | VList candidates => candidates
  | _ => []
  end.

(** Whether, and after how many clock reads, the analysis of a resource
    leaves the model's answer for the rule engine: at once when the model call
    raised, after the records before it when a candidate is not a record,
    never otherwise. *)
Definition falls_back_after (answer : result pyval) : option nat :=
  match answer with
  | Raise _ => Some 0%nat
  | Ok analysis_result => first_non_dict (candidates_of analysis_result)
  end.

Definition answer_candidates (answer : result pyval) : list pyval :=
  match answer with
  | Raise _ => []
  | Ok analysis_result => candidates_of analysis_result
  end.

(** [finding.get('resourceType', 'Unknown')]. *)
Definition resource_type_of (f : dict) : pyval :=
  dict_get_or "resourceType" f (VStr "Unknown").

(** A bool, an int or a float. *)
Definition is_number (v : pyval) : bool :=
  match v with
  | VBool _ | VInt _ | VFloat _ => true
  | _ => false
  end.

(** The sizes of the resource-type groups, summed. *)
Definition group_total (groups : list (pyval * list pyval)) : nat :=
  fold_right Nat.add 0%nat (map (fun kv => List.length (snd kv)) groups).

(** The counts of a count table, summed. *)
Definition count_total {K} (counts : list (K * nat)) : nat :=
  fold_right Nat.add 0%nat (map snd counts).

(** The members of a group are records whose resource type is the group's
    key. *)
Definition group_of_its_key (group : pyval * list pyval) : Prop :=
  Forall (fun member =>
            exists f, member = VDict f /\
                      py_key_eq (resource_type_of f) (fst group) = true)
         (snd group).

(** The members of a group are the findings of [fs] whose resource type is
    the group's key, all of them and in the order of [fs]. *)
Definition group_holds_its_type (fs : list dict) (group : pyval * list pyval) : Prop :=
  snd group
  = map VDict (filter (fun f => py_key_eq (resource_type_of f) (fst group)) fs).

(** The resource type of the finding is the key of one of the groups. *)
Definition has_group (groups : list (pyval * list pyval)) (f : dict) : Prop :=
  exists group, In group groups /\
                py_key_eq (resource_type_of f) (fst group) = true.

(** No key of a later group equals the key of an earlier one. *)
Fixpoint keys_apart (groups : list (pyval * list pyval)) : Prop :=
  match groups with
  | [] => True
  | g :: rest =>
      Forall (fun g' => py_key_eq (fst g') (fst g) = false) rest /\ keys_apart rest
  end.

(** A float, or an int (or bool) that can be converted to one. *)
Definition float_like (v : pyval) : bool :=
  match to_float v with
  | Some (Ok _) => true
  | _ => false
  end.

(** The inputs of the report generator as its signature types them:
    findings a list of records whose resource types can be dict keys,
    scores a dict of floats, the overall score a float (an int within the
    range of the floats passes for one), frameworks a list of strs. *)
Definition typed_report_input (findings compliance_scores overall_score
    frameworks : pyval) (fs : list dict) : Prop :=
  findings = VList (map VDict fs) /\
  Forall (fun f => py_hashable (resource_type_of f) = true) fs /\
  (exists sc, compliance_scores = VDict sc /\
              Forall (fun kv => float_like (snd kv) = true) sc) /\
  float_like overall_score = true /\
  (exists names, frameworks = VList (map VStr names)).

(** The standing recommendations. *)
Definition standing_recommendations : list string :=
  [ "Implement automated compliance monitoring to detect issues proactively";
    "Establish regular compliance audit schedules";
    "Train development teams on compliance requirements";
    "Implement automated remediation for common issues" ].

(** The entry of the detailed list for finding [f], numbered [i]. *)
Definition detailed_entry (i : nat) (f : dict) : dict :=
  [ ("findingNumber", VInt (Z.of_nat i));
    ("title", dict_get_or "title" f (VStr "Untitled Finding"));
    ("severity", dict_get_or "severity" f (VStr "UNKNOWN"));
    ("resourceType", dict_get_or "resourceType" f (VStr "Unknown"));
    ("resourceId", dict_get_or "resourceId" f (VStr "Unknown"));
    ("description", dict_get_or "description" f (VStr "No description provided"));
    ("complianceFrameworks", dict_get_or "complianceFrameworks" f (VList []));
    ("riskScore", dict_get_or "riskScore" f (VInt 0));
    ("remediationSteps", dict_get_or "remediationSteps" f (VList []));
    ("recommendations", dict_get_or "recommendations" f (VStr ""));
    ("status", dict_get_or "status" f (VStr "OPEN")) ].

Fixpoint detailed_entries (i : nat) (fs : list dict) : list dict :=
  match fs with
  | [] => []
  | f :: rest => detailed_entry i f :: detailed_entries (S i) rest
  end.

(** The findings whose severity is one of the four tokens. *)
Definition with_valid_severity (fs : list dict) : list dict :=
  filter (fun f => valid_severity (severity_of f)) fs.

(** The two recommendations that depend on the findings. *)
Definition priority_recommendations (critical high : nat) : list string :=
  (if (0 <? critical)%nat
   then [("PRIORITY 1: Address " ++ str_of_nat critical
          ++ " critical findings immediately")%string]
   else [])
  ++ (if (0 <? high)%nat
      then [("PRIORITY 2: Remediate " ++ str_of_nat high
             ++ " high-severity findings within 30 days")%string]
      else []).


(** [m] returns, from every world, a value that satisfies [P]. *)
Definition returns {A} (m : M A) (P : A -> Prop) : Prop :=
  forall w, exists a w', m w = (Ok a, w') /\ P a.

(** The resource has a str id and a dict config, and is of the given type. *)
Definition resource_of_type (resource_type : string) (r : dict) : Prop :=
  dict_get "type" r = Some (VStr resource_type) /\
  (exists name, dict_get "id" r = Some (VStr name)) /\
  (exists config, dict_get "config" r = Some (VDict config)).

(** The config of a resource that has a dict config. *)
Definition config_of (r : dict) : dict :=
  match dict_get "config" r with
  | Some (VDict config) => config
  | _ => []
  end.

(** What the generator makes of a bucket: boolean flags, the block flag the
    negation of the public flag, a policy exactly on public buckets. *)
Definition generated_bucket (r : dict) : Prop :=
  resource_of_type "S3_BUCKET" r /\
  exists public encrypted,
    dict_get "publicAccess" (config_of r) = Some (VBool public) /\
    dict_get "encryption" (config_of r) = Some (VBool encrypted) /\
    dict_get "blockPublicAccess" (config_of r) = Some (VBool (negb public)) /\
    (dict_get "policy" (config_of r) <> None <-> public = true).

(** An instance: a boolean public-IP flag, rules exactly on open groups. *)
Definition generated_instance (r : dict) : Prop :=
  resource_of_type "EC2_INSTANCE" r /\
  exists public open,
    dict_get "publicIp" (config_of r) = Some (VBool public) /\
    dict_get "openSecurityGroup" (config_of r) = Some (VBool open) /\
    (dict_get "securityGroupRules" (config_of r) <> None <-> open = true).

(** A role: the wildcard alone, or the five specific permissions. *)
Definition generated_role (r : dict) : Prop :=
  resource_of_type "IAM_ROLE" r /\
  (dict_get "permissions" (config_of r) = Some (VList [VStr "*"]) \/
   dict_get "permissions" (config_of r) = Some (VList specific_permissions)).

(** A function: the two plain variables, or these and the two secrets. *)
Definition generated_function (r : dict) : Prop :=
  resource_of_type "LAMBDA_FUNCTION" r /\
  exists env_vars,
    dict_get "environmentVariables" (config_of r) = Some (VDict env_vars) /\
    (map fst env_vars = ["ENVIRONMENT"; "LOG_LEVEL"] \/
     map fst env_vars = ["ENVIRONMENT"; "DB_PASSWORD"; "API_KEY"; "LOG_LEVEL"]).

(** A generated inventory: six blocks in a fixed order, each with its
    number of resources within the bounds of its generator. *)
Definition generated_inventory (resources : list dict) : Prop :=
  exists buckets instances roles functions databases trails,
    resources = buckets ++ instances ++ roles ++ functions ++ databases ++ trails /\
    (5 <= List.length buckets <= 15)%nat /\ Forall generated_bucket buckets /\
    (3 <= List.length instances <= 10)%nat /\ Forall generated_instance instances /\
    (3 <= List.length roles <= 8)%nat /\ Forall generated_role roles /\
    (2 <= List.length functions <= 8)%nat /\ Forall generated_function functions /\
    (1 <= List.length databases <= 4)%nat /\
    Forall (resource_of_type "RDS_INSTANCE") databases /\
    (1 <= List.length trails <= 3)%nat /\
    Forall (resource_of_type "CLOUDTRAIL_TRAIL") trails.

(** The added resources of a loop: [n] of them, each of shape [P]. *)
Definition adds (P : dict -> Prop) (n : nat) (acc out : list dict) : Prop :=
  exists new, out = acc ++ new /\ List.length new = n /\ Forall P new.

(** The names a request asks for: a list of strs. *)
Definition names_value (names : list string) : pyval := VList (map VStr names).



(** The score lies in [0,100], whatever number it is. *)
Definition score_in_range (v : pyval) : Prop :=
  match as_number v with
  | Some q => 0 <= q <= 100
  | None => False
  end.


(** What [random.choice([first, second])] gives on the raw number [n]. *)
Definition drawn {A} (n : nat) (first second : A) : A :=
  nth (n mod 2) [first; second] first.

(** The type, severity and risk score of each simulated finding, in order. *)
Definition scan_verdicts (findings : list dict)
  : list (option pyval * option pyval * option pyval) :=
  map (fun f => (dict_get "resource_type" f, dict_get "severity" f,
                 dict_get "risk_score" f)) findings.

(** The config of the function of [mock_resources]. *)
Definition function_config : pyval :=
  VDict [("environment_variables", VDict [("DB_PASSWORD", VStr "plaintext")])].

Module Demo.

(** A role whose permissions name a service wildcard but not ["*"]. *)
Definition role_service_wildcard : dict :=
  [ ("type", VStr "IAM_ROLE"); ("id", VStr "r2");
    ("config", VDict [ ("permissions", VList [VStr "s3:*"; VStr "iam:PassRole"]) ]) ].

(** A bucket whose config is null. *)
Definition bucket_null_config : dict :=
  [ ("type", VStr "S3_BUCKET"); ("id", VStr "b3"); ("config", VNone) ].

Definition instance_public : dict :=
  [ ("type", VStr "EC2_INSTANCE"); ("id", VStr "i-1");
    ("config", VDict [ ("publicIp", VBool true) ]) ].


Definition database : dict :=
  [ ("type", VStr "RDS_INSTANCE"); ("id", VStr "database-1");
    ("config", VDict [ ("publiclyAccessible", VBool true) ]) ].

(** A model that answers with an object wrapping the findings. *)
Definition bedrock_wrapped (w : world) (framework : string) (resource : dict)
    (scan_config : pyval) : result pyval :=
  Ok (VDict [ ("findings", VList [VDict Sample.bare_candidate]) ]).

(** A model whose second candidate is a string. *)
Definition bedrock_mixed (w : world) (framework : string) (resource : dict)
    (scan_config : pyval) : result pyval :=
  Ok (VList [VDict Sample.bare_candidate; VStr "oops"; VDict Sample.bad_candidate]).


(** A model that is down, except for GDPR, where it reports a riskScore in
    words. *)
Definition bedrock_words_for_gdpr (w : world) (framework : string)
    (resource : dict) (scan_config : pyval) : result pyval :=
  if String.eqb framework "GDPR" then
    Ok (VList [VDict [ ("title", VStr "Weak cipher"); ("riskScore", VStr "high") ]])
  else Raise (Exn "EndpointConnectionError" "Could not connect to the endpoint URL").

(** A model that reports a riskScore in words. *)
Definition bedrock_words (w : world) (framework : string) (resource : dict)
    (scan_config : pyval) : result pyval :=
  Ok (VList [VDict [ ("title", VStr "Weak cipher"); ("riskScore", VStr "high") ]]).

(** A finding with a negative riskScore. *)
Definition negative_risk : dict :=
  [ ("title", VStr "Credit"); ("severity", VStr "LOW"); ("riskScore", VInt (-50)) ].

(** A finding with no resourceType and no severity. *)
Definition anonymous_finding : dict := [ ("title", VStr "Loose end") ].

Definition bucket_finding : dict :=
  [ ("title", VStr "Open bucket"); ("severity", VStr "HIGH");
    ("resourceType", VStr "S3_BUCKET"); ("riskScore", VInt 75) ].


Definition report_findings : list dict :=
  [ bucket_finding; anonymous_finding; Sample.info_finding ].

Definition entropy (w : world) : nat := (7 * w + 3)%nat.

Definition hex (w : world) : string := "0123456789abcdef0123456789abcdef".


(** A bucket as the generator makes it: public and not encrypted. *)
Definition public_bucket : dict :=
  [ ("type", VStr "S3_BUCKET");
    ("id", VStr "example-bucket-100-01234567");
    ("config", VDict [ ("publicAccess", VBool true);
                       ("encryption", VBool false);
                       ("blockPublicAccess", VBool false);
                       ("policy", VDict [("Version", VStr "2012-10-17")]) ]) ].

(** Python's [str] of a one-entry dict that holds a one-entry dict of strs
    (no quote in any of them); the type name in brackets for the rest. *)
Definition repr_nested (v : pyval) : string :=
  match v with
  | VDict [(outer, VDict [(name, VStr value)])] =>
      "{'" ++ outer ++ "': {'" ++ name ++ "': '" ++ value ++ "'}}"
  | _ => "<" ++ py_type_name v ++ ">"
  end.

End Demo.

(* ================================================================== *)
(** ** Properties of the rule engine *)
(* ================================================================== *)

Lemma dict_get_or_some k d v default :
  dict_get k d = Some v -> dict_get_or k d default = v.
Proof. unfold dict_get_or; intros ->; reflexivity. Qed.

Lemma dict_get_or_none k d default :
  dict_get k d = None -> dict_get_or k d default = default.
Proof. unfold dict_get_or; intros ->; reflexivity. Qed.

Lemma dict_get_remove_neq k k' d :
  k <> k' -> dict_get k (dict_remove k' d) = dict_get k d.
Proof.
  intros Hk; induction d as [|[k0 v] d IH]; simpl; [reflexivity|].
  destruct (String.eqb k' k0) eqn:E0.
  - apply String.eqb_eq in E0; subst k0.
    destruct (String.eqb k k') eqn:E1; [apply String.eqb_eq in E1; contradiction|].
    exact IH.
  - simpl; rewrite IH; reflexivity.
Qed.

Lemma erased_same_but_createdAt f1 f2 :
  dict_remove "createdAt" f1 = dict_remove "createdAt" f2 ->
  same_but_createdAt f1 f2.
Proof.
  intros E k Hk.
  rewrite <- (dict_get_remove_neq k "createdAt" f1 Hk).
  rewrite <- (dict_get_remove_neq k "createdAt" f2 Hk).
  rewrite E; reflexivity.
Qed.

(** Unfolds the monad around a run. *)
Ltac run_monad :=
  cbv beta iota delta
    [bind ret lift raise try_except py_get py_keys py_str_in utcnow
     attribute_error type_error].

(** Closes the goal of two successful runs that differ in [createdAt]. *)
Ltac agree_but_createdAt :=
  cbn [fst]; split;
  [ reflexivity
  | repeat constructor; apply erased_same_but_createdAt; reflexivity ].

Section RuleEngine.

Variable utcnow_isoformat : world -> string.
Variable py_repr : pyval -> string.

Local Notation "'evaluate'" := (rule_based_analysis utcnow_isoformat py_repr).

(** C1 (Scenario A).  For every framework string, the rule engine on the
    bucket [{type: S3_BUCKET, id: "b1", config: {publicAccess: true,
    encryption: false}}] returns exactly two findings: the public-access one
    with severity HIGH and riskScore 75, then the encryption one with severity
    MEDIUM and riskScore 60.  Both conditions fire on the same input; the
    clock is read once for each. *)
Theorem scenario_a_two_findings (framework : string) (w : world) :
  evaluate framework Sample.bucket_a w =
  (Ok [ [ ("title", VStr ("S3 Bucket Public Access (" ++ framework ++ ")"));
          ("description", VStr "S3 bucket b1 has public access enabled");
          ("severity", VStr "HIGH");
          ("resourceType", VStr "S3_BUCKET");
          ("resourceId", VStr "b1");
          ("complianceFrameworks", VList [VStr framework]);
          ("riskScore", VInt 75);
          ("remediationSteps",
            VList [ VStr "Disable public access on S3 bucket";
                    VStr "Review bucket policy for public permissions";
                    VStr "Enable S3 Block Public Access" ]);
          ("requirement", VStr (framework ++ ": Data protection requirements"));
          ("createdAt", VStr (utcnow_isoformat w)) ];
        [ ("title", VStr ("S3 Bucket Encryption (" ++ framework ++ ")"));
          ("description", VStr "S3 bucket b1 does not have encryption enabled");
          ("severity", VStr "MEDIUM");
          ("resourceType", VStr "S3_BUCKET");
          ("resourceId", VStr "b1");
          ("complianceFrameworks", VList [VStr framework]);
          ("riskScore", VInt 60);
          ("remediationSteps",
            VList [ VStr "Enable S3 default encryption";
                    VStr "Use AES-256 or AWS-KMS encryption" ]);
          ("requirement", VStr (framework ++ ": Encryption requirements"));
          ("createdAt", VStr (utcnow_isoformat (S w))) ] ],
   S (S w)).
Proof. reflexivity. Qed.

(** C7.  A resource dict without the [type] key makes the rule engine return
    the empty sequence, for every framework: no exception, no finding, and the
    clock is not read. *)
Theorem missing_type_no_findings (framework : string) (resource : dict) (w : world) :
  dict_get "type" resource = None ->
  evaluate framework resource w = (Ok [], w).
Proof.
  intros Htype.
  unfold rule_based_analysis.
  rewrite (dict_get_or_none "type" resource (VStr "") Htype).
  reflexivity.
Qed.

(** C5, as amended.  For an S3_BUCKET resource whose config is a dict (or is
    absent), the rule engine returns normally, and the MEDIUM / riskScore 60
    encryption finding is among the findings exactly when the value of
    [config.get('encryption', False)] is falsy: the key is absent, or its
    value is false, null, zero or empty. *)
Theorem encryption_finding_iff_falsy
    (framework : string) (resource config : dict) (w : world) :
  dict_get "type" resource = Some (VStr "S3_BUCKET") ->
  dict_get_or "config" resource (VDict []) = VDict config ->
  exists findings w',
    evaluate framework resource w = (Ok findings, w') /\
    (existsb is_encryption_finding findings = true <->
     py_truthy (dict_get_or "encryption" config (VBool false)) = false).
Proof.
  intros Htype Hconfig.
  unfold rule_based_analysis.
  rewrite (dict_get_or_some "type" resource _ (VStr "") Htype), Hconfig.
  cbn [py_eq_str String.eqb Ascii.eqb Bool.eqb].
  cbv beta iota delta [bind ret py_get utcnow].
  destruct (py_truthy (dict_get_or "publicAccess" config (VBool false)));
    destruct (py_truthy (dict_get_or "encryption" config (VBool false)));
    cbn; eexists; eexists; (split; [reflexivity|]); cbn;
    split; congruence.
Qed.

(** C9.  Two runs of the rule engine on the same framework and resource,
    under any two clocks and at any two moments, end the same way: either
    both raise the same exception, or both return finding sequences that are
    equal once [createdAt] is removed, so that corresponding findings agree
    on every other key (title, severity, riskScore, resourceType, resourceId,
    complianceFrameworks, remediationSteps, requirement, description). *)
Theorem two_runs_agree_but_createdAt
    (clock1 clock2 : world -> string) (framework : string) (resource : dict)
    (w1 w2 : world) :
  match fst (rule_based_analysis clock1 py_repr framework resource w1),
        fst (rule_based_analysis clock2 py_repr framework resource w2) with
  | Ok fs1, Ok fs2 =>
      map (dict_remove "createdAt") fs1 = map (dict_remove "createdAt") fs2 /\
      Forall2 same_but_createdAt fs1 fs2
  | Raise e1, Raise e2 => e1 = e2
  | _, _ => False
  end.
Proof.
  unfold rule_based_analysis.
  destruct (py_eq_str (dict_get_or "type" resource (VStr "")) "S3_BUCKET");
    [|destruct (py_eq_str (dict_get_or "type" resource (VStr "")) "EC2_INSTANCE");
      [|destruct (py_eq_str (dict_get_or "type" resource (VStr "")) "IAM_ROLE");
        [|destruct (py_eq_str (dict_get_or "type" resource (VStr ""))
                      "LAMBDA_FUNCTION")]]];
    (destruct (dict_get_or "config" resource (VDict [])) as [| | | | | |config]);
    run_monad; try reflexivity.
  - destruct (py_truthy (dict_get_or "publicAccess" config (VBool false)));
      destruct (py_truthy (dict_get_or "encryption" config (VBool false)));
      agree_but_createdAt.
  - destruct (py_truthy (dict_get_or "publicIp" config (VBool false)));
      agree_but_createdAt.
  - destruct (dict_get_or "permissions" config (VList [])); try reflexivity;
      match goal with
      | |- context [if ?b then _ else _] => destruct b
      end; agree_but_createdAt.
  - destruct (dict_get_or "environmentVariables" config (VDict []))
      as [| | | | | |env_vars]; try reflexivity.
    destruct (has_sensitive_name (map fst env_vars)); agree_but_createdAt.
  - agree_but_createdAt.
  - agree_but_createdAt.
  - agree_but_createdAt.
  - agree_but_createdAt.
  - agree_but_createdAt.
  - agree_but_createdAt.
  - agree_but_createdAt.
Qed.

End RuleEngine.

Lemma missing_type_no_findings_witness :
  dict_get "type" Sample.untyped = None /\
  rule_based_analysis Sample.clock Sample.repr "GDPR" Sample.untyped 0%nat = (Ok [], 0%nat).
Proof.
  split; [reflexivity|].
  apply (missing_type_no_findings Sample.clock Sample.repr "GDPR" Sample.untyped 0%nat).
  reflexivity.
Defined.

(** C5, as stated, fails: the bucket [{type: S3_BUCKET, id: "b2", config: {}}]
    has no [encryption] key, so [config.encryption == false] does not hold,
    and yet the rule engine produces the MEDIUM / riskScore 60 encryption
    finding for it. *)
Lemma encryption_finding_without_key :
  encryption_equals_false [] = false /\
  dict_get "config" Sample.bucket_no_key = Some (VDict []) /\
  exists findings w',
    rule_based_analysis Sample.clock Sample.repr "GDPR" Sample.bucket_no_key 0%nat
    = (Ok findings, w') /\
    map severity_of findings = [VStr "MEDIUM"] /\
    map (dict_get "riskScore") findings = [Some (VInt 60)] /\
    existsb is_encryption_finding findings = true.
Proof.
  split; [reflexivity|].
  split; [reflexivity|].
  eexists; eexists.
  split; [reflexivity|].
  repeat split.
Qed.

Lemma encryption_finding_iff_falsy_witness :
  exists findings w',
    rule_based_analysis Sample.clock Sample.repr "SOC2" Sample.bucket_no_key 0%nat
    = (Ok findings, w') /\
    (existsb is_encryption_finding findings = true <->
     py_truthy (dict_get_or "encryption" [] (VBool false)) = false).
Proof.
  apply (encryption_finding_iff_falsy Sample.clock Sample.repr "SOC2"
           Sample.bucket_no_key [] 0%nat); reflexivity.
Defined.

(* ================================================================== *)
(** ** Properties of the finding normaliser *)
(* ================================================================== *)

Section Normalizer.

Variable utcnow_isoformat : world -> string.

Lemma parse_candidates_dicts framework resource candidates :
  forall findings w,
    parse_candidates utcnow_isoformat framework resource
      (map VDict candidates) findings w
    = (Ok (findings
           ++ normalize_all utcnow_isoformat framework resource candidates w),
       (List.length candidates + w)%nat).
Proof.
  induction candidates as [|c rest IH]; intros findings w.
  - cbn. rewrite app_nil_r. reflexivity.
  - cbn [map parse_candidates]. run_monad.
    rewrite IH. cbn [normalize_all List.length].
    rewrite <- app_assoc. cbn [app].
    rewrite Nat.add_succ_r. reflexivity.
Qed.

Lemma parse_analysis_result_dicts framework resource candidates w :
  parse_analysis_result utcnow_isoformat framework resource
    (VList (map VDict candidates)) w
  = (Ok (normalize_all utcnow_isoformat framework resource candidates w),
     (List.length candidates + w)%nat).
Proof.
  unfold parse_analysis_result. rewrite parse_candidates_dicts. reflexivity.
Qed.

Lemma normalize_all_length framework resource candidates :
  forall w,
    List.length (normalize_all utcnow_isoformat framework resource candidates w)
    = List.length candidates.
Proof.
  induction candidates as [|c rest IH]; intros w; cbn; [|rewrite IH]; reflexivity.
Qed.

Lemma normalize_all_Forall2 (R : dict -> dict -> Prop) framework resource :
  (forall c created_at, R c (normalize framework resource c created_at)) ->
  forall candidates w,
    Forall2 R candidates
      (normalize_all utcnow_isoformat framework resource candidates w).
Proof.
  intros HR candidates.
  induction candidates as [|c rest IH]; intros w; cbn; constructor; auto.
Qed.

(** C3, as amended.  The parsing step validates nothing: for every list of
    candidate records, every candidate, also one whose riskScore is outside
    [0,100] or whose severity is none of the four tokens, yields one finding
    that carries the candidate's own severity and riskScore unchanged (the
    default where the field is unset); no candidate is discarded. *)
Theorem parsing_keeps_every_candidate_as_is
    (framework : string) (resource : dict) (candidates : list dict) (w : world) :
  exists out,
    fst (parse_analysis_result utcnow_isoformat framework resource
           (VList (map VDict candidates)) w) = Ok out /\
    Forall2
      (fun c f =>
         severity_of f = dict_get_or "severity" c (VStr "MEDIUM") /\
         dict_get "riskScore" f = Some (dict_get_or "riskScore" c (VInt 50)) /\
         valid_candidate c
         = valid_severity (severity_of f)
           && valid_risk_score (dict_get_or "riskScore" f VNone))
      candidates out.
Proof.
  rewrite parse_analysis_result_dicts. cbn [fst].
  eexists; split; [reflexivity|].
  apply normalize_all_Forall2.
  intros c created_at. repeat split.
Qed.

(** C8.  For every list of candidate records the normaliser returns exactly
    one finding per candidate, in order, and each unset optional field takes
    its policy default: severity MEDIUM, riskScore 50, remediationSteps the
    empty sequence, requirement ["<framework> requirement"]; a field that is
    set is kept. *)
Theorem one_finding_per_candidate_with_defaults
    (framework : string) (resource : dict) (candidates : list dict) (w : world) :
  exists out,
    fst (parse_analysis_result utcnow_isoformat framework resource
           (VList (map VDict candidates)) w) = Ok out /\
    List.length out = List.length candidates /\
    Forall2
      (fun c f =>
         dict_get "severity" f
         = Some match dict_get "severity" c with
                | Some v => v
                | None => VStr "MEDIUM"
                end /\
         dict_get "riskScore" f
         = Some match dict_get "riskScore" c with
                | Some v => v
                | None => VInt 50
                end /\
         dict_get "remediationSteps" f
         = Some match dict_get "remediationSteps" c with
                | Some v => v
                | None => VList []
                end /\
         dict_get "requirement" f
         = Some match dict_get "requirement" c with
                | Some v => v
                | None => VStr (framework ++ " requirement")
                end)
      candidates out.
Proof.
  rewrite parse_analysis_result_dicts. cbn [fst].
  eexists; split; [reflexivity|].
  split; [apply normalize_all_length|].
  apply normalize_all_Forall2.
  intros c created_at. repeat split.
Qed.

End Normalizer.

(** A candidate with nothing but a title takes every default. *)
Example bare_candidate_defaults :
  fst (parse_analysis_result Sample.clock "SOC2" Sample.untyped
         (VList [VDict Sample.bare_candidate]) 7%nat)
  = Ok [ [ ("title", VStr "Bare finding");
           ("description", VStr "Compliance violation detected");
           ("severity", VStr "MEDIUM");
           ("resourceType", VStr "Unknown");
           ("resourceId", VStr "x1");
           ("complianceFrameworks", VList [VStr "SOC2"]);
           ("riskScore", VInt 50);
           ("remediationSteps", VList []);
           ("requirement", VStr "SOC2 requirement");
           ("createdAt", VStr (Sample.clock 7%nat)) ] ].
Proof. reflexivity. Qed.

(** A candidate that is not a record makes the whole parse raise, and the
    analysis of the resource falls back on the rule engine. *)
Example non_record_candidate_falls_back :
  fst (parse_analysis_result Sample.clock "GDPR" Sample.bucket_a
         (VList [VDict Sample.bare_candidate; VStr "oops"]) 0%nat)
  = Raise (Exn "AttributeError" "'str' object has no attribute 'get'") /\
  fst (analyze_resource Sample.clock Sample.repr
         (fun _ _ _ _ => Ok (VList [VDict Sample.bare_candidate; VStr "oops"]))
         "GDPR" Sample.bucket_a (VDict []) 0%nat)
  = fst (rule_based_analysis Sample.clock Sample.repr "GDPR" Sample.bucket_a 2%nat).
Proof. split; reflexivity. Qed.

(** C3, as stated, fails: the candidate [{title: "Odd finding", severity:
    "BOGUS", riskScore: 999}] does not pass validation, and the parsing step
    returns a finding for it all the same, with that severity and riskScore. *)
Lemma invalid_candidate_is_kept :
  valid_candidate Sample.bad_candidate = false /\
  fst (parse_analysis_result Sample.clock "GDPR" Sample.bucket_a
         (VList [VDict Sample.bad_candidate]) 0%nat)
  = Ok [ [ ("title", VStr "Odd finding");
           ("description", VStr "Compliance violation detected");
           ("severity", VStr "BOGUS");
           ("resourceType", VStr "S3_BUCKET");
           ("resourceId", VStr "b1");
           ("complianceFrameworks", VList [VStr "GDPR"]);
           ("riskScore", VInt 999);
           ("remediationSteps", VList []);
           ("requirement", VStr "GDPR requirement");
           ("createdAt", VStr (Sample.clock 0%nat)) ] ].
Proof. split; reflexivity. Qed.

(* ================================================================== *)
(** ** Properties of the scoring step *)
(* ================================================================== *)

Lemma len_Q_pos {A} (x : A) (l : list A) : 0 < len_Q (x :: l).
Proof.
  unfold len_Q. change 0 with (inject_Z 0). rewrite <- Zlt_Qlt.
  cbn [List.length]. lia.
Qed.

Lemma len_Q_cons {A} (x : A) (l : list A) : len_Q (x :: l) == len_Q l + 1.
Proof.
  unfold len_Q. cbn [List.length]. rewrite Nat2Z.inj_succ.
  unfold Z.succ. rewrite inject_Z_plus. reflexivity.
Qed.

Lemma len_Q_nonneg {A} (l : list A) : 0 <= len_Q l.
Proof.
  unfold len_Q. change 0 with (inject_Z 0). rewrite <- Zle_Qle. lia.
Qed.

Lemma risk_values_length findings :
  forall risks, risk_values findings = Some risks ->
  List.length risks = List.length findings.
Proof.
  induction findings as [|f rest IH]; cbn; intros risks H.
  - injection H as <-. reflexivity.
  - destruct (as_number (dict_get_or "riskScore" f (VInt 50))); [|discriminate].
    destruct (risk_values rest) as [xs|]; [|discriminate].
    injection H as <-. cbn. rewrite (IH xs eq_refl). reflexivity.
Qed.

Lemma as_int_number v z : as_int v = Some z -> as_number v = Some (inject_Z z).
Proof.
  destruct v as [|b| | | | |]; cbn; intros [= <-]; try reflexivity.
  destruct b; reflexivity.
Qed.

Lemma int_risk_values_numbers findings :
  forall zs, int_risk_values findings = Some zs ->
  risk_values findings = Some (map inject_Z zs).
Proof.
  induction findings as [|f rest IH]; cbn [int_risk_values risk_values]; intros zs H.
  - injection H as <-. reflexivity.
  - destruct (as_int (dict_get_or "riskScore" f (VInt 50))) as [z|] eqn:Hz;
      [|discriminate].
    destruct (int_risk_values rest) as [zs'|]; [|discriminate].
    injection H as <-.
    rewrite (as_int_number _ _ Hz), (IH zs' eq_refl). reflexivity.
Qed.

Lemma int_risk_values_length findings :
  forall zs, int_risk_values findings = Some zs ->
  List.length zs = List.length findings.
Proof.
  induction findings as [|f rest IH]; cbn [int_risk_values]; intros zs H.
  - injection H as <-. reflexivity.
  - destruct (as_int (dict_get_or "riskScore" f (VInt 50))); [|discriminate].
    destruct (int_risk_values rest) as [zs'|]; [|discriminate].
    injection H as <-. cbn. rewrite (IH zs' eq_refl). reflexivity.
Qed.

Lemma Qsum_ints zs : Qsum (map inject_Z zs) == inject_Z (Zsum zs).
Proof.
  induction zs as [|z zs IH]; cbn [map Qsum Zsum fold_right].
  - reflexivity.
  - fold (Zsum zs). rewrite IH, inject_Z_plus. reflexivity.
Qed.

(** Ints are summed exactly, whatever their size. *)
Lemma sum_risk_ints findings :
  forall acc zs, int_risk_values findings = Some zs ->
  sum_risk findings (VInt acc) = Ok (VInt (acc + Zsum zs)).
Proof.
  induction findings as [|f rest IH]; cbn [int_risk_values sum_risk]; intros acc zs H.
  - injection H as <-. cbn. rewrite Z.add_0_r. reflexivity.
  - destruct (as_int (dict_get_or "riskScore" f (VInt 50))) as [z|] eqn:Hz;
      [|discriminate].
    destruct (int_risk_values rest) as [zs'|]; [|discriminate].
    injection H as <-.
    unfold py_add. cbn [as_int]. rewrite Hz.
    rewrite (IH (acc + z)%Z zs' eq_refl).
    cbn [Zsum fold_right]. fold (Zsum zs'). rewrite Z.add_assoc. reflexivity.
Qed.

Lemma py_max0_Qmax x : py_max0 x == Qmax 0 x.
Proof.
  unfold py_max0. destruct (Qle_bool x 0) eqn:E.
  - apply Qle_bool_iff in E. symmetry. apply Q.max_l. exact E.
  - symmetry. apply Q.max_r.
    destruct (Qlt_le_dec 0 x) as [Hlt|Hle]; [apply Qlt_le_weak; exact Hlt|].
    apply Qle_bool_iff in Hle. congruence.
Qed.

(** The score of findings with int riskScores: that of the specification
    when the mean is within the doubles, an OverflowError when it is not. *)
Lemma framework_score_ints f rest zs :
  int_risk_values (f :: rest) = Some zs ->
  if (Z.abs (Zsum zs) <? float_limit * Z.of_nat (List.length (f :: rest)))%Z
  then exists q, framework_score (f :: rest) = Ok q /\
                 q == spec_framework_score (map inject_Z zs)
  else framework_score (f :: rest)
       = Raise (Exn "OverflowError" "integer division result too large for a float").
Proof.
  intros H. pose proof (int_risk_values_length _ _ H) as Hlen.
  unfold framework_score. rewrite (sum_risk_ints _ 0%Z zs H), Z.add_0_l.
  cbn [py_truediv as_int].
  destruct (Z.abs (Zsum zs) <? float_limit * Z.of_nat (List.length (f :: rest)))%Z;
    [|reflexivity].
  eexists. split; [reflexivity|].
  destruct zs as [|z zs']; [discriminate|].
  cbn [map spec_framework_score]. change (inject_Z z :: map inject_Z zs')
    with (map inject_Z (z :: zs')).
  unfold mean. rewrite py_max0_Qmax.
  apply Q.max_compat; [reflexivity|].
  rewrite Qsum_ints. unfold len_Q. rewrite length_map, Hlen. reflexivity.
Qed.

Lemma float_limit_above_100 : (100 < float_limit)%Z.
Proof. vm_compute. reflexivity. Qed.

Lemma Zsum_bounds (lo hi : Z) zs :
  Forall (fun z => lo <= z <= hi)%Z zs ->
  (lo * Z.of_nat (List.length zs) <= Zsum zs <= hi * Z.of_nat (List.length zs))%Z.
Proof.
  induction 1 as [|z zs Hz _ IH].
  - cbn. lia.
  - cbn [Zsum fold_right List.length]. fold (Zsum zs).
    rewrite Nat2Z.inj_succ. nia.
Qed.

(** The int riskScores bounded by [bound] in magnitude, below the limit of
    the doubles, have a mean within the doubles. *)
Lemma bounded_ints_fit (bound : Z) f rest zs :
  (bound < float_limit)%Z ->
  int_risk_values (f :: rest) = Some zs ->
  Forall (fun z => - bound <= z <= bound)%Z zs ->
  (Z.abs (Zsum zs) <? float_limit * Z.of_nat (List.length (f :: rest)))%Z = true.
Proof.
  intros Hbound H Hzs. apply Z.ltb_lt.
  pose proof (Zsum_bounds _ _ _ Hzs) as Hsum.
  rewrite (int_risk_values_length _ _ H) in Hsum.
  cbn [List.length] in *. rewrite Nat2Z.inj_succ in *.
  set (n := Z.of_nat (List.length rest)) in *.
  assert (0 <= n)%Z by (subst n; lia).
  apply Z.abs_lt. nia.
Qed.

Lemma risk_in_range_ints findings :
  forallb risk_in_range findings = true ->
  exists zs, int_risk_values findings = Some zs /\
             Forall (fun z => 0 <= z <= 100)%Z zs.
Proof.
  induction findings as [|f rest IH]; cbn [forallb int_risk_values]; intros H.
  - exists []. split; [reflexivity | constructor].
  - apply andb_true_iff in H as [Hf Hrest].
    destruct (IH Hrest) as (zs & -> & Hzs).
    unfold risk_in_range in Hf. unfold dict_get_or.
    destruct (dict_get "riskScore" f) as [v|]; [|discriminate].
    destruct v as [| |z| | | |]; try discriminate.
    cbn in Hf. apply andb_true_iff in Hf as [Hlo Hhi].
    apply Z.leb_le in Hlo, Hhi.
    cbn [as_int]. eexists. split; [reflexivity|].
    constructor; [lia | exact Hzs].
Qed.

(** Integer riskScores within [0,100] are scored, and as the specification
    words it. *)
Lemma framework_score_spec findings :
  forallb risk_in_range findings = true ->
  exists zs q,
    int_risk_values findings = Some zs /\
    Forall (fun z => 0 <= z <= 100)%Z zs /\
    framework_score findings = Ok q /\
    q == spec_framework_score (map inject_Z zs).
Proof.
  intros H. destruct (risk_in_range_ints _ H) as (zs & Hzs & Hrange).
  exists zs. destruct findings as [|f rest].
  - cbn in Hzs. injection Hzs as <-. exists 100.
    repeat split; try reflexivity. constructor.
  - pose proof (framework_score_ints f rest zs Hzs) as Hscore.
    rewrite (bounded_ints_fit 100 f rest zs float_limit_above_100 Hzs) in Hscore.
    + destruct Hscore as (q & Hq & Hspec). exists q. repeat split; assumption.
    + eapply Forall_impl; [|exact Hrange]. cbv beta. intros z Hz. lia.
Qed.

Lemma fold_left_Qplus l : forall acc, fold_left Qplus l acc == acc + Qsum l.
Proof.
  induction l as [|x l IH]; intros acc; cbn.
  - lra.
  - rewrite IH. lra.
Qed.

Lemma overall_score_spec (compliance_scores : scores) :
  overall_score compliance_scores == spec_overall_score (map snd compliance_scores).
Proof.
  destruct compliance_scores as [|kv rest]; [reflexivity|].
  unfold overall_score, spec_overall_score, mean, sum_values.
  cbn [map]. rewrite fold_left_Qplus, Qplus_0_l.
  unfold len_Q. cbn [List.length]. rewrite length_map. reflexivity.
Qed.






Lemma in_0_100_Qeq x y : x == y -> in_0_100 x -> in_0_100 y.
Proof. unfold in_0_100. intros E [H0 H1]. rewrite <- E. split; assumption. Qed.

Lemma risk_in_range_values findings :
  forallb risk_in_range findings = true ->
  exists risks, risk_values findings = Some risks /\ Forall in_0_100 risks.
Proof.
  induction findings as [|f rest IH]; cbn [forallb risk_values]; intros H.
  - exists []. split; [reflexivity | constructor].
  - apply andb_true_iff in H as [Hf Hrest].
    destruct (IH Hrest) as (xs & -> & Hxs).
    unfold risk_in_range in Hf. unfold dict_get_or.
    destruct (dict_get "riskScore" f) as [v|]; [|discriminate].
    destruct v as [| |z| | | |]; try discriminate.
    cbn in Hf. apply andb_true_iff in Hf as [Hlo Hhi].
    apply Z.leb_le in Hlo, Hhi.
    cbn [as_number]. eexists. split; [reflexivity|].
    constructor; [|exact Hxs].
    split.
    + change 0 with (inject_Z 0). rewrite <- Zle_Qle. exact Hlo.
    + change 100 with (inject_Z 100). rewrite <- Zle_Qle. exact Hhi.
Qed.

Lemma Qsum_bounds l : Forall in_0_100 l -> 0 <= Qsum l /\ Qsum l <= 100 * len_Q l.
Proof.
  induction 1 as [|x l [Hx0 Hx1] _ [IH0 IH1]].
  - cbn [Qsum]. unfold len_Q. cbn [List.length Z.of_nat].
    change (inject_Z 0) with 0. split; lra.
  - cbn [Qsum]. rewrite len_Q_cons. split; lra.
Qed.

Lemma mean_bounds x l : Forall in_0_100 (x :: l) -> in_0_100 (mean (x :: l)).
Proof.
  intros H. destruct (Qsum_bounds _ H) as [H0 H1].
  pose proof (len_Q_pos x l) as Hpos.
  unfold mean. split.
  - apply Qle_shift_div_l; [exact Hpos|]. lra.
  - apply Qle_shift_div_r; [exact Hpos|]. exact H1.
Qed.

Lemma spec_framework_score_bounds risks :
  Forall in_0_100 risks -> in_0_100 (spec_framework_score risks).
Proof.
  intros H. destruct risks as [|x xs]; cbn [spec_framework_score].
  - split; lra.
  - destruct (mean_bounds _ _ H) as [H0 H1]. split.
    + apply Q.le_max_l.
    + apply Q.max_lub; lra.
Qed.

Lemma spec_overall_score_bounds per_framework :
  Forall in_0_100 per_framework -> in_0_100 (spec_overall_score per_framework).
Proof.
  intros H. destruct per_framework as [|x xs]; cbn [spec_overall_score].
  - split; lra.
  - apply mean_bounds. exact H.
Qed.

Lemma scores_set_bounds k v (d : scores) :
  in_0_100 v -> Forall (fun kv => in_0_100 (snd kv)) d ->
  Forall (fun kv => in_0_100 (snd kv)) (scores_set k v d).
Proof.
  intros Hv. induction 1 as [|[k' v'] d Hkv Hd IH]; cbn.
  - constructor; [exact Hv | constructor].
  - destruct (String.eqb k k'); constructor; assumption.
Qed.

(** Integer riskScores within [0,100] are scored as the specification
    words it, on values within [0,100]. *)
Lemma framework_score_in_range findings :
  forallb risk_in_range findings = true ->
  exists risks q,
    risk_values findings = Some risks /\
    Forall in_0_100 risks /\
    framework_score findings = Ok q /\
    q == spec_framework_score risks.
Proof.
  intros H.
  destruct (risk_in_range_values _ H) as (risks & Hrisks & Hbounds).
  destruct (framework_score_spec _ H) as (zs & q & Hzs & _ & Hq & Hspec).
  exists risks, q. repeat split; try assumption.
  rewrite (int_risk_values_numbers _ _ Hzs) in Hrisks.
  injection Hrisks as <-. exact Hspec.
Qed.

Lemma record_scores_bounds runs :
  Forall (fun run => forallb risk_in_range (snd run) = true) runs ->
  forall sc,
    Forall (fun kv => in_0_100 (snd kv)) sc ->
    Forall (fun kv => in_0_100 (snd kv)) (record_scores runs sc).
Proof.
  induction 1 as [|[fw ff] runs Hff _ IH]; intros sc Hsc; [exact Hsc|].
  cbn [record_scores fold_left fst snd]. apply IH.
  apply scores_set_bounds; [|exact Hsc].
  cbn [snd] in Hff.
  destruct (framework_score_in_range _ Hff) as (risks & q & _ & Hbounds & Hq & Hspec).
  unfold score_of. rewrite Hq.
  apply (in_0_100_Qeq (spec_framework_score risks)); [symmetry; exact Hspec|].
  apply spec_framework_score_bounds. exact Hbounds.
Qed.

Section Scoring.

Variable utcnow_isoformat : world -> string.
Variable py_repr : pyval -> string.
Variable bedrock_analysis : world -> string -> dict -> pyval -> result pyval.

Local Notation "'frameworks_loop'" :=
  (audit_frameworks utcnow_isoformat py_repr bedrock_analysis).
Local Notation "'runs_of'" :=
  (framework_runs utcnow_isoformat py_repr bedrock_analysis).
Local Notation "'scoring'" :=
  (audit_scoring utcnow_isoformat py_repr bedrock_analysis).

(** Every finding the analysis returns has a [riskScore] field, so the
    default of [finding.get('riskScore', 50)] in the scoring step is never
    the value that is summed. *)
Lemma rule_based_has_risk framework resource w findings w' :
  rule_based_analysis utcnow_isoformat py_repr framework resource w
  = (Ok findings, w') ->
  Forall has_risk findings.
Proof.
  unfold rule_based_analysis.
  destruct (py_eq_str (dict_get_or "type" resource (VStr "")) "S3_BUCKET");
    [|destruct (py_eq_str (dict_get_or "type" resource (VStr "")) "EC2_INSTANCE");
      [|destruct (py_eq_str (dict_get_or "type" resource (VStr "")) "IAM_ROLE");
        [|destruct (py_eq_str (dict_get_or "type" resource (VStr ""))
                      "LAMBDA_FUNCTION")]]];
    (destruct (dict_get_or "config" resource (VDict [])) as [| | | | | |config]);
    run_monad; try discriminate;
    try (intros [= <- _]; constructor).
  - destruct (py_truthy (dict_get_or "publicAccess" config (VBool false)));
      destruct (py_truthy (dict_get_or "encryption" config (VBool false)));
      intros [= <- _]; repeat constructor; discriminate.
  - destruct (py_truthy (dict_get_or "publicIp" config (VBool false)));
      intros [= <- _]; repeat constructor; discriminate.
  - destruct (dict_get_or "permissions" config (VList [])); try discriminate;
      match goal with
      | |- context [if ?b then _ else _] => destruct b
      end; intros [= <- _]; repeat constructor; discriminate.
  - destruct (dict_get_or "environmentVariables" config (VDict []))
      as [| | | | | |env_vars]; try discriminate.
    destruct (has_sensitive_name (map fst env_vars));
      intros [= <- _]; repeat constructor; discriminate.
Qed.

Lemma parse_candidates_has_risk framework resource candidates :
  forall acc w findings w',
    Forall has_risk acc ->
    parse_candidates utcnow_isoformat framework resource candidates acc w
    = (Ok findings, w') ->
    Forall has_risk findings.
Proof.
  induction candidates as [|c rest IH]; intros acc w findings w' Hacc.
  - cbn. intros [= <- _]. exact Hacc.
  - cbn [parse_candidates].
    destruct c; run_monad; try discriminate.
    apply IH. apply Forall_app. split; [exact Hacc|].
    repeat constructor. discriminate.
Qed.

Lemma analyze_resource_has_risk framework resource scan_config w findings w' :
  analyze_resource utcnow_isoformat py_repr bedrock_analysis
    framework resource scan_config w = (Ok findings, w') ->
  Forall has_risk findings.
Proof.
  unfold analyze_resource, try_except, bind, invoke_bedrock, parse_analysis_result.
  destruct (bedrock_analysis w framework resource scan_config) as [result|e].
  - destruct result as [| | | | |candidates|];
      try (cbn; intros [= <- _]; constructor).
    destruct (parse_candidates _ _ _ candidates [] (S w)) as [[fs|e] w1] eqn:Hp.
    + intros [= <- _].
      apply (parse_candidates_has_risk _ _ _ _ _ _ _ (Forall_nil _) Hp).
    + apply rule_based_has_risk.
  - apply rule_based_has_risk.
Qed.

Lemma analyze_resources_has_risk framework resources scan_config :
  forall acc w findings w',
    Forall has_risk acc ->
    analyze_resources utcnow_isoformat py_repr bedrock_analysis
      framework resources scan_config acc w = (Ok findings, w') ->
    Forall has_risk findings.
Proof.
  induction resources as [|r rest IH]; intros acc w findings w' Hacc.
  - cbn. intros [= <- _]. exact Hacc.
  - cbn [analyze_resources]. unfold bind.
    destruct (analyze_resource _ _ _ framework r scan_config w)
      as [[fs|e] w1] eqn:Hr; [|discriminate].
    apply IH. apply Forall_app. split; [exact Hacc|].
    apply (analyze_resource_has_risk _ _ _ _ _ _ Hr).
Qed.

Lemma framework_runs_have_risk frameworks resources scan_config :
  forall w runs w',
    runs_of frameworks resources scan_config w = (Ok runs, w') ->
    Forall (fun run => Forall has_risk (snd run)) runs.
Proof.
  induction frameworks as [|fw rest IH]; intros w runs w' H.
  - cbn in H. injection H as <- _. constructor.
  - cbn [framework_runs] in H. unfold bind in H.
    destruct (analyze_compliance _ _ _ fw resources scan_config w)
      as [[ff|e] w1] eqn:Ha; [|discriminate].
    destruct (runs_of rest resources scan_config w1) as [[runs'|e] w2] eqn:Er;
      [|discriminate].
    injection H as <- _. constructor; [|exact (IH _ _ _ Er)].
    apply (analyze_resources_has_risk _ _ _ _ _ _ _ (Forall_nil _) Ha).
Qed.

Lemma framework_runs_fst frameworks resources scan_config :
  forall w runs w',
    runs_of frameworks resources scan_config w = (Ok runs, w') ->
    map fst runs = frameworks.
Proof.
  induction frameworks as [|fw rest IH]; intros w runs w' H.
  - cbn in H. injection H as <- _. reflexivity.
  - cbn [framework_runs] in H. unfold bind in H.
    destruct (analyze_compliance _ _ _ fw resources scan_config w)
      as [[ff|e] w1]; [|discriminate].
    destruct (runs_of rest resources scan_config w1) as [[runs'|e] w2] eqn:Er;
      [|discriminate].
    injection H as <- _. cbn. rewrite (IH _ _ _ Er). reflexivity.
Qed.

(** The loop records, for the runs of the trace, the scores [record_scores]
    lists, and collects the findings in order. *)
Lemma audit_frameworks_runs frameworks resources scan_config :
  forall all_findings compliance_scores w runs w',
    runs_of frameworks resources scan_config w = (Ok runs, w') ->
    Forall (fun run => exists q, framework_score (snd run) = Ok q) runs ->
    frameworks_loop frameworks resources scan_config
      all_findings compliance_scores w
    = (Ok (all_findings ++ List.concat (map snd runs),
           record_scores runs compliance_scores), w').
Proof.
  induction frameworks as [|fw rest IH];
    intros all_findings compliance_scores w runs w' H Hnum.
  - cbn in H. injection H as <- <-. cbn. rewrite app_nil_r. reflexivity.
  - cbn [framework_runs] in H. unfold bind in H.
    cbn [audit_frameworks]. unfold bind.
    destruct (analyze_compliance _ _ _ fw resources scan_config w)
      as [[ff|e] w1]; [|discriminate].
    destruct (runs_of rest resources scan_config w1) as [[runs'|e] w2] eqn:Er;
      [|discriminate].
    injection H as <- <-.
    inversion Hnum as [|run runs0 Hff Hrest]; subst. cbn [snd] in Hff.
    destruct Hff as (q & Hq).
    unfold lift. rewrite Hq.
    rewrite (IH _ _ _ _ _ Er Hrest).
    cbn [map List.concat record_scores fold_left fst snd].
    unfold score_of. rewrite Hq. rewrite <- app_assoc. reflexivity.
Qed.


Lemma in_range_runs_scored (runs : list (string * list dict)) :
  Forall (fun run => forallb risk_in_range (snd run) = true) runs ->
  Forall (fun run => exists q, framework_score (snd run) = Ok q) runs.
Proof.
  intros Hrange. eapply Forall_impl; [|exact Hrange].
  intros run Hrun.
  destruct (framework_score_in_range _ Hrun) as (risks & q & _ & _ & Hq & _).
  exists q. exact Hq.
Qed.


(** C6.  Let the analyses of the requested frameworks return the runs
    [runs], and let every finding in them carry an integer riskScore in
    [0,100].  Then the scoring step returns, every per-framework score it
    records lies in [0,100], and so does the overall score. *)
Theorem scores_within_bounds
    (frameworks : list string) (resources : list dict) (scan_config : pyval)
    (w w' : world) (runs : list (string * list dict)) :
  runs_of frameworks resources scan_config w = (Ok runs, w') ->
  Forall (fun run => forallb risk_in_range (snd run) = true) runs ->
  exists all_findings compliance_scores overall,
    scoring frameworks resources scan_config w
    = (Ok (all_findings, compliance_scores, overall), w') /\
    Forall (fun kv => 0 <= snd kv <= 100) compliance_scores /\
    0 <= overall <= 100.
Proof.
  intros Hruns Hrange.
  pose proof (in_range_runs_scored runs Hrange) as Hnum.
  assert (Hsc : Forall (fun kv => in_0_100 (snd kv)) (record_scores runs [])).
  { apply record_scores_bounds; [exact Hrange | constructor]. }
  exists (List.concat (map snd runs)), (record_scores runs []),
         (overall_score (record_scores runs [])).
  split; [|split].
  - unfold audit_scoring, bind.
    rewrite (audit_frameworks_runs _ _ _ [] [] _ _ _ Hruns Hnum).
    reflexivity.
  - exact Hsc.
  - apply (in_0_100_Qeq (spec_overall_score (map snd (record_scores runs [])))).
    + symmetry. apply overall_score_spec.
    + apply spec_overall_score_bounds.
      rewrite Forall_map. exact Hsc.
Qed.

End Scoring.



(** Scenario D through the whole step: the model reports a CRITICAL/90 and a
    HIGH/70 candidate for the one resource, and PCI-DSS scores 20, which is
    also the overall score. *)
Example scenario_d_scores :
  exists all_findings compliance_scores overall w',
    audit_scoring Sample.clock Sample.repr Sample.bedrock_d
      ["PCI-DSS"] [Sample.bucket_a] (VDict []) 0%nat
    = (Ok (all_findings, compliance_scores, overall), w') /\
    map (dict_get "riskScore") all_findings = [Some (VInt 90); Some (VInt 70)] /\
    map fst compliance_scores = ["PCI-DSS"] /\
    Forall (fun kv => snd kv == 20) compliance_scores /\
    overall == 20.
Proof.
  do 4 eexists. split; [vm_compute; reflexivity|].
  repeat split. repeat constructor.
Qed.

(** Scenario C: one framework, no resource: no finding, and the score and
    the overall score are 100. *)
Example scenario_c_scores :
  audit_scoring Sample.clock Sample.repr Sample.bedrock_down
    ["SOC2"] [] (VDict []) 0%nat
  = (Ok ([], [("SOC2", 100)], 100 / 1), 0%nat).
Proof. reflexivity. Qed.

Lemma scores_within_bounds_witness :
  exists runs w',
    framework_runs Sample.clock Sample.repr Sample.bedrock_down
      ["GDPR"; "SOC2"] [Sample.bucket_a; Sample.untyped] (VDict []) 0%nat
    = (Ok runs, w') /\
    Forall (fun run => forallb risk_in_range (snd run) = true) runs /\
    exists all_findings compliance_scores overall,
      audit_scoring Sample.clock Sample.repr Sample.bedrock_down
        ["GDPR"; "SOC2"] [Sample.bucket_a; Sample.untyped] (VDict []) 0%nat
      = (Ok (all_findings, compliance_scores, overall), w') /\
      Forall (fun kv => 0 <= snd kv <= 100) compliance_scores /\
      0 <= overall <= 100.
Proof.
  eexists; eexists.
  split; [vm_compute; reflexivity|].
  split; [repeat constructor|].
  eapply (scores_within_bounds Sample.clock Sample.repr Sample.bedrock_down
           ["GDPR"; "SOC2"] [Sample.bucket_a; Sample.untyped] (VDict []) 0%nat).
  - vm_compute; reflexivity.
  - repeat constructor.
Defined.

(* ================================================================== *)
(** ** Properties of the report compiler *)
(* ================================================================== *)

Lemma filter_severity_dicts severity (findings : list dict) (w : world) :
  filter_severity severity (map VDict findings) w
  = (Ok (map VDict (filter (has_severity severity) findings)), w).
Proof.
  induction findings as [|f rest IH]; [reflexivity|].
  cbn [map filter_severity filter]. run_monad. rewrite IH.
  change (py_eq_str (dict_get_or "severity" f VNone) severity)
    with (has_severity severity f).
  destruct (has_severity severity f); reflexivity.
Qed.

Lemma group_by_severity_dicts (findings : list dict) (w : world) :
  group_by_severity (map VDict findings) w
  = (Ok [ ("CRITICAL", map VDict (filter (has_severity "CRITICAL") findings));
          ("HIGH", map VDict (filter (has_severity "HIGH") findings));
          ("MEDIUM", map VDict (filter (has_severity "MEDIUM") findings));
          ("LOW", map VDict (filter (has_severity "LOW") findings)) ], w).
Proof.
  unfold group_by_severity, bind.
  rewrite !filter_severity_dicts. reflexivity.
Qed.

Lemma In_map_VDict f (l : list dict) : In (VDict f) (map VDict l) <-> In f l.
Proof.
  rewrite in_map_iff. split.
  - intros (f' & [= ->] & Hin). exact Hin.
  - intros Hin. exists f. split; [reflexivity | exact Hin].
Qed.

Lemma has_severity_eq severity f :
  has_severity severity f = true <-> severity_of f = VStr severity.
Proof.
  unfold has_severity, py_eq_str.
  destruct (severity_of f); try (split; [discriminate | intros [=]]).
  rewrite String.eqb_eq. split; [intros -> | intros [= ->]]; reflexivity.
Qed.

(** A finding with one of the four tokens passes exactly one of the four
    filters. *)
Lemma valid_severity_one_bucket f :
  valid_severity (severity_of f) = true ->
  (Nat.b2n (has_severity "CRITICAL" f) + Nat.b2n (has_severity "HIGH" f)
   + Nat.b2n (has_severity "MEDIUM" f) + Nat.b2n (has_severity "LOW" f) = 1)%nat.
Proof.
  unfold valid_severity, has_severity, severity_levels, py_eq_str.
  destruct (severity_of f) as [| | | |s| |]; cbn [existsb]; try discriminate.
  destruct (String.eqb s "CRITICAL") eqn:E1;
    [apply String.eqb_eq in E1; subst s; reflexivity|].
  destruct (String.eqb s "HIGH") eqn:E2;
    [apply String.eqb_eq in E2; subst s; reflexivity|].
  destruct (String.eqb s "MEDIUM") eqn:E3;
    [apply String.eqb_eq in E3; subst s; reflexivity|].
  destruct (String.eqb s "LOW") eqn:E4;
    [apply String.eqb_eq in E4; subst s; reflexivity|].
  discriminate.
Qed.

Lemma filter_length_cons {A} (p : A -> bool) x l :
  List.length (filter p (x :: l)) = (Nat.b2n (p x) + List.length (filter p l))%nat.
Proof. cbn. destruct (p x); reflexivity. Qed.

Lemma four_filters_length (findings : list dict) :
  Forall (fun f => valid_severity (severity_of f) = true) findings ->
  (List.length (filter (has_severity "CRITICAL") findings)
   + (List.length (filter (has_severity "HIGH") findings)
      + (List.length (filter (has_severity "MEDIUM") findings)
         + (List.length (filter (has_severity "LOW") findings) + 0))))%nat
  = List.length findings.
Proof.
  induction 1 as [|f rest Hf _ IH]; [reflexivity|].
  rewrite !filter_length_cons. cbn [List.length].
  pose proof (valid_severity_one_bucket f Hf). lia.
Qed.

(** C4, as amended.  For every sequence of findings whose severities are
    among CRITICAL, HIGH, MEDIUM and LOW, the four buckets partition the
    sequence: their sizes sum to the number of findings, and every finding is
    in one bucket and in no other. *)
Theorem severity_buckets_partition (findings : list dict) (w : world) :
  Forall (fun f => valid_severity (severity_of f) = true) findings ->
  exists findings_by_severity,
    group_by_severity (map VDict findings) w = (Ok findings_by_severity, w) /\
    map fst findings_by_severity = severity_levels /\
    bucket_total findings_by_severity = List.length findings /\
    forall f, In f findings ->
      exists level,
        In level severity_levels /\
        In (VDict f) (bucket level findings_by_severity) /\
        forall level',
          In (VDict f) (bucket level' findings_by_severity) -> level' = level.
Proof.
  intros Hvalid.
  eexists. split; [apply group_by_severity_dicts|].
  split; [reflexivity|].
  split.
  { unfold bucket_total. cbn [map fold_right snd]. rewrite !length_map.
    apply four_filters_length. exact Hvalid. }
  intros f Hin.
  rewrite Forall_forall in Hvalid. specialize (Hvalid f Hin).
  assert (Hlevel : exists level, In level severity_levels /\ severity_of f = VStr level).
  { unfold valid_severity in Hvalid. apply existsb_exists in Hvalid.
    destruct Hvalid as (level & Hlevel & Heq). exists level. split; [exact Hlevel|].
    apply has_severity_eq. exact Heq. }
  destruct Hlevel as (level & Hlevel & Hsev).
  exists level. split; [exact Hlevel|]. split.
  - cbn in Hlevel.
    destruct Hlevel as [<-|[<-|[<-|[<-|[]]]]]; cbn [bucket String.eqb Ascii.eqb Bool.eqb];
      apply In_map_VDict, filter_In; (split; [exact Hin|]);
      apply has_severity_eq; exact Hsev.
  - intros level' Hin'. cbn [bucket] in Hin'.
    repeat match type of Hin' with
           | context [String.eqb level' ?s] =>
               destruct (String.eqb level' s) eqn:?E
           end;
      try contradiction;
      match goal with
      | E : String.eqb level' _ = true |- _ => apply String.eqb_eq in E; subst level'
      end;
      apply In_map_VDict, filter_In in Hin'; destruct Hin' as [_ Hhas];
      apply has_severity_eq in Hhas; congruence.
Qed.

Lemma severity_buckets_partition_witness :
  exists findings_by_severity,
    group_by_severity
      (map VDict [Sample.critical_finding; Sample.low_finding; Sample.critical_finding])
      0%nat
    = (Ok findings_by_severity, 0%nat) /\
    map fst findings_by_severity = severity_levels /\
    bucket_total findings_by_severity = 3%nat /\
    forall f,
      In f [Sample.critical_finding; Sample.low_finding; Sample.critical_finding] ->
      exists level,
        In level severity_levels /\
        In (VDict f) (bucket level findings_by_severity) /\
        forall level',
          In (VDict f) (bucket level' findings_by_severity) -> level' = level.
Proof.
  apply (severity_buckets_partition
           [Sample.critical_finding; Sample.low_finding; Sample.critical_finding]
           0%nat).
  repeat constructor.
Defined.

(** C4, as stated, fails: a finding with severity "INFO" is in none of the
    four buckets, so the bucket sizes of the one-finding sequence sum to 0. *)
Lemma unknown_severity_in_no_bucket :
  exists findings_by_severity,
    group_by_severity [VDict Sample.info_finding] 0%nat
    = (Ok findings_by_severity, 0%nat) /\
    findings_by_severity
    = [ ("CRITICAL", []); ("HIGH", []); ("MEDIUM", []); ("LOW", []) ] /\
    bucket_total findings_by_severity = 0%nat /\
    bucket_total findings_by_severity <> List.length [VDict Sample.info_finding].
Proof.
  eexists. split; [reflexivity|]. split; [reflexivity|].
  split; [reflexivity | discriminate].
Qed.

Section ReportGeneration.

Variable utcnow_isoformat : world -> string.
Variable utcnow_strftime : world -> string.
Variable uuid4_str : world -> string.
Variable py_repr : pyval -> string.
Variable s3_put_object : world -> string -> string -> dict -> string -> result unit.
Variable s3_generate_presigned_url : world -> string -> string -> result string.

Local Notation "'report_body'" :=
  (generate_compliance_report_body utcnow_isoformat utcnow_strftime uuid4_str
     py_repr s3_put_object s3_generate_presigned_url).
Local Notation "'report'" :=
  (generate_compliance_report utcnow_isoformat utcnow_strftime uuid4_str
     py_repr s3_put_object s3_generate_presigned_url).

(** What the [try] block returns is the COMPLETED dict for this run. *)
Lemma report_body_completed
    audit_run_id findings compliance_scores overall_score frameworks
    resources_scanned (w w' : world) (r : dict) :
  report_body audit_run_id findings compliance_scores overall_score frameworks
    resources_scanned w = (Ok r, w') ->
  dict_get "status" r = Some (VStr "COMPLETED") /\
  dict_get "auditRunId" r = Some audit_run_id.
Proof.
  unfold generate_compliance_report_body, bind.
  destruct (create_report_content _ _ _ _ _ _ _ _ w) as [[content|e] w1];
    [|discriminate].
  unfold generate_pdf_report, now_isoformat, now_strftime, uuid4, utcnow, bind, ret.
  destruct (upload_to_s3 _ _ _ _ _ _) as [[s3_url|e] w2]; [|discriminate].
  destruct (py_len findings _) as [[n|e] w3]; [|discriminate].
  intros [= <- _]. repeat split.
Qed.

(** C10.  Whatever the inputs and whatever the clock, the uuid generator
    and the object store do, [generate_compliance_report] returns a dict and
    raises nothing.  When the [try] block completes, the dict has status
    COMPLETED (and the auditRunId given); when anything inside it raises [e],
    the dict has status ERROR, the auditRunId given, and [str(e)] as its
    error. *)
Theorem generate_compliance_report_never_raises
    (audit_run_id findings compliance_scores overall_score frameworks
       resources_scanned : pyval) (w : world) :
  exists (r : dict) (w' : world),
    report audit_run_id findings compliance_scores overall_score frameworks
      resources_scanned w = (Ok r, w') /\
    match fst (report_body audit_run_id findings compliance_scores overall_score
                 frameworks resources_scanned w) with
    | Ok _ =>
        dict_get "status" r = Some (VStr "COMPLETED") /\
        dict_get "auditRunId" r = Some audit_run_id
    | Raise e =>
        dict_get "status" r = Some (VStr "ERROR") /\
        dict_get "auditRunId" r = Some audit_run_id /\
        dict_get "error" r = Some (VStr (exn_str e))
    end.
Proof.
  unfold generate_compliance_report, try_except.
  destruct (report_body audit_run_id findings compliance_scores overall_score
              frameworks resources_scanned w) as [[r|e] w1] eqn:Hbody.
  - exists r, w1. split; [reflexivity|]. cbn [fst].
    destruct (report_body_completed _ _ _ _ _ _ _ _ _ Hbody) as (Hs & Hid).
    split; assumption.
  - eexists; eexists. split; [reflexivity|]. cbn [fst]. repeat split.
Qed.

End ReportGeneration.

(** A run in which everything works: a COMPLETED dict. *)
Example report_completed :
  exists r w',
    generate_compliance_report Sample.clock Sample.stamp Sample.uuid Sample.repr
      Sample.s3_put_ok Sample.s3_presign
      (VStr "run-1") (VList [VDict Sample.critical_finding; VDict Sample.low_finding])
      (VDict [("GDPR", VFloat 10)]) (VFloat 10) (VList [VStr "GDPR"]) (VInt 4) 0%nat
    = (Ok r, w') /\
    dict_get "status" r = Some (VStr "COMPLETED") /\
    dict_get "auditRunId" r = Some (VStr "run-1") /\
    dict_get "findingsCount" r = Some (VInt 2).
Proof. eexists; eexists. split; [vm_compute; reflexivity|]. repeat split. Qed.

(** The object store refuses the upload: an ERROR dict with the run id and
    the message of the upload failure. *)
Example report_upload_denied :
  fst (generate_compliance_report Sample.clock Sample.stamp Sample.uuid Sample.repr
         Sample.s3_put_denied Sample.s3_presign
         (VStr "run-2") (VList [VDict Sample.critical_finding])
         (VDict [("GDPR", VFloat 10)]) (VFloat 10) (VList [VStr "GDPR"]) (VInt 4) 0%nat)
  = Ok [ ("reportId", VStr "uuid-6");
         ("auditRunId", VStr "run-2");
         ("generatedAt", VStr "2024-01-01T00:00:7");
         ("status", VStr "ERROR");
         ("error", VStr "Failed to upload report to S3: AccessDenied") ].
Proof. vm_compute. reflexivity. Qed.

(** Report construction fails (a finding that is not a dict, an overall
    score that is not a number, findings that are not iterable): an ERROR dict
    again. *)
Example report_construction_fails :
  fst (generate_compliance_report Sample.clock Sample.stamp Sample.uuid Sample.repr
         Sample.s3_put_ok Sample.s3_presign
         (VStr "run-3") (VList [VStr "not a finding"]) (VDict []) (VFloat 10)
         (VList []) (VInt 0) 0%nat)
  = Ok [ ("reportId", VStr "uuid-0");
         ("auditRunId", VStr "run-3");
         ("generatedAt", VStr "2024-01-01T00:00:1");
         ("status", VStr "ERROR");
         ("error", VStr "'str' object has no attribute 'get'") ] /\
  fst (generate_compliance_report Sample.clock Sample.stamp Sample.uuid Sample.repr
         Sample.s3_put_ok Sample.s3_presign
         (VStr "run-4") (VList []) (VDict []) VNone (VList []) (VInt 0) 0%nat)
  = Ok [ ("reportId", VStr "uuid-0");
         ("auditRunId", VStr "run-4");
         ("generatedAt", VStr "2024-01-01T00:00:1");
         ("status", VStr "ERROR");
         ("error", VStr "unsupported format string passed to NoneType.__format__") ] /\
  fst (generate_compliance_report Sample.clock Sample.stamp Sample.uuid Sample.repr
         Sample.s3_put_ok Sample.s3_presign
         (VStr "run-5") VNone (VDict []) (VFloat 10) (VList []) (VInt 0) 0%nat)
  = Ok [ ("reportId", VStr "uuid-0");
         ("auditRunId", VStr "run-5");
         ("generatedAt", VStr "2024-01-01T00:00:1");
         ("status", VStr "ERROR");
         ("error", VStr "'NoneType' object is not iterable") ].
Proof. repeat split; vm_compute; reflexivity. Qed.

(* ================================================================== *)
(** ** More on the rule engine *)
(* ================================================================== *)

Lemma has_rules_false v :
  has_rules v = false ->
  py_eq_str v "S3_BUCKET" = false /\ py_eq_str v "EC2_INSTANCE" = false /\
  py_eq_str v "IAM_ROLE" = false /\ py_eq_str v "LAMBDA_FUNCTION" = false.
Proof.
  unfold has_rules, ruled_types. cbn [existsb].
  destruct (py_eq_str v "S3_BUCKET"), (py_eq_str v "EC2_INSTANCE"),
    (py_eq_str v "IAM_ROLE"), (py_eq_str v "LAMBDA_FUNCTION");
    cbn; intros; try discriminate; repeat split.
Qed.

Lemma resource_type_cases v :
  v = VStr "S3_BUCKET" \/ v = VStr "EC2_INSTANCE" \/ v = VStr "IAM_ROLE" \/
  v = VStr "LAMBDA_FUNCTION" \/ has_rules v = false.
Proof.
  unfold has_rules, ruled_types. cbn [existsb].
  destruct v as [| | | |s| |]; cbn [py_eq_str]; auto.
  destruct (String.eqb s "S3_BUCKET") eqn:E1;
    [apply String.eqb_eq in E1; subst; auto|].
  destruct (String.eqb s "EC2_INSTANCE") eqn:E2;
    [apply String.eqb_eq in E2; subst; auto|].
  destruct (String.eqb s "IAM_ROLE") eqn:E3;
    [apply String.eqb_eq in E3; subst; auto|].
  destruct (String.eqb s "LAMBDA_FUNCTION") eqn:E4;
    [apply String.eqb_eq in E4; subst; auto 6|].
  auto 6.
Qed.

(** Splits a run of the rule engine on the resource type, then on the shape
    of the config. *)
Ltac rule_engine_cases resource :=
  unfold rule_based_analysis;
  let E := fresh "Etype" in
  destruct (resource_type_cases (dict_get_or "type" resource (VStr "")))
    as [E|[E|[E|[E|E]]]];
  [ rewrite ?E | rewrite ?E | rewrite ?E | rewrite ?E
  | let H := fresh "Hnone" in
    pose proof (has_rules_false _ E) as H;
    destruct H as (-> & -> & -> & ->); rewrite ?E ];
  cbn [py_eq_str String.eqb Ascii.eqb Bool.eqb has_rules ruled_types existsb orb];
  (destruct (dict_get_or "config" resource (VDict [])) as [| | | | | |config]);
  run_monad.





Lemma wildcard_element l :
  existsb (fun x => py_eq_str x "*") l = true <-> In (VStr "*") l.
Proof.
  rewrite existsb_exists. split.
  - intros (x & Hin & Heq). destruct x; try discriminate.
    cbn in Heq. apply String.eqb_eq in Heq. subst. exact Hin.
  - intros Hin. exists (VStr "*"). split; [exact Hin | reflexivity].
Qed.

Section RuleEngineMore.

Variable utcnow_isoformat : world -> string.
Variable py_repr : pyval -> string.

Local Notation "'evaluate'" := (rule_based_analysis utcnow_isoformat py_repr).

(** X1.  The rule engine returns normally exactly on the resources
    [rule_engine_safe] describes.  On every other resource (a ruled type
    whose config is not a dict, a role whose permissions cannot be searched,
    a function whose environmentVariables is not a dict) it raises, without
    having read the clock. *)
Theorem rule_engine_raises_iff_unsafe
    (framework : string) (resource : dict) (w : world) :
  if rule_engine_safe resource then
    exists findings w', evaluate framework resource w = (Ok findings, w')
  else
    exists e, evaluate framework resource w = (Raise e, w).
Proof.
  unfold rule_engine_safe.
  rule_engine_cases resource; try (eexists; reflexivity).
  - destruct (py_truthy (dict_get_or "publicAccess" config (VBool false)));
      destruct (py_truthy (dict_get_or "encryption" config (VBool false)));
      cbn; do 2 eexists; reflexivity.
  - destruct (py_truthy (dict_get_or "publicIp" config (VBool false)));
      do 2 eexists; reflexivity.
  - destruct (dict_get_or "permissions" config (VList [])); cbn [is_container];
      try (eexists; reflexivity);
      match goal with
      | |- context [if ?b then _ else _] => destruct b
      end; do 2 eexists; reflexivity.
  - destruct (dict_get_or "environmentVariables" config (VDict []))
      as [| | | | | |env_vars]; cbn [is_dict]; try (eexists; reflexivity).
    destruct (has_sensitive_name (map fst env_vars)); do 2 eexists; reflexivity.
  - do 2 eexists; reflexivity.
  - do 2 eexists; reflexivity.
  - do 2 eexists; reflexivity.
  - do 2 eexists; reflexivity.
  - do 2 eexists; reflexivity.
  - do 2 eexists; reflexivity.
  - do 2 eexists; reflexivity.
Qed.

(** X2.  Whenever the rule engine returns, it has read the clock once per
    finding, there are at most two findings (at most one unless the resource
    is an S3 bucket), and every finding has the ten fields in their fixed
    order, carries the resource's own type and id ([None] when the resource
    has no id), is tagged with the one requested framework, and pairs its
    severity with a riskScore of the rule table. *)
Theorem rule_engine_findings_shape
    (framework : string) (resource : dict) (w w' : world) (findings : list dict) :
  evaluate framework resource w = (Ok findings, w') ->
  w' = (w + List.length findings)%nat /\
  (List.length findings <= 2)%nat /\
  (dict_get_or "type" resource (VStr "") = VStr "S3_BUCKET"
   \/ (List.length findings <= 1)%nat) /\
  Forall (rule_finding framework resource) findings.
Proof.
  rule_engine_cases resource; try discriminate.
  - destruct (py_truthy (dict_get_or "publicAccess" config (VBool false)));
      destruct (py_truthy (dict_get_or "encryption" config (VBool false)));
      intros [= <- <-]; cbn [app List.length];
      (split; [lia|]); (split; [lia|]); (split; [left; reflexivity|]);
      repeat constructor; unfold rule_finding; rewrite Etype; repeat split.
  - destruct (py_truthy (dict_get_or "publicIp" config (VBool false)));
      intros [= <- <-]; cbn [app List.length];
      (split; [lia|]); (split; [lia|]); (split; [right; lia|]);
      repeat constructor; unfold rule_finding; rewrite Etype; repeat split.
  - destruct (dict_get_or "permissions" config (VList [])); try discriminate;
      match goal with
      | |- context [if ?b then _ else _] => destruct b
      end;
      intros [= <- <-]; cbn [app List.length];
      (split; [lia|]); (split; [lia|]); (split; [right; lia|]);
      repeat constructor; unfold rule_finding; rewrite Etype; repeat split.
  - destruct (dict_get_or "environmentVariables" config (VDict []))
      as [| | | | | |env_vars]; try discriminate.
    destruct (has_sensitive_name (map fst env_vars));
      intros [= <- <-]; cbn [app List.length];
      (split; [lia|]); (split; [lia|]); (split; [right; lia|]);
      repeat constructor; unfold rule_finding; rewrite Etype; repeat split.
  - intros [= <- <-]; cbn; repeat split; auto; lia.
  - intros [= <- <-]; cbn; repeat split; auto; lia.
  - intros [= <- <-]; cbn; repeat split; auto; lia.
  - intros [= <- <-]; cbn; repeat split; auto; lia.
  - intros [= <- <-]; cbn; repeat split; auto; lia.
  - intros [= <- <-]; cbn; repeat split; auto; lia.
  - intros [= <- <-]; cbn; repeat split; auto; lia.
Qed.

(** X3.  For an S3 bucket whose config is a dict, the two rules are tried
    one after the other: the HIGH/75 finding comes first and is there
    exactly when [publicAccess] is truthy, the MEDIUM/60 finding follows and
    is there exactly when [encryption] is absent or falsy. *)
Theorem s3_bucket_rows
    (framework : string) (resource config : dict) (w : world) :
  dict_get "type" resource = Some (VStr "S3_BUCKET") ->
  dict_get_or "config" resource (VDict []) = VDict config ->
  exists findings,
    fst (evaluate framework resource w) = Ok findings /\
    severity_and_risk findings
    = (if py_truthy (dict_get_or "publicAccess" config (VBool false))
       then [(VStr "HIGH", Some (VInt 75))] else [])
      ++ (if py_truthy (dict_get_or "encryption" config (VBool false))
          then [] else [(VStr "MEDIUM", Some (VInt 60))]).
Proof.
  intros Htype Hconfig. unfold rule_based_analysis.
  rewrite (dict_get_or_some "type" resource _ (VStr "") Htype), Hconfig.
  cbn [py_eq_str String.eqb Ascii.eqb Bool.eqb]. run_monad.
  destruct (py_truthy (dict_get_or "publicAccess" config (VBool false)));
    destruct (py_truthy (dict_get_or "encryption" config (VBool false)));
    eexists; (split; [reflexivity|]); reflexivity.
Qed.

(** X4.  For an EC2 instance whose config is a dict there is one finding,
    MEDIUM/50, exactly when [publicIp] is truthy, and none otherwise. *)
Theorem ec2_instance_row
    (framework : string) (resource config : dict) (w : world) :
  dict_get "type" resource = Some (VStr "EC2_INSTANCE") ->
  dict_get_or "config" resource (VDict []) = VDict config ->
  exists findings,
    fst (evaluate framework resource w) = Ok findings /\
    severity_and_risk findings
    = if py_truthy (dict_get_or "publicIp" config (VBool false))
      then [(VStr "MEDIUM", Some (VInt 50))] else [].
Proof.
  intros Htype Hconfig. unfold rule_based_analysis.
  rewrite (dict_get_or_some "type" resource _ (VStr "") Htype), Hconfig.
  cbn [py_eq_str String.eqb Ascii.eqb Bool.eqb]. run_monad.
  destruct (py_truthy (dict_get_or "publicIp" config (VBool false)));
    eexists; (split; [reflexivity|]); reflexivity.
Qed.

(** X5.  For an IAM role whose permissions are a list, there is one finding,
    CRITICAL/90, exactly when the string ["*"] is an element of the list: a
    permission that merely contains a star, like ["s3:*"], does not count. *)
Theorem iam_role_row
    (framework : string) (resource config : dict) (permissions : list pyval)
    (w : world) :
  dict_get "type" resource = Some (VStr "IAM_ROLE") ->
  dict_get_or "config" resource (VDict []) = VDict config ->
  dict_get_or "permissions" config (VList []) = VList permissions ->
  exists findings,
    fst (evaluate framework resource w) = Ok findings /\
    (In (VStr "*") permissions ->
     severity_and_risk findings = [(VStr "CRITICAL", Some (VInt 90))]) /\
    (~ In (VStr "*") permissions -> findings = []).
Proof.
  intros Htype Hconfig Hperm. unfold rule_based_analysis.
  rewrite (dict_get_or_some "type" resource _ (VStr "") Htype), Hconfig.
  cbn [py_eq_str String.eqb Ascii.eqb Bool.eqb]. run_monad. rewrite Hperm.
  destruct (existsb (fun x => py_eq_str x "*") permissions) eqn:E;
    eexists; (split; [reflexivity|]); split; intros H;
    try reflexivity.
  - apply wildcard_element in E. contradiction.
  - apply wildcard_element in H. congruence.
Qed.


End RuleEngineMore.

Lemma rule_engine_findings_shape_witness :
  (3 = 1 + List.length
             (match fst (rule_based_analysis Sample.clock Sample.repr "GDPR"
                           Sample.bucket_a 1%nat) with
              | Ok fs => fs
              | Raise _ => []
              end))%nat /\
  Forall (rule_finding "GDPR" Sample.bucket_a)
    (match fst (rule_based_analysis Sample.clock Sample.repr "GDPR"
                  Sample.bucket_a 1%nat) with
     | Ok fs => fs
     | Raise _ => []
     end).
Proof.
  pose proof (rule_engine_findings_shape Sample.clock Sample.repr "GDPR"
                Sample.bucket_a 1%nat 3%nat _ eq_refl) as (Hw & _ & _ & Hall).
  split; [exact Hw | exact Hall].
Defined.

Lemma s3_bucket_rows_witness :
  exists findings,
    fst (rule_based_analysis Sample.clock Sample.repr "GDPR" Sample.bucket_no_key 0%nat)
    = Ok findings /\
    severity_and_risk findings = [] ++ [(VStr "MEDIUM", Some (VInt 60))].
Proof.
  apply (s3_bucket_rows Sample.clock Sample.repr "GDPR" Sample.bucket_no_key []
           0%nat); reflexivity.
Defined.

Lemma ec2_instance_row_witness :
  exists findings,
    fst (rule_based_analysis Sample.clock Sample.repr "SOC2" Demo.instance_public 0%nat)
    = Ok findings /\
    severity_and_risk findings = [(VStr "MEDIUM", Some (VInt 50))].
Proof.
  apply (ec2_instance_row Sample.clock Sample.repr "SOC2" Demo.instance_public
           [("publicIp", VBool true)] 0%nat); reflexivity.
Defined.

Lemma iam_role_row_witness :
  exists findings,
    fst (rule_based_analysis Sample.clock Sample.repr "SOC2"
           Demo.role_service_wildcard 0%nat) = Ok findings /\
    (In (VStr "*") [VStr "s3:*"; VStr "iam:PassRole"] ->
     severity_and_risk findings = [(VStr "CRITICAL", Some (VInt 90))]) /\
    (~ In (VStr "*") [VStr "s3:*"; VStr "iam:PassRole"] -> findings = []).
Proof.
  apply (iam_role_row Sample.clock Sample.repr "SOC2" Demo.role_service_wildcard
           [("permissions", VList [VStr "s3:*"; VStr "iam:PassRole"])]
           [VStr "s3:*"; VStr "iam:PassRole"] 0%nat); reflexivity.
Defined.


(* ================================================================== *)
(** ** The analysis of a resource and of a framework *)
(* ================================================================== *)

Lemma first_non_dict_none candidates :
  first_non_dict candidates = None ->
  candidates = map VDict (leading_dicts candidates).
Proof.
  induction candidates as [|c rest IH]; [reflexivity|].
  destruct c; cbn; try discriminate.
  destruct (first_non_dict rest); [discriminate|].
  intros _. rewrite <- IH; reflexivity.
Qed.

Lemma first_non_dict_some candidates :
  forall n, first_non_dict candidates = Some n ->
  exists bad rest,
    candidates = map VDict (leading_dicts candidates) ++ bad :: rest /\
    is_dict bad = false /\ List.length (leading_dicts candidates) = n.
Proof.
  induction candidates as [|c rest IH]; intros n H; [discriminate|].
  destruct c as [| | | | | |d];
    try (injection H as <-; eexists; eexists; repeat split; reflexivity).
  cbn in H. destruct (first_non_dict rest) as [m|]; [|discriminate].
  injection H as <-.
  destruct (IH m eq_refl) as (bad & rest' & Hrest & Hbad & Hlen).
  exists bad, rest'. cbn [leading_dicts map app List.length].
  rewrite <- Hrest, Hlen. repeat split. exact Hbad.
Qed.

Section Analysis.

Variable utcnow_isoformat : world -> string.
Variable py_repr : pyval -> string.
Variable bedrock_analysis : world -> string -> dict -> pyval -> result pyval.

Local Notation "'evaluate'" := (rule_based_analysis utcnow_isoformat py_repr).
Local Notation "'analyze_one'" :=
  (analyze_resource utcnow_isoformat py_repr bedrock_analysis).
Local Notation "'analyze_all'" :=
  (analyze_compliance utcnow_isoformat py_repr bedrock_analysis).

(** A parse that meets a candidate which is not a record raises, after one
    clock read for each record before it. *)
Lemma parse_candidates_non_dict framework resource good bad rest :
  is_dict bad = false ->
  forall findings w,
    exists e,
      parse_candidates utcnow_isoformat framework resource
        (map VDict good ++ bad :: rest) findings w
      = (Raise e, (w + List.length good)%nat).
Proof.
  intros Hbad. induction good as [|c good IH]; intros findings w.
  - cbn [map app parse_candidates List.length]. rewrite Nat.add_0_r.
    destruct bad; try discriminate; run_monad; eexists; reflexivity.
  - cbn [map app parse_candidates List.length]. run_monad.
    destruct (IH (findings ++ [normalize framework resource c (utcnow_isoformat w)])
                 (S w)) as (e & He).
    exists e. unfold normalize in He. rewrite He.
    rewrite Nat.add_succ_r. reflexivity.
Qed.

(** X7.  When the model call returns and every candidate in its answer is a
    record, the findings of the resource are the normalised candidates and
    nothing else: the rule engine is not consulted.  An answer that is not a
    list (an object wrapping the findings, say) counts as no candidates, so
    the resource gets no findings at all. *)
Theorem model_answer_replaces_rules
    (framework : string) (resource : dict) (scan_config : pyval) (w : world) :
  falls_back_after (bedrock_analysis w framework resource scan_config) = None ->
  exists analysis_result,
    bedrock_analysis w framework resource scan_config = Ok analysis_result /\
    analyze_one framework resource scan_config w
    = (Ok (normalize_all utcnow_isoformat framework resource
             (leading_dicts (candidates_of analysis_result)) (S w)),
       (List.length (candidates_of analysis_result) + S w)%nat).
Proof.
  unfold analyze_resource, try_except, bind, invoke_bedrock.
  destruct (bedrock_analysis w framework resource scan_config)
    as [analysis_result|e]; cbn [falls_back_after]; [|discriminate].
  intros Hnone. exists analysis_result. split; [reflexivity|].
  pose proof (first_non_dict_none _ Hnone) as Hall.
  destruct analysis_result as [| | | | |candidates|]; try reflexivity.
  cbn [candidates_of] in *. cbn [parse_analysis_result].
  remember (leading_dicts candidates) as records eqn:Hrecords.
  clear Hrecords Hnone. subst candidates.
  rewrite parse_candidates_dicts, length_map. reflexivity.
Qed.

(** X8.  When the model call raises, or a candidate in its answer is not a
    record, the findings of the resource are those of the rule engine, run
    after the clock reads already made for the records before the bad
    candidate; those records are dropped with it, and an exception of the
    rule engine is not caught. *)
Theorem bad_answer_falls_back_on_rules
    (framework : string) (resource : dict) (scan_config : pyval) (w : world)
    (n : nat) :
  falls_back_after (bedrock_analysis w framework resource scan_config) = Some n ->
  n = List.length
        (leading_dicts
           (answer_candidates (bedrock_analysis w framework resource scan_config))) /\
  analyze_one framework resource scan_config w
  = evaluate framework resource (S w + n)%nat.
Proof.
  unfold analyze_resource, try_except, bind, invoke_bedrock.
  destruct (bedrock_analysis w framework resource scan_config)
    as [analysis_result|e]; cbn [falls_back_after answer_candidates].
  - intros Hsome.
    destruct (first_non_dict_some _ _ Hsome) as (bad & rest & Hcands & Hbad & Hlen).
    split; [symmetry; exact Hlen|].
    destruct analysis_result as [| | | | |candidates|]; try discriminate.
    cbn [candidates_of] in *. cbn [parse_analysis_result].
    remember (leading_dicts candidates) as records eqn:Hrecords.
    clear Hrecords Hsome. subst candidates.
    destruct (parse_candidates_non_dict framework resource
                records bad rest Hbad [] (S w)) as (e & ->).
    subst n. reflexivity.
  - intros [= <-]. split; [reflexivity|]. rewrite Nat.add_0_r. reflexivity.
Qed.

(** What a run of the rule engine comes to, for the proofs below. *)
Lemma rule_based_outcome framework resource w :
  (rule_engine_safe resource = true /\
   exists findings,
     evaluate framework resource w = (Ok findings, (w + List.length findings)%nat) /\
     (List.length findings <= 2)%nat /\
     Forall (tagged_finding framework) findings) \/
  (rule_engine_safe resource = false /\
   exists e, evaluate framework resource w = (Raise e, w)).
Proof.
  unfold rule_engine_safe.
  rule_engine_cases resource;
    try (right; split; [reflexivity | eexists; reflexivity]);
    try (left; split; [reflexivity|]; exists []; cbn [List.length];
         rewrite Nat.add_0_r; split; [reflexivity|]; split; [lia | constructor]).
  - left. split; [reflexivity|].
    destruct (py_truthy (dict_get_or "publicAccess" config (VBool false)));
      destruct (py_truthy (dict_get_or "encryption" config (VBool false)));
      eexists; (split; [apply f_equal2; [reflexivity | cbn [app List.length]; lia]|]);
      (split; [cbn; lia|]); repeat constructor.
  - left. split; [reflexivity|].
    destruct (py_truthy (dict_get_or "publicIp" config (VBool false)));
      eexists; (split; [apply f_equal2; [reflexivity | cbn [app List.length]; lia]|]);
      (split; [cbn; lia|]); repeat constructor.
  - destruct (dict_get_or "permissions" config (VList [])); cbn [is_container];
      try (right; split; [reflexivity | eexists; reflexivity]);
      left; (split; [reflexivity|]);
      match goal with
      | |- context [if ?b then _ else _] => destruct b
      end;
      eexists; (split; [apply f_equal2; [reflexivity | cbn [app List.length]; lia]|]);
      (split; [cbn; lia|]); repeat constructor.
  - destruct (dict_get_or "environmentVariables" config (VDict []))
      as [| | | | | |env_vars]; cbn [is_dict];
      try (right; split; [reflexivity | eexists; reflexivity]).
    left. split; [reflexivity|].
    destruct (has_sensitive_name (map fst env_vars));
      eexists; (split; [apply f_equal2; [reflexivity | cbn [app List.length]; lia]|]);
      (split; [cbn; lia|]); repeat constructor.
Qed.

Lemma parse_candidates_tagged framework resource candidates :
  forall acc w findings w',
    Forall (tagged_finding framework) acc ->
    parse_candidates utcnow_isoformat framework resource candidates acc w
    = (Ok findings, w') ->
    Forall (tagged_finding framework) findings.
Proof.
  induction candidates as [|c rest IH]; intros acc w findings w' Hacc.
  - cbn. intros [= <- _]. exact Hacc.
  - cbn [parse_candidates].
    destruct c; run_monad; try discriminate.
    apply IH. apply Forall_app. split; [exact Hacc|].
    repeat constructor.
Qed.

Lemma analyze_resource_tagged framework resource scan_config w findings w' :
  analyze_one framework resource scan_config w = (Ok findings, w') ->
  Forall (tagged_finding framework) findings.
Proof.
  assert (Hrules : forall w0,
             evaluate framework resource w0 = (Ok findings, w') ->
             Forall (tagged_finding framework) findings).
  { intros w0 H.
    destruct (rule_based_outcome framework resource w0)
      as [(_ & fs & Hfs & _ & Htag)|(_ & e & He)]; [|congruence].
    rewrite Hfs in H. injection H as <- _. exact Htag. }
  unfold analyze_resource, try_except, bind, invoke_bedrock, parse_analysis_result.
  destruct (bedrock_analysis w framework resource scan_config) as [answer|e].
  - destruct answer as [| | | | |candidates|];
      try (cbn; intros [= <- _]; constructor).
    destruct (parse_candidates _ _ _ candidates [] (S w)) as [[fs|e] w1] eqn:Hp.
    + intros [= <- _].
      apply (parse_candidates_tagged _ _ _ _ _ _ _ (Forall_nil _) Hp).
    + apply Hrules.
  - apply Hrules.
Qed.

Lemma analyze_resources_tagged framework resources scan_config :
  forall acc w findings w',
    Forall (tagged_finding framework) acc ->
    analyze_resources utcnow_isoformat py_repr bedrock_analysis
      framework resources scan_config acc w = (Ok findings, w') ->
    Forall (tagged_finding framework) findings.
Proof.
  induction resources as [|r rest IH]; intros acc w findings w' Hacc.
  - cbn. intros [= <- _]. exact Hacc.
  - cbn [analyze_resources]. unfold bind.
    destruct (analyze_one framework r scan_config w) as [[fs|e] w1] eqn:Hr;
      [|discriminate].
    apply IH. apply Forall_app. split; [exact Hacc|].
    apply (analyze_resource_tagged _ _ _ _ _ _ Hr).
Qed.

(** X9.  Whatever the model answers, every finding the analysis of a
    framework returns, from the model or from the rule engine, has the same
    ten fields in the same order and is tagged with exactly the one framework
    asked for. *)
Theorem findings_have_ten_fields_one_framework
    (framework : string) (resources : list dict) (scan_config : pyval)
    (w w' : world) (findings : list dict) :
  analyze_all framework resources scan_config w = (Ok findings, w') ->
  Forall (fun f =>
            map fst f = finding_keys /\
            dict_get "complianceFrameworks" f = Some (VList [VStr framework]))
         findings.
Proof.
  intros H.
  exact (analyze_resources_tagged _ _ _ _ _ _ _ (Forall_nil _) H).
Qed.

Lemma analyze_resource_model_down framework resource scan_config w :
  (exists e, bedrock_analysis w framework resource scan_config = Raise e) ->
  analyze_one framework resource scan_config w
  = evaluate framework resource (S w).
Proof.
  intros (e & He).
  unfold analyze_resource, try_except, bind, invoke_bedrock.
  rewrite He. reflexivity.
Qed.

(** The loop over the resources when every model call raises. *)
Lemma analyze_resources_model_down framework scan_config :
  (forall w r, exists e, bedrock_analysis w framework r scan_config = Raise e) ->
  forall resources acc w,
    if forallb rule_engine_safe resources then
      exists findings,
        analyze_resources utcnow_isoformat py_repr bedrock_analysis
          framework resources scan_config acc w
        = (Ok (acc ++ findings),
           (w + List.length resources + List.length findings)%nat) /\
        (List.length findings <= 2 * List.length resources)%nat
    else
      exists e w',
        analyze_resources utcnow_isoformat py_repr bedrock_analysis
          framework resources scan_config acc w = (Raise e, w').
Proof.
  intros Hdown resources.
  induction resources as [|r rest IH]; intros acc w.
  - cbn [forallb analyze_resources]. exists []. cbn [List.length].
    rewrite app_nil_r, !Nat.add_0_r. split; [reflexivity | lia].
  - cbn [forallb analyze_resources List.length].
    pose proof (analyze_resource_model_down framework r scan_config w (Hdown w r))
      as Hone.
    destruct (rule_based_outcome framework r (S w))
      as [(Hsafe & fs & Hrun & Hlen & _)|(Hsafe & e & Hrun)];
      rewrite Hsafe; cbn [andb].
    + specialize (IH (acc ++ fs) (S w + List.length fs)%nat).
      destruct (forallb rule_engine_safe rest).
      * destruct IH as (fs' & Hrest & Hlen').
        exists (fs ++ fs'). unfold bind. rewrite Hone, Hrun, Hrest.
        rewrite app_assoc, length_app.
        split; [f_equal; lia | lia].
      * destruct IH as (e & w' & Hrest).
        exists e, w'. unfold bind. rewrite Hone, Hrun, Hrest. reflexivity.
    + exists e, (S w). unfold bind. rewrite Hone, Hrun. reflexivity.
Qed.

(** X10.  With the model endpoint down (every call raises), the analysis of
    a framework returns exactly when every resource is one the rule engine
    gets through; it then has called the model once per resource and read the
    clock once per finding, and there are at most two findings per resource.
    One resource the rule engine cannot get through makes the whole analysis
    raise, the findings of the resources before it included. *)
Theorem model_down_analysis
    (framework : string) (resources : list dict) (scan_config : pyval) (w : world) :
  (forall w r, exists e, bedrock_analysis w framework r scan_config = Raise e) ->
  if forallb rule_engine_safe resources then
    exists findings,
      analyze_all framework resources scan_config w
      = (Ok findings, (w + List.length resources + List.length findings)%nat) /\
      (List.length findings <= 2 * List.length resources)%nat
  else
    exists e w', analyze_all framework resources scan_config w = (Raise e, w').
Proof.
  intros Hdown.
  exact (analyze_resources_model_down framework scan_config Hdown resources [] w).
Qed.

End Analysis.

Lemma model_answer_replaces_rules_witness :
  exists analysis_result,
    Demo.bedrock_wrapped 0%nat "GDPR" Sample.bucket_a (VDict []) = Ok analysis_result /\
    analyze_resource Sample.clock Sample.repr Demo.bedrock_wrapped
      "GDPR" Sample.bucket_a (VDict []) 0%nat
    = (Ok (normalize_all Sample.clock "GDPR" Sample.bucket_a
             (leading_dicts (candidates_of analysis_result)) 1%nat),
       (List.length (candidates_of analysis_result) + 1)%nat).
Proof.
  apply (model_answer_replaces_rules Sample.clock Sample.repr Demo.bedrock_wrapped
           "GDPR" Sample.bucket_a (VDict []) 0%nat).
  reflexivity.
Defined.

Lemma bad_answer_falls_back_on_rules_witness :
  1%nat = List.length
            (leading_dicts
               (answer_candidates
                  (Demo.bedrock_mixed 0%nat "GDPR" Sample.bucket_a (VDict [])))) /\
  analyze_resource Sample.clock Sample.repr Demo.bedrock_mixed
    "GDPR" Sample.bucket_a (VDict []) 0%nat
  = rule_based_analysis Sample.clock Sample.repr "GDPR" Sample.bucket_a 2%nat.
Proof.
  apply (bad_answer_falls_back_on_rules Sample.clock Sample.repr Demo.bedrock_mixed
           "GDPR" Sample.bucket_a (VDict []) 0%nat 1%nat).
  reflexivity.
Defined.

Lemma findings_have_ten_fields_one_framework_witness :
  Forall (fun f =>
            map fst f = finding_keys /\
            dict_get "complianceFrameworks" f = Some (VList [VStr "SOC2"]))
         (normalize_all Sample.clock "SOC2" Sample.bucket_a
            [Sample.bare_candidate; Sample.bad_candidate] 1%nat
          ++ normalize_all Sample.clock "SOC2" Sample.untyped
               [Sample.bare_candidate; Sample.bad_candidate] 4%nat).
Proof.
  apply (findings_have_ten_fields_one_framework Sample.clock Sample.repr
           (fun _ _ _ _ => Ok (VList [VDict Sample.bare_candidate;
                                      VDict Sample.bad_candidate]))
           "SOC2" [Sample.bucket_a; Sample.untyped] (VDict []) 0%nat 6%nat).
  reflexivity.
Defined.

Lemma model_down_analysis_witness :
  exists e w',
    analyze_compliance Sample.clock Sample.repr Sample.bedrock_down
      "GDPR" [Sample.bucket_a; Demo.bucket_null_config; Demo.instance_public]
      (VDict []) 0%nat
    = (Raise e, w').
Proof.
  apply (model_down_analysis Sample.clock Sample.repr Sample.bedrock_down
           "GDPR" [Sample.bucket_a; Demo.bucket_null_config; Demo.instance_public]
           (VDict []) 0%nat).
  intros w r. eexists. reflexivity.
Defined.

(* ================================================================== *)
(** ** More on the scoring step *)
(* ================================================================== *)

Lemma scores_set_keys k v (d : scores) :
  forall k', In k' (map fst (scores_set k v d)) <-> k' = k \/ In k' (map fst d).
Proof.
  induction d as [|[k0 v0] d IH]; intros k'; cbn.
  - intuition.
  - destruct (String.eqb k k0) eqn:E; cbn.
    + apply String.eqb_eq in E. subst k0. intuition.
    + rewrite IH. intuition.
Qed.

Lemma scores_set_NoDup k v (d : scores) :
  NoDup (map fst d) -> NoDup (map fst (scores_set k v d)).
Proof.
  induction d as [|[k0 v0] d IH]; cbn; intros Hd.
  - constructor; [intros [] | constructor].
  - inversion Hd as [|? ? Hnotin Hrest]; subst.
    destruct (String.eqb k k0) eqn:E; cbn.
    + apply String.eqb_eq in E. subst k0. constructor; assumption.
    + constructor; [|apply IH; exact Hrest].
      rewrite scores_set_keys. intros [->|Hin]; [|contradiction].
      rewrite String.eqb_refl in E. discriminate.
Qed.

Lemma mean_times_len x (l : list Q) : mean (x :: l) * len_Q (x :: l) == Qsum (x :: l).
Proof.
  unfold mean. rewrite Qmult_comm. apply Qmult_div_r.
  pose proof (len_Q_pos x l) as Hpos. intros E. rewrite E in Hpos.
  apply (Qlt_irrefl 0). exact Hpos.
Qed.

Section ScoringMore.

Variable utcnow_isoformat : world -> string.
Variable py_repr : pyval -> string.
Variable bedrock_analysis : world -> string -> dict -> pyval -> result pyval.

Local Notation "'analyze_all'" :=
  (analyze_compliance utcnow_isoformat py_repr bedrock_analysis).
Local Notation "'frameworks_loop'" :=
  (audit_frameworks utcnow_isoformat py_repr bedrock_analysis).
Local Notation "'runs_of'" :=
  (framework_runs utcnow_isoformat py_repr bedrock_analysis).
Local Notation "'scoring'" :=
  (audit_scoring utcnow_isoformat py_repr bedrock_analysis).

(** What the loop has done when it returns. *)
Lemma audit_frameworks_returns frameworks resources scan_config :
  forall all_findings compliance_scores w all_findings' compliance_scores' w',
    frameworks_loop frameworks resources scan_config all_findings compliance_scores w
    = (Ok (all_findings', compliance_scores'), w') ->
    exists runs,
      runs_of frameworks resources scan_config w = (Ok runs, w') /\
      all_findings' = all_findings ++ List.concat (map snd runs) /\
      (NoDup (map fst compliance_scores) -> NoDup (map fst compliance_scores')) /\
      (forall k, In k (map fst compliance_scores') <->
                 In k (map fst compliance_scores) \/ In k frameworks).
Proof.
  induction frameworks as [|fw rest IH];
    intros all_findings compliance_scores w all_findings' compliance_scores' w' H.
  - cbn in H. injection H as <- <- <-. exists []. cbn.
    rewrite app_nil_r. repeat split; auto. intuition.
  - cbn [audit_frameworks framework_runs] in *. unfold bind, lift in *.
    destruct (analyze_all fw resources scan_config w) as [[ff|e] w1];
      [|discriminate].
    destruct (framework_score ff) as [score|e]; [|discriminate].
    destruct (IH _ _ _ _ _ _ H) as (runs & -> & -> & Hnodup & Hkeys).
    exists ((fw, ff) :: runs). cbn [map List.concat snd].
    rewrite app_assoc. repeat split.
    + intros Hd. apply Hnodup, scores_set_NoDup, Hd.
    + rewrite Hkeys, scores_set_keys. cbn. intuition.
    + rewrite Hkeys, scores_set_keys. cbn. intuition.
Qed.

(** X11.  When the scoring step returns, the flat finding list is the
    concatenation, in request order, of what each framework's analysis
    returned, so a framework named twice in the request is analysed twice
    and contributes its findings twice; the score map, though, has exactly
    one entry for each distinct framework asked for. *)
Theorem scoring_step_output
    (frameworks : list string) (resources : list dict) (scan_config : pyval)
    (w w' : world) (all_findings : list dict) (compliance_scores : scores)
    (overall : Q) :
  scoring frameworks resources scan_config w
  = (Ok (all_findings, compliance_scores, overall), w') ->
  (exists runs,
     runs_of frameworks resources scan_config w = (Ok runs, w') /\
     map fst runs = frameworks /\
     all_findings = List.concat (map snd runs)) /\
  NoDup (map fst compliance_scores) /\
  (forall k, In k (map fst compliance_scores) <-> In k frameworks) /\
  (List.length compliance_scores <= List.length frameworks)%nat.
Proof.
  unfold audit_scoring, bind.
  destruct (frameworks_loop frameworks resources scan_config [] [] w)
    as [[[all sc]|e] w1] eqn:Hloop; [|discriminate].
  cbn [fst snd ret]. intros [= <- <- _ <-].
  destruct (audit_frameworks_returns _ _ _ _ _ _ _ _ _ Hloop)
    as (runs & Hruns & Hall & Hnodup & Hkeys).
  assert (Hd : NoDup (map fst sc)) by (apply Hnodup; constructor).
  assert (Hk : forall k, In k (map fst sc) <-> In k frameworks).
  { intros k. rewrite Hkeys. cbn. intuition. }
  repeat split.
  - exists runs. repeat split; [exact Hruns | | exact Hall].
    eapply framework_runs_fst. exact Hruns.
  - exact Hd.
  - apply Hk.
  - apply Hk.
  - rewrite <- (length_map fst sc).
    apply NoDup_incl_length; [exact Hd|]. intros k. apply Hk.
Qed.

(** X12.  The score of a framework whose findings all carry an int
    riskScore, none beyond the doubles, is clamped from below only.  It is
    never negative; it is 0 from a mean riskScore of 100 on and at least 1 up
    to a mean of 99; it stays within 100 when the mean is not negative, and
    is 101 or more from a mean of -1 down. *)
Theorem score_clamped_from_below_only (f : dict) (rest : list dict) (zs : list Z) :
  int_risk_values (f :: rest) = Some zs ->
  Forall (fun z => (Z.abs z < float_limit)%Z) zs ->
  exists score,
    framework_score (f :: rest) = Ok score /\
    0 <= score /\
    (100 <= mean (map inject_Z zs) -> score == 0) /\
    (mean (map inject_Z zs) <= 99 -> 1 <= score) /\
    (0 <= mean (map inject_Z zs) -> score <= 100) /\
    (mean (map inject_Z zs) <= -1 -> 101 <= score).
Proof.
  intros Hints Hfit.
  pose proof (framework_score_ints f rest zs Hints) as Hscore.
  rewrite (bounded_ints_fit (float_limit - 1) f rest zs) in Hscore;
    [|lia|exact Hints|].
  2:{ eapply Forall_impl; [|exact Hfit]. cbv beta. intros z Hz. lia. }
  destruct Hscore as (score & Hscore & Hspec).
  exists score. split; [exact Hscore|].
  pose proof (int_risk_values_length _ _ Hints) as Hlen.
  destruct zs as [|z zs']; [discriminate Hlen|].
  cbn [map spec_framework_score] in Hspec.
  change (inject_Z z :: map inject_Z zs') with (map inject_Z (z :: zs')) in Hspec.
  set (m := mean (map inject_Z (z :: zs'))) in *.
  rewrite Hspec.
  split; [apply Q.le_max_l|].
  split; [intros H; apply Q.max_l; lra|].
  split; [intros H; apply Qle_trans with (100 - m); [lra | apply Q.le_max_r]|].
  split; [intros H; apply Q.max_lub; lra|].
  intros H. apply Qle_trans with (100 - m); [lra | apply Q.le_max_r].
Qed.

(** A riskScore that is no number stops the sum of ints at once. *)
Lemma sum_risk_type_error findings :
  forall acc,
    Forall (fun f => risk_not_float f = true) findings ->
    risk_values findings = None ->
    exists msg, sum_risk findings (VInt acc) = Raise (Exn "TypeError" msg).
Proof.
  induction findings as [|f rest IH]; cbn [risk_values sum_risk];
    intros acc Hfloat Hnone; [discriminate|].
  inversion Hfloat as [|f' rest' Hf Hrest]; subst.
  unfold risk_not_float in Hf. revert Hf Hnone.
  destruct (dict_get_or "riskScore" f (VInt 50)) as [|b|z|q|s|l|d];
    intros Hf Hnone; try discriminate Hf;
    try (unfold py_add, to_float; cbn [as_int];
         destruct (Z.abs acc <? float_limit)%Z; eexists; reflexivity);
    (cbn [as_number] in Hnone; cbn [py_add as_int];
     apply IH;
     [ exact Hrest
     | revert Hnone; destruct (risk_values rest); intros Hnone;
       [discriminate Hnone | reflexivity] ]).
Qed.

(** The loop over a request in two parts. *)
Lemma audit_frameworks_app before after resources scan_config :
  forall all_findings compliance_scores w,
    frameworks_loop (before ++ after) resources scan_config
      all_findings compliance_scores w
    = match frameworks_loop before resources scan_config
              all_findings compliance_scores w with
      | (Ok (all_findings', compliance_scores'), w') =>
          frameworks_loop after resources scan_config
            all_findings' compliance_scores' w'
      | (Raise e, w') => (Raise e, w')
      end.
Proof.
  induction before as [|fw before IH]; intros all_findings compliance_scores w;
    [reflexivity|].
  cbn [app audit_frameworks]. unfold bind, lift.
  destruct (analyze_all fw resources scan_config w) as [[ff|e] w1]; [|reflexivity].
  destruct (framework_score ff) as [score|e]; [|reflexivity].
  apply IH.
Qed.

(** X13.  Let the frameworks [before] be analysed and scored (integer
    riskScores within [0,100]), and let the analysis of the next framework
    return findings of which one has a riskScore that is no number, and none
    a float.  Then the scoring step raises TypeError, in the world the
    analysis of that framework left: the frameworks after it in the request
    are never analysed, and the scores already recorded are lost. *)
Theorem scoring_stops_at_non_numeric_risk
    (before : list string) (framework : string) (rest : list string)
    (resources : list dict) (scan_config : pyval) (w w0 w1 : world)
    (runs : list (string * list dict)) (framework_findings : list dict) :
  runs_of before resources scan_config w = (Ok runs, w0) ->
  Forall (fun run => forallb risk_in_range (snd run) = true) runs ->
  analyze_all framework resources scan_config w0 = (Ok framework_findings, w1) ->
  Forall (fun f => risk_not_float f = true) framework_findings ->
  risk_values framework_findings = None ->
  exists msg,
    scoring (before ++ framework :: rest) resources scan_config w
    = (Raise (Exn "TypeError" msg), w1).
Proof.
  intros Hruns Hrange Hrun Hfloat Hrisks.
  assert (Hraise : exists msg,
             framework_score framework_findings = Raise (Exn "TypeError" msg)).
  { unfold framework_score.
    destruct framework_findings as [|f fs]; [discriminate|].
    destruct (sum_risk_type_error (f :: fs) 0%Z Hfloat Hrisks) as (msg & ->).
    exists msg. reflexivity. }
  destruct Hraise as (msg & Hraise). exists msg.
  unfold audit_scoring, bind. rewrite audit_frameworks_app.
  rewrite (audit_frameworks_runs _ _ _ _ _ _ [] [] _ _ _ Hruns
             (in_range_runs_scored runs Hrange)).
  cbn [audit_frameworks]. unfold bind, lift.
  rewrite Hrun, Hraise. reflexivity.
Qed.

End ScoringMore.

Lemma scoring_step_output_witness :
  exists all_findings compliance_scores overall w',
    audit_scoring Sample.clock Sample.repr Sample.bedrock_down
      ["GDPR"; "SOC2"; "GDPR"] [Sample.bucket_a] (VDict []) 0%nat
    = (Ok (all_findings, compliance_scores, overall), w') /\
    List.length all_findings = 6%nat /\
    map fst compliance_scores = ["GDPR"; "SOC2"] /\
    NoDup (map fst compliance_scores) /\
    (List.length compliance_scores <= 3)%nat.
Proof.
  do 4 eexists.
  match goal with
  | |- ?run /\ _ => assert (Hrun : run) by (vm_compute; reflexivity)
  end.
  split; [exact Hrun|].
  split; [reflexivity|]. split; [reflexivity|].
  destruct (scoring_step_output _ _ _ _ _ _ _ _ _ _ _ Hrun)
    as (_ & Hd & _ & Hlen).
  split; [exact Hd | exact Hlen].
Defined.

Lemma score_clamped_from_below_only_witness :
  exists score,
    framework_score [Demo.negative_risk] = Ok score /\
    0 <= score /\
    (mean [inject_Z (-50)] <= -1 -> 101 <= score).
Proof.
  destruct (score_clamped_from_below_only Demo.negative_risk [] [(-50)%Z])
    as (score & Hscore & Hpos & _ & _ & _ & Hhigh).
  - reflexivity.
  - repeat constructor.
  - exists score. split; [exact Hscore|]. split; [exact Hpos | exact Hhigh].
Defined.

(** A riskScore of -50, which the parser lets through, scores 150. *)
Example negative_risk_scores_150 :
  exists score, framework_score [Demo.negative_risk] = Ok score /\ score == 150.
Proof. eexists. split; reflexivity. Qed.

Lemma scoring_stops_at_non_numeric_risk_witness :
  exists msg,
    audit_scoring Sample.clock Sample.repr Demo.bedrock_words_for_gdpr
      ["SOC2"; "GDPR"; "PCI-DSS"] [Sample.bucket_a] (VDict []) 0%nat
    = (Raise (Exn "TypeError" msg), 5%nat).
Proof.
  eapply (scoring_stops_at_non_numeric_risk Sample.clock Sample.repr
            Demo.bedrock_words_for_gdpr ["SOC2"] "GDPR" ["PCI-DSS"]
            [Sample.bucket_a] (VDict []) 0%nat 3%nat 5%nat).
  - vm_compute. reflexivity.
  - repeat constructor.
  - vm_compute. reflexivity.
  - repeat constructor.
  - reflexivity.
Defined.

(* ================================================================== *)
(** ** More on the report compiler *)
(* ================================================================== *)

Lemma py_key_eq_refl v : py_hashable v = true -> py_key_eq v v = true.
Proof.
  destruct v as [|b|z|q|s| |]; cbn; intros H; try discriminate; try reflexivity.
  - destruct b; reflexivity.
  - apply Qeq_bool_iff. reflexivity.
  - apply Qeq_bool_iff. reflexivity.
  - apply String.eqb_refl.
Qed.

Lemma by_type_append_total k f groups :
  group_total (by_type_append k f groups) = S (group_total groups).
Proof.
  unfold group_total.
  induction groups as [|[k' fs] groups IH]; cbn; [reflexivity|].
  destruct (py_key_eq k k'); cbn.
  - rewrite length_app. cbn. lia.
  - rewrite IH. lia.
Qed.

Lemma by_type_append_keys k f groups :
  py_hashable k = true ->
  keys_apart groups -> keys_apart (by_type_append k f groups).
Proof.
  intros Hk. induction groups as [|[k' fs] groups IH]; cbn.
  - intros _. split; [constructor | exact I].
  - intros [Hrest Hgroups].
    destruct (py_key_eq k k') eqn:E; cbn.
    + split; assumption.
    + split; [|apply IH; exact Hgroups].
      clear IH Hgroups.
      induction groups as [|[k0 fs0] groups IH]; cbn.
      * constructor; [exact E | constructor].
      * inversion Hrest as [|? ? H0 Hrest']; subst.
        destruct (py_key_eq k k0); constructor; auto.
Qed.

Lemma by_type_append_members f groups :
  py_hashable (resource_type_of f) = true ->
  Forall group_of_its_key groups ->
  Forall group_of_its_key (by_type_append (resource_type_of f) (VDict f) groups).
Proof.
  intros Hk. induction 1 as [|[k' fs] groups Hg Hgroups IH]; cbn.
  - constructor; [|constructor]. unfold group_of_its_key. cbn.
    constructor; [|constructor]. exists f. split; [reflexivity|].
    apply py_key_eq_refl. exact Hk.
  - destruct (py_key_eq (resource_type_of f) k') eqn:E.
    + constructor; [|exact Hgroups]. unfold group_of_its_key in *. cbn in *.
      apply Forall_app. split; [exact Hg|].
      constructor; [|constructor]. exists f. split; [reflexivity | exact E].
    + constructor; [exact Hg | exact IH].
Qed.

Lemma group_by_type_dicts (fs : list dict) :
  Forall (fun f => py_hashable (resource_type_of f) = true) fs ->
  forall groups w,
    group_by_type (map VDict fs) groups w
    = (Ok (fold_left (fun g f => by_type_append (resource_type_of f) (VDict f) g)
                     fs groups), w).
Proof.
  induction 1 as [|f fs Hf _ IH]; intros groups w; [reflexivity|].
  cbn [map group_by_type fold_left]. run_monad.
  change (dict_get_or "resourceType" f (VStr "Unknown")) with (resource_type_of f).
  rewrite Hf. apply IH.
Qed.

Lemma fold_by_type_invariants (fs : list dict) :
  Forall (fun f => py_hashable (resource_type_of f) = true) fs ->
  forall groups,
    keys_apart groups -> Forall group_of_its_key groups ->
    let groups' :=
      fold_left (fun g f => by_type_append (resource_type_of f) (VDict f) g)
                fs groups in
    group_total groups' = (group_total groups + List.length fs)%nat /\
    keys_apart groups' /\ Forall group_of_its_key groups'.
Proof.
  induction 1 as [|f fs Hf _ IH]; intros groups Hkeys Hmembers; cbn [fold_left].
  - cbn. repeat split; auto.
  - destruct (IH (by_type_append (resource_type_of f) (VDict f) groups))
      as (Htotal & Hk & Hm).
    + apply by_type_append_keys; assumption.
    + apply by_type_append_members; assumption.
    + rewrite by_type_append_total in Htotal. cbn [List.length].
      repeat split; [lia | exact Hk | exact Hm].
Qed.

Lemma py_key_eq_sym a b : py_key_eq a b = py_key_eq b a.
Proof.
  unfold py_key_eq.
  destruct (as_number a) as [x|] eqn:Ea, (as_number b) as [y|] eqn:Eb;
    try reflexivity.
  - destruct (Qeq_bool x y) eqn:E1, (Qeq_bool y x) eqn:E2; try reflexivity.
    + apply Qeq_bool_iff in E1. symmetry in E1. apply Qeq_bool_iff in E1. congruence.
    + apply Qeq_bool_iff in E2. symmetry in E2. apply Qeq_bool_iff in E2. congruence.
  - destruct a, b; try reflexivity. apply String.eqb_sym.
Qed.

Lemma py_key_eq_trans a b c :
  py_key_eq a b = true -> py_key_eq b c = true -> py_key_eq a c = true.
Proof.
  unfold py_key_eq.
  destruct (as_number a) as [x|] eqn:Ea, (as_number b) as [y|] eqn:Eb,
           (as_number c) as [z|] eqn:Ec; try discriminate.
  - rewrite !Qeq_bool_iff. intros H1 H2. rewrite H1. exact H2.
  - destruct a, b; try discriminate; destruct c; try discriminate; try reflexivity.
    intros H1 H2. apply String.eqb_eq in H1, H2. subst. apply String.eqb_refl.
Qed.

(** A key equal to two keys of groups that are apart: there is none. *)
Lemma py_key_eq_apart t k k' :
  py_key_eq t k = true -> py_key_eq k' k = false -> py_key_eq t k' = false.
Proof.
  intros Htk Hkk. destruct (py_key_eq t k') eqn:E; [|reflexivity].
  rewrite <- Hkk. symmetry. apply (py_key_eq_trans k' t k); [|exact Htk].
  rewrite py_key_eq_sym. exact E.
Qed.

Lemma filter_type_snoc seen f k :
  filter (fun f' => py_key_eq (resource_type_of f') k) (seen ++ [f])
  = filter (fun f' => py_key_eq (resource_type_of f') k) seen
    ++ (if py_key_eq (resource_type_of f) k then [f] else []).
Proof. rewrite filter_app. cbn [filter]. reflexivity. Qed.

Lemma filter_none {A} (p : A -> bool) (l : list A) :
  (forall x, In x l -> p x = false) -> filter p l = [].
Proof.
  induction l as [|x l IH]; intros H; [reflexivity|].
  cbn [filter]. rewrite (H x (or_introl eq_refl)).
  apply IH. intros y Hy. apply H. right. exact Hy.
Qed.

(** Appending a finding keeps every group the list of the findings of its
    type seen so far. *)
Lemma by_type_append_holds seen f :
  py_hashable (resource_type_of f) = true ->
  forall groups,
    (forall f', In f' seen ->
       py_key_eq (resource_type_of f') (resource_type_of f) = true ->
       has_group groups f') ->
    keys_apart groups ->
    Forall (group_holds_its_type seen) groups ->
    Forall (group_holds_its_type (seen ++ [f]))
           (by_type_append (resource_type_of f) (VDict f) groups).
Proof.
  intros Hk. induction groups as [|[k ms] groups IH]; intros Hseen Hkeys Hholds.
  - cbn [by_type_append]. constructor; [|constructor].
    unfold group_holds_its_type. cbn [fst snd].
    rewrite filter_type_snoc, (py_key_eq_refl _ Hk).
    rewrite filter_none; [reflexivity|].
    intros f' Hin.
    destruct (py_key_eq (resource_type_of f') (resource_type_of f)) eqn:E;
      [|reflexivity].
    destruct (Hseen f' Hin E) as (g & [] & _).
  - inversion Hholds as [|g gs Hhead Hrest]; subst.
    destruct Hkeys as [Hapart Hkeys].
    unfold group_holds_its_type in Hhead. cbn [fst snd] in Hhead.
    cbn [by_type_append].
    destruct (py_key_eq (resource_type_of f) k) eqn:E.
    + constructor.
      * unfold group_holds_its_type. cbn [fst snd].
        rewrite filter_type_snoc, E, map_app, Hhead. reflexivity.
      * rewrite Forall_forall in *. intros g Hg.
        unfold group_holds_its_type.
        rewrite filter_type_snoc,
          (py_key_eq_apart _ _ _ E (Hapart g Hg)), app_nil_r.
        exact (Hrest g Hg).
    + constructor.
      * unfold group_holds_its_type. cbn [fst snd].
        rewrite filter_type_snoc, E, app_nil_r. exact Hhead.
      * apply IH; [|exact Hkeys | exact Hrest].
        intros f' Hin Hsame.
        destruct (Hseen f' Hin Hsame) as (g & [<- | Hg] & Hkey).
        -- cbn [fst] in Hkey. exfalso.
           assert (py_key_eq (resource_type_of f) k = true); [|congruence].
           apply (py_key_eq_trans _ (resource_type_of f') _); [|exact Hkey].
           rewrite py_key_eq_sym. exact Hsame.
        -- exists g. split; assumption.
Qed.

Lemma by_type_append_has_group t x groups f :
  has_group groups f -> has_group (by_type_append t x groups) f.
Proof.
  intros (g & Hin & Hkey). revert Hin.
  induction groups as [|[k ms] groups IH]; intros Hin; [destruct Hin|].
  cbn [by_type_append].
  destruct Hin as [<- | Hin].
  - cbn [fst] in Hkey.
    destruct (py_key_eq t k); eexists; (split; [left; reflexivity | exact Hkey]).
  - destruct (py_key_eq t k).
    + exists g. split; [right; exact Hin | exact Hkey].
    + destruct (IH Hin) as (g' & Hin' & Hkey').
      exists g'. split; [right; exact Hin' | exact Hkey'].
Qed.

Lemma by_type_append_has_own f groups :
  py_hashable (resource_type_of f) = true ->
  has_group (by_type_append (resource_type_of f) (VDict f) groups) f.
Proof.
  intros Hk. induction groups as [|[k ms] groups IH]; cbn [by_type_append].
  - eexists. split; [left; reflexivity|]. apply py_key_eq_refl. exact Hk.
  - destruct (py_key_eq (resource_type_of f) k) eqn:E.
    + eexists. split; [left; reflexivity | exact E].
    + destruct IH as (g & Hin & Hkey). exists g. split; [right; exact Hin | exact Hkey].
Qed.

Lemma fold_by_type_holds (fs : list dict) :
  Forall (fun f => py_hashable (resource_type_of f) = true) fs ->
  forall seen groups,
    keys_apart groups ->
    Forall (group_holds_its_type seen) groups ->
    Forall (has_group groups) seen ->
    let groups' :=
      fold_left (fun g f => by_type_append (resource_type_of f) (VDict f) g)
                fs groups in
    Forall (group_holds_its_type (seen ++ fs)) groups' /\
    Forall (has_group groups') (seen ++ fs).
Proof.
  induction 1 as [|f fs Hf _ IH]; intros seen groups Hkeys Hholds Hseen;
    cbn [fold_left].
  - rewrite app_nil_r. split; assumption.
  - replace (seen ++ f :: fs) with ((seen ++ [f]) ++ fs)
      by (rewrite <- app_assoc; reflexivity).
    apply IH.
    + apply by_type_append_keys; assumption.
    + apply by_type_append_holds; try assumption.
      intros f' Hin _. rewrite Forall_forall in Hseen. apply Hseen. exact Hin.
    + apply Forall_app. split.
      * eapply Forall_impl; [|exact Hseen].
        intros f'. apply by_type_append_has_group.
      * constructor; [|constructor]. apply by_type_append_has_own. exact Hf.
Qed.

(** X14.  Grouping by resource type loses nothing and adds nothing: for
    findings that are records with resource types usable as dict keys, the
    members of every group are exactly the findings of the group's resource
    type, in input order; every finding has the group of its resource type,
    the group ["Unknown"] when it has none; no two groups have the same key;
    and so the group sizes sum to the number of findings. *)
Theorem resource_type_groups_partition (fs : list dict) (w : world) :
  Forall (fun f => py_hashable (resource_type_of f) = true) fs ->
  exists groups,
    group_by_type (map VDict fs) [] w = (Ok groups, w) /\
    Forall (group_holds_its_type fs) groups /\
    Forall (has_group groups) fs /\
    keys_apart groups /\
    group_total groups = List.length fs /\
    Forall group_of_its_key groups.
Proof.
  intros Hfs. eexists. split; [apply group_by_type_dicts; exact Hfs|].
  destruct (fold_by_type_invariants fs Hfs [] I (Forall_nil _))
    as (Htotal & Hkeys & Hmembers).
  destruct (fold_by_type_holds fs Hfs [] [] I (Forall_nil _) (Forall_nil _))
    as (Hholds & Hgroups).
  repeat split; assumption.
Qed.

Lemma resource_type_groups_partition_witness :
  exists groups,
    group_by_type
      (map VDict [Demo.bucket_finding; Demo.anonymous_finding; Demo.bucket_finding])
      [] 0%nat = (Ok groups, 0%nat) /\
    Forall (group_holds_its_type
              [Demo.bucket_finding; Demo.anonymous_finding; Demo.bucket_finding])
           groups /\
    Forall (has_group groups)
           [Demo.bucket_finding; Demo.anonymous_finding; Demo.bucket_finding] /\
    keys_apart groups /\
    group_total groups = 3%nat /\
    Forall group_of_its_key groups.
Proof.
  apply (resource_type_groups_partition
           [Demo.bucket_finding; Demo.anonymous_finding; Demo.bucket_finding] 0%nat).
  repeat constructor.
Defined.

(** The groups of the witness: the finding without a type is under
    ["Unknown"]. *)
Example unknown_group :
  fst (group_by_type
         (map VDict [Demo.bucket_finding; Demo.anonymous_finding; Demo.bucket_finding])
         [] 0%nat)
  = Ok [ (VStr "S3_BUCKET", [VDict Demo.bucket_finding; VDict Demo.bucket_finding]);
         (VStr "Unknown", [VDict Demo.anonymous_finding]) ].
Proof. reflexivity. Qed.

Lemma invalid_severity_no_bucket f :
  valid_severity (severity_of f) = false ->
  has_severity "CRITICAL" f = false /\ has_severity "HIGH" f = false /\
  has_severity "MEDIUM" f = false /\ has_severity "LOW" f = false.
Proof.
  unfold valid_severity, has_severity, severity_levels. cbn [existsb].
  destruct (py_eq_str (severity_of f) "CRITICAL"),
    (py_eq_str (severity_of f) "HIGH"),
    (py_eq_str (severity_of f) "MEDIUM"),
    (py_eq_str (severity_of f) "LOW"); cbn; intros; try discriminate; repeat split.
Qed.

Lemma four_filters_valid (fs : list dict) :
  (List.length (filter (has_severity "CRITICAL") fs)
   + (List.length (filter (has_severity "HIGH") fs)
      + (List.length (filter (has_severity "MEDIUM") fs)
         + (List.length (filter (has_severity "LOW") fs) + 0))))%nat
  = List.length (with_valid_severity fs).
Proof.
  unfold with_valid_severity.
  induction fs as [|f rest IH]; [reflexivity|].
  rewrite !filter_length_cons.
  destruct (valid_severity (severity_of f)) eqn:E.
  - pose proof (valid_severity_one_bucket f E). cbn [Nat.b2n]. lia.
  - destruct (invalid_severity_no_bucket f E) as (-> & -> & -> & ->).
    cbn [Nat.b2n]. lia.
Qed.

Lemma filter_length_all {A} (p : A -> bool) (l : list A) :
  (List.length (filter p l) <= List.length l)%nat /\
  (List.length (filter p l) = List.length l <-> Forall (fun x => p x = true) l).
Proof.
  induction l as [|x l [IHle IHiff]]; cbn.
  - split; [lia|]. split; [constructor | reflexivity].
  - destruct (p x) eqn:E; cbn.
    + split; [lia|]. split.
      * intros H. constructor; [exact E|]. apply IHiff. lia.
      * intros H. inversion H; subst. f_equal. apply IHiff. assumption.
    + split; [lia|]. split.
      * intros H. lia.
      * intros H. inversion H; subst. congruence.
Qed.

Lemma detailed_findings_from_dicts (fs : list dict) :
  forall i acc w,
    detailed_findings_from i (map VDict fs) acc w
    = (Ok (acc ++ detailed_entries i fs), w).
Proof.
  induction fs as [|f rest IH]; intros i acc w.
  - cbn. rewrite app_nil_r. reflexivity.
  - cbn [map detailed_findings_from detailed_entries]. run_monad.
    rewrite IH, <- app_assoc. reflexivity.
Qed.

Lemma detailed_entries_length fs : forall i,
  List.length (detailed_entries i fs) = List.length fs.
Proof. induction fs as [|f rest IH]; intros i; cbn; [|rewrite IH]; reflexivity. Qed.

Lemma detailed_entries_numbers fs : forall i,
  map (dict_get "findingNumber") (detailed_entries i fs)
  = map (fun n => Some (VInt (Z.of_nat n))) (seq i (List.length fs)).
Proof.
  induction fs as [|f rest IH]; intros i; cbn [detailed_entries map seq List.length];
    [reflexivity|].
  rewrite IH. reflexivity.
Qed.

Lemma detailed_entries_Forall2 (R : dict -> dict -> Prop) fs :
  (forall i f, R f (detailed_entry i f)) ->
  forall i, Forall2 R fs (detailed_entries i fs).
Proof.
  intros HR. induction fs as [|f rest IH]; intros i; cbn; constructor; auto.
Qed.

(** X16.  The detailed list has one entry per finding, in input order and
    numbered from 1.  An entry copies title, severity, resource, description,
    frameworks, riskScore and remediation steps, with its own defaults for
    what is missing (severity UNKNOWN, riskScore 0, status OPEN); the
    finding's [requirement] and [createdAt] are not carried over. *)
Theorem detailed_findings_numbered (fs : list dict) (w : world) :
  exists entries,
    generate_detailed_findings (map VDict fs) w = (Ok entries, w) /\
    List.length entries = List.length fs /\
    map (dict_get "findingNumber") entries
    = map (fun n => Some (VInt (Z.of_nat n))) (seq 1 (List.length fs)) /\
    Forall2
      (fun f entry =>
         dict_get "title" entry = Some (dict_get_or "title" f (VStr "Untitled Finding")) /\
         dict_get "severity" entry = Some (dict_get_or "severity" f (VStr "UNKNOWN")) /\
         dict_get "riskScore" entry = Some (dict_get_or "riskScore" f (VInt 0)) /\
         dict_get "status" entry = Some (dict_get_or "status" f (VStr "OPEN")) /\
         dict_get "requirement" entry = None /\
         dict_get "createdAt" entry = None)
      fs entries.
Proof.
  unfold generate_detailed_findings. rewrite detailed_findings_from_dicts.
  eexists. split; [reflexivity|]. cbn [app].
  split; [apply detailed_entries_length|].
  split; [apply detailed_entries_numbers|].
  apply detailed_entries_Forall2. intros i f. repeat split.
Qed.

Lemma generate_recommendations_dicts (fs : list dict) (w : world) :
  generate_recommendations (map VDict fs) w
  = (Ok (priority_recommendations
           (List.length (filter (has_severity "CRITICAL") fs))
           (List.length (filter (has_severity "HIGH") fs))
         ++ standing_recommendations), w).
Proof.
  unfold generate_recommendations, bind.
  rewrite !filter_severity_dicts. unfold ret, priority_recommendations.
  rewrite !length_map.
  destruct (filter (has_severity "CRITICAL") fs) as [|c cs];
    destruct (filter (has_severity "HIGH") fs) as [|h hs]; reflexivity.
Qed.

(** X17.  The recommendations always end with the same four standing ones.
    Before them comes a PRIORITY 1 line exactly when there are CRITICAL
    findings and then a PRIORITY 2 line exactly when there are HIGH findings,
    each naming the number of such findings; findings of other severities
    change nothing. *)
Theorem recommendations_shape (fs : list dict) (w : world) :
  exists recommendations,
    generate_recommendations (map VDict fs) w = (Ok recommendations, w) /\
    recommendations
    = priority_recommendations
        (List.length (filter (has_severity "CRITICAL") fs))
        (List.length (filter (has_severity "HIGH") fs))
      ++ standing_recommendations /\
    (4 <= List.length recommendations <= 6)%nat /\
    (List.length recommendations = 4%nat <->
     Forall (fun f => has_severity "CRITICAL" f = false /\
                      has_severity "HIGH" f = false) fs).
Proof.
  rewrite generate_recommendations_dicts.
  eexists. split; [reflexivity|]. split; [reflexivity|].
  rewrite length_app. unfold priority_recommendations. rewrite length_app.
  cbn [standing_recommendations List.length].
  assert (Hnone : forall level,
             List.length (filter (has_severity level) fs) = 0%nat <->
             Forall (fun f => has_severity level f = false) fs).
  { intros level. induction fs as [|f rest IH]; cbn.
    - split; [constructor | reflexivity].
    - destruct (has_severity level f) eqn:E; cbn.
      + split; [discriminate|]. intros H. inversion H; subst. congruence.
      + rewrite IH. split; [intros H; constructor; auto|].
        intros H. inversion H; subst. assumption. }
  pose proof (Hnone "CRITICAL") as Hc. pose proof (Hnone "HIGH") as Hh.
  destruct (List.length (filter (has_severity "CRITICAL") fs)) as [|c];
    destruct (List.length (filter (has_severity "HIGH") fs)) as [|h];
    cbn [Nat.ltb Nat.leb List.length]; (split; [lia|]); split; intros H;
    try lia.
  - apply Forall_forall. intros f Hf.
    destruct Hc as [Hc _], Hh as [Hh _].
    specialize (Hc eq_refl). specialize (Hh eq_refl).
    rewrite Forall_forall in Hc, Hh. auto.
  - exfalso. destruct Hh as [_ Hh].
    assert (S h = 0%nat); [|discriminate].
    apply Hh. eapply Forall_impl; [|exact H]. intros f [_ Hf]. exact Hf.
  - exfalso. destruct Hc as [_ Hc].
    assert (S c = 0%nat); [|discriminate].
    apply Hc. eapply Forall_impl; [|exact H]. intros f [Hf _]. exact Hf.
  - exfalso. destruct Hc as [_ Hc].
    assert (S c = 0%nat); [|discriminate].
    apply Hc. eapply Forall_impl; [|exact H]. intros f [Hf _]. exact Hf.
Qed.

Lemma float_like_number v : float_like v = true -> is_number v = true.
Proof. destruct v; intros H; try reflexivity; discriminate H. Qed.

Lemma format_1f_number v w :
  float_like v = true -> exists text, format_1f v w = (Ok text, w).
Proof.
  unfold float_like, format_1f. intros H.
  destruct v as [|b|z|x|s|l|d]; try discriminate H;
    destruct (to_float _) as [[y|e]|]; try discriminate H;
    eexists; reflexivity.
Qed.

Lemma py_round1_number v w :
  is_number v = true -> exists rounded, py_round1 v w = (Ok rounded, w).
Proof.
  destruct v; cbn; intros H; try discriminate; eexists; reflexivity.
Qed.

Lemma join_items_strs names : forall i w,
  join_items (map VStr names) i w = (Ok names, w).
Proof.
  induction names as [|name names IH]; intros i w; [reflexivity|].
  cbn [map join_items]. unfold bind. rewrite IH. reflexivity.
Qed.

Lemma framework_score_lines_numbers (items : dict) :
  Forall (fun kv => float_like (snd kv) = true) items ->
  forall summary w, exists text, framework_score_lines items summary w = (Ok text, w).
Proof.
  induction 1 as [|[framework score] items Hscore _ IH]; intros summary w.
  - eexists. reflexivity.
  - cbn [framework_score_lines]. unfold bind.
    destruct (format_1f_number score w Hscore) as (text & ->).
    apply IH.
Qed.

Lemma generate_executive_summary_typed overall_score buckets sc names w :
  float_like overall_score = true ->
  Forall (fun kv => float_like (snd kv) = true) sc ->
  exists text,
    generate_executive_summary overall_score buckets (VDict sc)
      (VList (map VStr names)) w = (Ok text, w).
Proof.
  intros Hoverall Hsc.
  unfold generate_executive_summary, py_join, join_iter, py_iter, py_items, bind, ret.
  rewrite join_items_strs.
  destruct (format_1f_number overall_score w Hoverall) as (overall & ->).
  match goal with
  | |- context [framework_score_lines sc ?summary w] =>
      destruct (framework_score_lines_numbers sc Hsc summary w) as (text & ->)
  end.
  eexists. reflexivity.
Qed.

Section ReportMore.

Variable utcnow_isoformat : world -> string.
Variable utcnow_strftime : world -> string.
Variable uuid4_str : world -> string.
Variable py_repr : pyval -> string.
Variable s3_put_object : world -> string -> string -> dict -> string -> result unit.
Variable s3_generate_presigned_url : world -> string -> string -> result string.

Local Notation "'content_of'" :=
  (create_report_content utcnow_isoformat uuid4_str).
Local Notation "'report'" :=
  (generate_compliance_report utcnow_isoformat utcnow_strftime uuid4_str
     py_repr s3_put_object s3_generate_presigned_url).

(** The report content for inputs of the types the signature names. *)
Lemma create_report_content_typed
    audit_run_id findings compliance_scores overall_score frameworks
    resources_scanned fs w :
  typed_report_input findings compliance_scores overall_score frameworks fs ->
  exists content,
    content_of audit_run_id findings compliance_scores overall_score frameworks
      resources_scanned w = (Ok content, S (S w)) /\
    dict_get "totalFindings" (rc_metadata content)
    = Some (VInt (Z.of_nat (List.length fs))) /\
    dict_get "auditRunId" (rc_metadata content) = Some audit_run_id /\
    rc_bySeverity content
    = map (fun level => (level, List.length (filter (has_severity level) fs)))
          severity_levels /\
    (exists groups,
       group_by_type (map VDict fs) [] w = (Ok groups, w) /\
       rc_byResourceType content
       = map (fun kv => (fst kv, List.length (snd kv))) groups) /\
    rc_detailedFindings content = detailed_entries 1 fs /\
    rc_recommendations content
    = priority_recommendations
        (List.length (filter (has_severity "CRITICAL") fs))
        (List.length (filter (has_severity "HIGH") fs))
      ++ standing_recommendations.
Proof.
  intros (-> & Hhash & (sc & -> & Hsc) & Hoverall & (names & ->)).
  unfold create_report_content, bind. cbn [py_iter ret].
  rewrite group_by_severity_dicts, (group_by_type_dicts fs Hhash).
  match goal with
  | |- context [generate_executive_summary overall_score ?b (VDict sc) _ w] =>
      destruct (generate_executive_summary_typed overall_score b sc names w
                  Hoverall Hsc) as (text & ->)
  end.
  unfold generate_detailed_findings.
  rewrite detailed_findings_from_dicts, generate_recommendations_dicts.
  unfold uuid4, now_isoformat, utcnow. cbn [py_len ret].
  destruct (py_round1_number overall_score (S (S w)) (float_like_number _ Hoverall)) as (rounded & ->).
  eexists. split; [reflexivity|]. cbn [rc_metadata rc_bySeverity rc_byResourceType
    rc_detailedFindings rc_recommendations].
  rewrite length_map.
  repeat split.
  - cbn [map severity_levels fst snd]. rewrite !length_map. reflexivity.
  - eexists. split; reflexivity.
Qed.

(** X15.  In the report content for typed inputs (finding records, scores
    and overall score floats or ints that fit a float, frameworks a list of
    strs), [totalFindings], the
    by-resource-type counts and the detailed list all account for every
    finding, but the by-severity counts account only for the findings whose
    severity is one of the four tokens: they sum to the total exactly when
    every finding has such a severity. *)
Theorem report_content_counts
    (audit_run_id findings compliance_scores overall_score frameworks
       resources_scanned : pyval) (fs : list dict) (w : world) :
  typed_report_input findings compliance_scores overall_score frameworks fs ->
  exists content w',
    content_of audit_run_id findings compliance_scores overall_score frameworks
      resources_scanned w = (Ok content, w') /\
    dict_get "totalFindings" (rc_metadata content)
    = Some (VInt (Z.of_nat (List.length fs))) /\
    count_total (rc_byResourceType content) = List.length fs /\
    List.length (rc_detailedFindings content) = List.length fs /\
    count_total (rc_bySeverity content) = List.length (with_valid_severity fs) /\
    (count_total (rc_bySeverity content) <= List.length fs)%nat /\
    (count_total (rc_bySeverity content) = List.length fs <->
     Forall (fun f => valid_severity (severity_of f) = true) fs).
Proof.
  intros Htyped.
  pose proof Htyped as (_ & Hhash & _).
  destruct (create_report_content_typed audit_run_id _ _ _ _ resources_scanned
              fs w Htyped)
    as (content & Hrun & Htotal & _ & Hsev & (groups & Hgroups & Htype)
        & Hdetailed & _).
  exists content, (S (S w)). split; [exact Hrun|]. split; [exact Htotal|].
  assert (Hbysev : count_total (rc_bySeverity content)
                   = List.length (with_valid_severity fs)).
  { rewrite Hsev. unfold count_total. cbn [map severity_levels snd fold_right].
    apply four_filters_valid. }
  pose proof (filter_length_all (fun f => valid_severity (severity_of f)) fs)
    as [Hle Hiff].
  fold (with_valid_severity fs) in Hle, Hiff.
  split; [|split; [|split; [exact Hbysev|split]]].
  - rewrite Htype. unfold count_total. rewrite map_map. cbn [snd].
    rewrite (group_by_type_dicts fs Hhash) in Hgroups. injection Hgroups as <-.
    destruct (fold_by_type_invariants fs Hhash [] I (Forall_nil _)) as (Ht & _).
    exact Ht.
  - rewrite Hdetailed. apply detailed_entries_length.
  - rewrite Hbysev. exact Hle.
  - rewrite Hbysev. exact Hiff.
Qed.


End ReportMore.

Lemma demo_report_input :
  typed_report_input (VList (map VDict Demo.report_findings))
    (VDict [("GDPR", VFloat 25)]) (VFloat 25) (VList (map VStr ["GDPR"]))
    Demo.report_findings.
Proof.
  split; [reflexivity|]. split; [repeat constructor|].
  split; [eexists; split; [reflexivity | repeat constructor]|].
  split; [reflexivity|]. eexists. reflexivity.
Qed.

Lemma detailed_findings_numbered_witness :
  exists entries,
    generate_detailed_findings (map VDict Demo.report_findings) 0%nat
    = (Ok entries, 0%nat) /\
    map (dict_get "findingNumber") entries
    = [Some (VInt 1); Some (VInt 2); Some (VInt 3)] /\
    map (dict_get "severity") entries
    = [Some (VStr "HIGH"); Some (VStr "UNKNOWN"); Some (VStr "INFO")].
Proof.
  destruct (detailed_findings_numbered Demo.report_findings 0%nat)
    as (entries & Hrun & _ & Hnumbers & _).
  exists entries. split; [exact Hrun|]. split; [exact Hnumbers|].
  cbn in Hrun. injection Hrun as <-. reflexivity.
Defined.

Lemma report_content_counts_witness :
  exists content w',
    create_report_content Sample.clock Sample.uuid (VStr "run-7")
      (VList (map VDict Demo.report_findings)) (VDict [("GDPR", VFloat 25)])
      (VFloat 25) (VList (map VStr ["GDPR"])) (VInt 9) 0%nat = (Ok content, w') /\
    dict_get "totalFindings" (rc_metadata content) = Some (VInt 3) /\
    count_total (rc_byResourceType content) = 3%nat /\
    List.length (rc_detailedFindings content) = 3%nat /\
    count_total (rc_bySeverity content) = 1%nat.
Proof.
  destruct (report_content_counts Sample.clock Sample.uuid (VStr "run-7")
              _ _ _ _ (VInt 9) Demo.report_findings 0%nat demo_report_input)
    as (content & w' & Hrun & Htotal & Htypes & Hdetailed & Hsev & _).
  exists content, w'. repeat split; assumption.
Defined.


(** An overall score that is an int beyond the doubles cannot be formatted:
    the report is an ERROR before the object store is reached, also with a
    store that works. *)
Example report_overflowing_score :
  fst (generate_compliance_report Sample.clock Sample.stamp Sample.uuid Sample.repr
         Sample.s3_put_ok Sample.s3_presign
         (VStr "run-8") (VList []) (VDict []) (VInt (10 ^ 400)) (VList [])
         (VInt 0) 0%nat)
  = Ok [ ("reportId", VStr "uuid-0");
         ("auditRunId", VStr "run-8");
         ("generatedAt", VStr "2024-01-01T00:00:1");
         ("status", VStr "ERROR");
         ("error", VStr "int too large to convert to float") ].
Proof. vm_compute. reflexivity. Qed.

(* ================================================================== *)
(** ** The mock resource generator *)
(* ================================================================== *)

Lemma returns_ret {A} (a : A) (P : A -> Prop) : P a -> returns (ret a) P.
Proof. intros Ha w. exists a, w. split; [reflexivity | exact Ha]. Qed.

Lemma returns_bind {A B} (m : M A) (k : A -> M B) (P : A -> Prop) (Q : B -> Prop) :
  returns m P -> (forall a, P a -> returns (k a) Q) -> returns (bind m k) Q.
Proof.
  intros Hm Hk w. unfold bind.
  destruct (Hm w) as (a & w1 & -> & Ha).
  exact (Hk a Ha w1).
Qed.

Lemma returns_weaken {A} (m : M A) (P Q : A -> Prop) :
  returns m P -> (forall a, P a -> Q a) -> returns m Q.
Proof.
  intros Hm HPQ w. destruct (Hm w) as (a & w1 & Hrun & Ha).
  exists a, w1. split; [exact Hrun | apply HPQ; exact Ha].
Qed.

Section Generator.

Variable entropy : world -> nat.
Variable uuid4_hex : world -> string.
Variable days_ago_isoformat : world -> nat -> string.

Local Notation "'draw'" := (randint entropy).
Local Notation "'pick'" := (choice entropy).

Lemma randint_returns a b :
  (a <= b)%nat -> returns (draw a b) (fun x => (a <= x <= b)%nat).
Proof.
  intros Hab w. unfold randint. eexists; eexists. split; [reflexivity|].
  pose proof (Nat.mod_upper_bound (entropy w) (b - a + 1)). lia.
Qed.

Lemma choice_returns {A} (first : A) (others : list A) :
  returns (pick first others) (fun x => In x (first :: others)).
Proof.
  intros w. unfold choice. eexists; eexists. split; [reflexivity|].
  apply nth_In. apply Nat.mod_upper_bound. cbn. discriminate.
Qed.

Lemma choice_any {A} (first : A) (others : list A) :
  returns (pick first others) (fun _ => True).
Proof. intros w. unfold choice. eexists; eexists. split; [reflexivity | exact I]. Qed.

Lemma uuid_hex_prefix_returns n :
  returns (uuid_hex_prefix uuid4_hex n) (fun _ => True).
Proof. intros w. eexists; eexists. split; [reflexivity | exact I]. Qed.

Lemma days_ago_returns a b :
  returns (days_ago entropy days_ago_isoformat a b) (fun _ => True).
Proof. intros w. unfold days_ago, randint. eexists; eexists. split; [reflexivity | exact I]. Qed.

Lemma randint_any a b : returns (draw a b) (fun _ => True).
Proof. intros w. eexists; eexists. split; [reflexivity | exact I]. Qed.

(** Runs the next draw of a generator loop. *)
Ltac next_draw :=
  lazymatch goal with
  | |- returns (bind (randint _ _ _) _) _ =>
      eapply returns_bind; [apply randint_any | intros ? _]
  | |- returns (bind (uuid_hex_prefix _ _) _) _ =>
      eapply returns_bind; [apply uuid_hex_prefix_returns | intros ? _]
  | |- returns (bind (days_ago _ _ _ _) _) _ =>
      eapply returns_bind; [apply days_ago_returns | intros ? _]
  | |- returns (bind (choice _ _ _) _) _ =>
      eapply returns_bind; [apply choice_any | intros ? _]
  | |- returns (bind (choice_region _) _) _ =>
      eapply returns_bind; [apply choice_any | intros ? _]
  | |- returns (bind (choice_environment _) _) _ =>
      eapply returns_bind; [apply choice_any | intros ? _]
  | |- returns (bind (one_in_three _) _) _ =>
      eapply returns_bind; [apply choice_any | intros ? _]
  | |- returns (bind (two_in_three _) _) _ =>
      eapply returns_bind; [apply choice_any | intros ? _]
  | |- returns (bind (one_in_two _) _) _ =>
      eapply returns_bind; [apply choice_any | intros ? _]
  end.

Lemma adds_none P acc : adds P 0 acc acc.
Proof. exists []. rewrite app_nil_r. repeat split. constructor. Qed.

Lemma adds_one P n acc r out :
  P r -> adds P n (acc ++ [r]) out -> adds P (S n) acc out.
Proof.
  intros Hr (new & -> & Hlen & Hnew). exists (r :: new).
  rewrite <- app_assoc. cbn. repeat split; [lia | constructor; assumption].
Qed.

Lemma s3_buckets_loop_returns n : forall acc,
  returns (s3_buckets_loop entropy uuid4_hex days_ago_isoformat n acc)
          (adds generated_bucket n acc).
Proof.
  induction n as [|n IH]; intros acc.
  - apply returns_ret, adds_none.
  - cbn [s3_buckets_loop]. repeat next_draw.
    eapply returns_weaken; [apply IH|]. intros out. apply adds_one.
    split; [repeat split; eexists; reflexivity|].
    match goal with
    | |- context [if ?b then _ else _] => destruct b
    end; do 2 eexists; cbn; repeat split; congruence.
Qed.

Lemma ec2_instances_loop_returns n : forall acc,
  returns (ec2_instances_loop entropy uuid4_hex days_ago_isoformat n acc)
          (adds generated_instance n acc).
Proof.
  induction n as [|n IH]; intros acc.
  - apply returns_ret, adds_none.
  - cbn [ec2_instances_loop]. repeat next_draw.
    eapply returns_weaken; [apply IH|]. intros out. apply adds_one.
    split; [repeat split; eexists; reflexivity|].
    match goal with
    | |- context [if ?b then _ else _] => destruct b
    end; do 2 eexists; cbn; repeat split; congruence.
Qed.

Lemma iam_roles_loop_returns n : forall acc,
  returns (iam_roles_loop entropy days_ago_isoformat n acc)
          (adds generated_role n acc).
Proof.
  induction n as [|n IH]; intros acc.
  - apply returns_ret, adds_none.
  - cbn [iam_roles_loop]. repeat next_draw.
    eapply returns_weaken; [apply IH|]. intros out. apply adds_one.
    split; [repeat split; eexists; reflexivity|].
    match goal with
    | |- context [if ?b then _ else _] => destruct b
    end; cbn; auto.
Qed.

Lemma lambda_functions_loop_returns n : forall acc,
  returns (lambda_functions_loop entropy days_ago_isoformat n acc)
          (adds generated_function n acc).
Proof.
  induction n as [|n IH]; intros acc.
  - apply returns_ret, adds_none.
  - cbn [lambda_functions_loop]. repeat next_draw.
    eapply returns_weaken; [apply IH|]. intros out. apply adds_one.
    split; [repeat split; eexists; reflexivity|].
    match goal with
    | |- context [if negb ?b then _ else _] => destruct b
    end; eexists; cbn; split; auto.
Qed.

Lemma rds_instances_loop_returns n : forall acc,
  returns (rds_instances_loop entropy days_ago_isoformat n acc)
          (adds (resource_of_type "RDS_INSTANCE") n acc).
Proof.
  induction n as [|n IH]; intros acc.
  - apply returns_ret, adds_none.
  - cbn [rds_instances_loop]. repeat next_draw.
    eapply returns_weaken; [apply IH|]. intros out. apply adds_one.
    repeat split; eexists; reflexivity.
Qed.

Lemma cloudtrail_trails_loop_returns n : forall acc,
  returns (cloudtrail_trails_loop entropy days_ago_isoformat n acc)
          (adds (resource_of_type "CLOUDTRAIL_TRAIL") n acc).
Proof.
  induction n as [|n IH]; intros acc.
  - apply returns_ret, adds_none.
  - cbn [cloudtrail_trails_loop]. repeat next_draw.
    eapply returns_weaken; [apply IH|]. intros out. apply adds_one.
    repeat split; eexists; reflexivity.
Qed.

Lemma generate_s3_buckets_returns :
  returns (generate_s3_buckets entropy uuid4_hex days_ago_isoformat)
    (fun out => (5 <= List.length out <= 15)%nat /\ Forall generated_bucket out).
Proof.
  unfold generate_s3_buckets.
  eapply returns_bind; [apply (randint_returns 5 15); lia | intros n Hn].
  eapply returns_weaken; [apply s3_buckets_loop_returns|].
  intros out (new & -> & Hlen & Hnew). cbn [app]. subst n.
  split; [exact Hn | exact Hnew].
Qed.

Lemma generate_ec2_instances_returns :
  returns (generate_ec2_instances entropy uuid4_hex days_ago_isoformat)
    (fun out => (3 <= List.length out <= 10)%nat /\ Forall generated_instance out).
Proof.
  unfold generate_ec2_instances.
  eapply returns_bind; [apply (randint_returns 3 10); lia | intros n Hn].
  eapply returns_weaken; [apply ec2_instances_loop_returns|].
  intros out (new & -> & Hlen & Hnew). cbn [app]. subst n.
  split; [exact Hn | exact Hnew].
Qed.

Lemma generate_iam_roles_returns :
  returns (generate_iam_roles entropy days_ago_isoformat)
    (fun out => (3 <= List.length out <= 8)%nat /\ Forall generated_role out).
Proof.
  unfold generate_iam_roles.
  eapply returns_bind; [apply (randint_returns 3 8); lia | intros n Hn].
  eapply returns_weaken; [apply iam_roles_loop_returns|].
  intros out (new & -> & Hlen & Hnew). cbn [app]. subst n.
  split; [exact Hn | exact Hnew].
Qed.

Lemma generate_lambda_functions_returns :
  returns (generate_lambda_functions entropy days_ago_isoformat)
    (fun out => (2 <= List.length out <= 8)%nat /\ Forall generated_function out).
Proof.
  unfold generate_lambda_functions.
  eapply returns_bind; [apply (randint_returns 2 8); lia | intros n Hn].
  eapply returns_weaken; [apply lambda_functions_loop_returns|].
  intros out (new & -> & Hlen & Hnew). cbn [app]. subst n.
  split; [exact Hn | exact Hnew].
Qed.

Lemma generate_rds_instances_returns :
  returns (generate_rds_instances entropy days_ago_isoformat)
    (fun out => (1 <= List.length out <= 4)%nat /\
                Forall (resource_of_type "RDS_INSTANCE") out).
Proof.
  unfold generate_rds_instances.
  eapply returns_bind; [apply (randint_returns 1 4); lia | intros n Hn].
  eapply returns_weaken; [apply rds_instances_loop_returns|].
  intros out (new & -> & Hlen & Hnew). cbn [app]. subst n.
  split; [exact Hn | exact Hnew].
Qed.

Lemma generate_cloudtrail_trails_returns :
  returns (generate_cloudtrail_trails entropy days_ago_isoformat)
    (fun out => (1 <= List.length out <= 3)%nat /\
                Forall (resource_of_type "CLOUDTRAIL_TRAIL") out).
Proof.
  unfold generate_cloudtrail_trails.
  eapply returns_bind; [apply days_ago_returns | intros created_at _].
  eapply returns_bind; [apply choice_any | intros validation _].
  eapply returns_bind; [apply (randint_returns 0 2); lia | intros n Hn].
  eapply returns_weaken; [apply cloudtrail_trails_loop_returns|].
  intros out (new & -> & Hlen & Hnew). cbn [app List.length]. subst n.
  cbv beta in Hn. split; [lia|]. constructor; [|exact Hnew].
  repeat split; eexists; reflexivity.
Qed.

(** What the generator returns, whatever the random source. *)
Lemma generate_mock_resources_returns scan_config :
  returns (generate_mock_resources entropy uuid4_hex days_ago_isoformat scan_config)
          generated_inventory.
Proof.
  unfold generate_mock_resources.
  eapply returns_bind; [apply generate_s3_buckets_returns | intros b [Hb Hbs]].
  eapply returns_bind; [apply generate_ec2_instances_returns | intros e [He Hes]].
  eapply returns_bind; [apply generate_iam_roles_returns | intros r [Hr Hrs]].
  eapply returns_bind; [apply generate_lambda_functions_returns | intros f [Hf Hfs]].
  eapply returns_bind; [apply generate_rds_instances_returns | intros d [Hd Hds]].
  eapply returns_bind; [apply generate_cloudtrail_trails_returns | intros t [Ht Hts]].
  apply returns_ret. exists b, e, r, f, d, t. cbn [app].
  rewrite <- !app_assoc. repeat split; assumption || lia.
Qed.

(** X19.  Whatever the random source and the scan configuration, the
    generator returns an inventory of six blocks in a fixed order: 5 to 15
    buckets, 3 to 10 instances, 3 to 8 roles, 2 to 8 functions, 1 to 4
    databases and 1 to 3 trails, hence 15 to 48 resources.  Every resource has a str
    id and a dict config.  A bucket's [blockPublicAccess] is the negation of its
    [publicAccess] and it has a policy exactly when it is public; an instance
    has security group rules exactly when its group is open. *)
Theorem mock_inventory_shape (scan_config : pyval) (w : world) :
  exists resources w',
    generate_mock_resources entropy uuid4_hex days_ago_isoformat scan_config w
    = (Ok resources, w') /\
    generated_inventory resources /\
    (15 <= List.length resources <= 48)%nat /\
    Forall (fun r => (exists name, dict_get "id" r = Some (VStr name)) /\
                     (exists config, dict_get "config" r = Some (VDict config)))
           resources.
Proof.
  destruct (generate_mock_resources_returns scan_config w)
    as (resources & w' & Hrun & Hinv).
  exists resources, w'. split; [exact Hrun|]. split; [exact Hinv|].
  destruct Hinv as (b & e & r & f & d & t & -> & Hb & Hbs & He & Hes & Hr & Hrs
                    & Hf & Hfs & Hd & Hds & Ht & Hts).
  split; [rewrite !length_app; lia|].
  repeat (apply Forall_app; split).
  - eapply Forall_impl; [|exact Hbs]. intros x [(_ & Hid & Hc) _]. auto.
  - eapply Forall_impl; [|exact Hes]. intros x [(_ & Hid & Hc) _]. auto.
  - eapply Forall_impl; [|exact Hrs]. intros x [(_ & Hid & Hc) _]. auto.
  - eapply Forall_impl; [|exact Hfs]. intros x [(_ & Hid & Hc) _]. auto.
  - eapply Forall_impl; [|exact Hds]. intros x (_ & Hid & Hc). auto.
  - eapply Forall_impl; [|exact Hts]. intros x (_ & Hid & Hc). auto.
Qed.

End Generator.

(* ================================================================== *)
(** ** The generated inventory through the rule engine *)
(* ================================================================== *)

Lemma config_of_dict r config :
  dict_get "config" r = Some (VDict config) -> config_of r = config.
Proof. unfold config_of. intros ->. reflexivity. Qed.








Section GeneratedThroughRules.

Variable utcnow_isoformat : world -> string.
Variable py_repr : pyval -> string.

Local Notation "'evaluate'" := (rule_based_analysis utcnow_isoformat py_repr).


(** X20.  On what the generator makes, the rule engine reports exactly what
    the generator's own flags say: a bucket gets the HIGH/75 finding when it
    was made public and the MEDIUM/60 one when it was made unencrypted, an
    instance the MEDIUM/50 one when it was given a public IP, a role the
    CRITICAL/90 one when it was given the wildcard, a function the HIGH/70 one
    when it was given the secrets (DB_PASSWORD); databases and trails get
    nothing, whatever their config says. *)
Theorem rule_engine_follows_generator_flags (framework : string) (r : dict) (w : world) :
  (generated_bucket r ->
   exists public encrypted findings,
     dict_get "publicAccess" (config_of r) = Some (VBool public) /\
     dict_get "encryption" (config_of r) = Some (VBool encrypted) /\
     fst (evaluate framework r w) = Ok findings /\
     severity_and_risk findings
     = (if public then [(VStr "HIGH", Some (VInt 75))] else [])
       ++ (if encrypted then [] else [(VStr "MEDIUM", Some (VInt 60))])) /\
  (generated_instance r ->
   exists public findings,
     dict_get "publicIp" (config_of r) = Some (VBool public) /\
     fst (evaluate framework r w) = Ok findings /\
     severity_and_risk findings
     = if public then [(VStr "MEDIUM", Some (VInt 50))] else []) /\
  (generated_role r ->
   exists findings,
     fst (evaluate framework r w) = Ok findings /\
     severity_and_risk findings
     = match dict_get "permissions" (config_of r) with
       | Some (VList [VStr "*"]) => [(VStr "CRITICAL", Some (VInt 90))]
       | _ => []
       end) /\
  (generated_function r ->
   exists env_vars findings,
     dict_get "environmentVariables" (config_of r) = Some (VDict env_vars) /\
     fst (evaluate framework r w) = Ok findings /\
     severity_and_risk findings
     = if existsb (String.eqb "DB_PASSWORD") (map fst env_vars)
       then [(VStr "HIGH", Some (VInt 70))] else []) /\
  (resource_of_type "RDS_INSTANCE" r \/ resource_of_type "CLOUDTRAIL_TRAIL" r ->
   evaluate framework r w = (Ok [], w)).
Proof.
  repeat split.
  - intros ((Htype & _ & config & Hconfig) & public & encrypted & Hp & He & _).
    rewrite (config_of_dict r config Hconfig) in *.
    exists public, encrypted. unfold rule_based_analysis.
    rewrite (dict_get_or_some "type" r _ (VStr "") Htype).
    rewrite (dict_get_or_some "config" r _ (VDict []) Hconfig).
    cbn [py_eq_str String.eqb Ascii.eqb Bool.eqb]. run_monad.
    rewrite (dict_get_or_some "publicAccess" config _ (VBool false) Hp).
    rewrite (dict_get_or_some "encryption" config _ (VBool false) He).
    cbn [py_truthy negb].
    destruct public, encrypted; eexists; repeat split; first [eassumption | reflexivity].
  - intros ((Htype & _ & config & Hconfig) & public & open & Hp & _).
    rewrite (config_of_dict r config Hconfig) in *.
    exists public. unfold rule_based_analysis.
    rewrite (dict_get_or_some "type" r _ (VStr "") Htype).
    rewrite (dict_get_or_some "config" r _ (VDict []) Hconfig).
    cbn [py_eq_str String.eqb Ascii.eqb Bool.eqb]. run_monad.
    rewrite (dict_get_or_some "publicIp" config _ (VBool false) Hp).
    cbn [py_truthy].
    destruct public; eexists; repeat split; first [eassumption | reflexivity].
  - intros ((Htype & _ & config & Hconfig) & Hperm).
    rewrite (config_of_dict r config Hconfig) in *.
    unfold rule_based_analysis.
    rewrite (dict_get_or_some "type" r _ (VStr "") Htype).
    rewrite (dict_get_or_some "config" r _ (VDict []) Hconfig).
    cbn [py_eq_str String.eqb Ascii.eqb Bool.eqb]. run_monad.
    destruct Hperm as [Hperm|Hperm];
      rewrite (dict_get_or_some "permissions" config _ (VList []) Hperm), Hperm;
      eexists; split; reflexivity.
  - intros ((Htype & _ & config & Hconfig) & env_vars & Henv & Hkeys).
    rewrite (config_of_dict r config Hconfig) in *.
    exists env_vars. unfold rule_based_analysis.
    rewrite (dict_get_or_some "type" r _ (VStr "") Htype).
    rewrite (dict_get_or_some "config" r _ (VDict []) Hconfig).
    cbn [py_eq_str String.eqb Ascii.eqb Bool.eqb]. run_monad.
    rewrite (dict_get_or_some "environmentVariables" config _ (VDict []) Henv).
    destruct Hkeys as [-> | ->]; eexists; repeat split; first [eassumption | reflexivity].
  - intros [(Htype & _)|(Htype & _)]; unfold rule_based_analysis;
      rewrite (dict_get_or_some "type" r _ (VStr "") Htype); reflexivity.
Qed.

End GeneratedThroughRules.

Lemma rule_engine_follows_generator_flags_witness :
  generated_bucket Demo.public_bucket /\
  exists findings,
    fst (rule_based_analysis Sample.clock Sample.repr "GDPR" Demo.public_bucket 0%nat)
    = Ok findings /\
    severity_and_risk findings
    = [ (VStr "HIGH", Some (VInt 75)); (VStr "MEDIUM", Some (VInt 60)) ].
Proof.
  assert (Hgen : generated_bucket Demo.public_bucket).
  { split.
    - split; [reflexivity|]. split; eexists; reflexivity.
    - exists true, false. split; [reflexivity|]. split; [reflexivity|].
      split; [reflexivity|]. split; [reflexivity | discriminate]. }
  split; [exact Hgen|].
  destruct (proj1 (rule_engine_follows_generator_flags Sample.clock Sample.repr
                     "GDPR" Demo.public_bucket 0%nat) Hgen)
    as (public & encrypted & findings & Hpublic & Hencrypted & Hrun & Hverdicts).
  injection Hpublic as <-. injection Hencrypted as <-.
  exists findings. split; [exact Hrun | exact Hverdicts].
Defined.

(* ================================================================== *)
(** ** The entry points of main.py *)
(* ================================================================== *)





Section ModelDown.

Variable utcnow_isoformat : world -> string.
Variable py_repr : pyval -> string.
Variable bedrock_analysis : world -> string -> dict -> pyval -> result pyval.

Hypothesis model_down :
  forall w framework resource scan_config,
    exists e, bedrock_analysis w framework resource scan_config = Raise e.




End ModelDown.

Lemma generated_inventory_count resources :
  generated_inventory resources ->
  (15 <= Z.of_nat (List.length resources) <= 48)%Z.
Proof.
  intros (b & e & r & f & d & t & -> & Hb & _ & He & _ & Hr & _ & Hf & _
          & Hd & _ & Ht & _).
  rewrite !length_app. lia.
Qed.

Lemma join_items_world items : forall i w names w',
  join_items items i w = (Ok names, w') -> w' = w.
Proof.
  induction items as [|item items IH]; intros i w names w'.
  - cbn. intros [= _ <-]. reflexivity.
  - cbn [join_items]. unfold bind, ret, type_error, raise.
    destruct item; try discriminate.
    destruct (join_items items (S i) w) as [[rest|e] w1] eqn:Hrest; [|discriminate].
    apply IH in Hrest. subst w1. intros [= _ <-]. reflexivity.
Qed.

Section EntryPointProperties.

Variable utcnow_isoformat : world -> string.
Variable utcnow_strftime : world -> string.
Variable uuid4_str : world -> string.
Variable py_repr : pyval -> string.
Variable bedrock_analysis : world -> string -> dict -> pyval -> result pyval.
Variable s3_put_object : world -> string -> string -> dict -> string -> result unit.
Variable s3_generate_presigned_url : world -> string -> string -> result string.
Variable entropy : world -> nat.
Variable uuid4_hex : world -> string.
Variable days_ago_isoformat : world -> nat -> string.

Local Notation "'audit_body'" :=
  (audit_compliance_body utcnow_isoformat utcnow_strftime uuid4_str py_repr
     bedrock_analysis s3_put_object s3_generate_presigned_url
     entropy uuid4_hex days_ago_isoformat).
Local Notation "'audit'" :=
  (audit_compliance utcnow_isoformat utcnow_strftime uuid4_str py_repr
     bedrock_analysis s3_put_object s3_generate_presigned_url
     entropy uuid4_hex days_ago_isoformat).
Local Notation "'resources_entry'" :=
  (generate_resources entropy uuid4_hex days_ago_isoformat).
Local Notation "'report'" :=
  (generate_compliance_report utcnow_isoformat utcnow_strftime uuid4_str
     py_repr s3_put_object s3_generate_presigned_url).


(** What the [try] block of [audit_compliance] has done when it returns. *)
Lemma audit_body_returns (d : dict) (w w' : world) (r : dict) :
  audit_body (VDict d) w = (Ok r, w') ->
  exists items names resources w1 w2 all_findings compliance_scores
         rounded completed_at,
    join_iter (dict_get_or "complianceFrameworks" d default_frameworks) (S w)
    = (Ok items, S w) /\
    join_items items 0 (S w) = (Ok names, S w) /\
    generated_inventory resources /\
    audit_frameworks utcnow_isoformat py_repr bedrock_analysis names resources
      (dict_get_or "scanConfig" d (VDict [])) [] [] w1
    = (Ok (all_findings, compliance_scores), w2) /\
    py_round1 (VFloat (overall_score compliance_scores)) w2 = (Ok rounded, w2) /\
    r = [ ("auditRunId", dict_get_or "auditRunId" d (VStr (uuid4_str w)));
          ("status", VStr "COMPLETED");
          ("findings", VList (map VDict all_findings));
          ("complianceScores", scores_value compliance_scores);
          ("overallScore", rounded);
          ("resourcesScanned", VInt (Z.of_nat (List.length resources)));
          ("frameworks", dict_get_or "complianceFrameworks" d default_frameworks);
          ("reportGenerated", VBool true);
          ("completedAt", VStr completed_at) ].
Proof.
  cbv beta iota delta [audit_compliance_body bind ret py_get uuid4 utcnow].
  destruct (join_iter _ (S w)) as [[items|e] w0] eqn:Hiter; [|discriminate].
  assert (w0 = S w) as ->.
  { revert Hiter. unfold join_iter, py_iter, ret, type_error, raise.
    destruct (dict_get_or _ d default_frameworks); intros [= _ <-]; reflexivity. }
  destruct (join_items items 0 (S w)) as [[names|e] w0] eqn:Hjoin; [|discriminate].
  pose proof (join_items_world _ _ _ _ _ Hjoin) as ->.
  destruct (generate_mock_resources_returns entropy uuid4_hex days_ago_isoformat
              (dict_get_or "scanConfig" d (VDict [])) (S w))
    as (resources & w1 & -> & Hinv).
  destruct (audit_frameworks _ _ _ names resources _ [] [] w1)
    as [[[all_findings compliance_scores]|e] w2] eqn:Hloop; [|discriminate].
  cbn [fst snd].
  destruct (generate_compliance_report _ _ _ _ _ _ _ _ _ _ _ _ w2)
    as [[rep|e] w3]; [|discriminate].
  cbn [py_round1]. unfold ret.
  intros [= <- _].
  exists items, names, resources, w1, w2, all_findings, compliance_scores.
  eexists. eexists. repeat split; try eassumption; reflexivity.
Qed.

(** X21.  [audit_compliance] raises only on a request that is not a dict:
    then the handler's own [request.get] raises the AttributeError again and
    nothing is returned.  On a dict it always returns a dict.  That dict is
    either the COMPLETED one, with [reportGenerated] true, between 15 and 48
    resources scanned, and as id the request's id or else the uuid drawn at
    the start; or the ERROR one of four fields, whose id is the request's id
    or else 'unknown' (never the uuid drawn) and whose error is [str(e)]. *)
Theorem audit_compliance_raises_only_on_non_dict (request : pyval) (w : world) :
  match request with
  | VDict d =>
      exists (r : dict) (w' : world),
        audit request w = (Ok r, w') /\
        ((dict_get "status" r = Some (VStr "COMPLETED") /\
          dict_get "reportGenerated" r = Some (VBool true) /\
          dict_get "auditRunId" r
          = Some (dict_get_or "auditRunId" d (VStr (uuid4_str w))) /\
          exists n, dict_get "resourcesScanned" r = Some (VInt n) /\
                    (15 <= n <= 48)%Z) \/
         (map fst r = ["auditRunId"; "status"; "error"; "completedAt"] /\
          dict_get "status" r = Some (VStr "ERROR") /\
          dict_get "auditRunId" r
          = Some (dict_get_or "auditRunId" d (VStr "unknown")) /\
          exists e, fst (audit_body request w) = Raise e /\
                    dict_get "error" r = Some (VStr (exn_str e))))
  | _ =>
      audit request w
      = (Raise (Exn "AttributeError"
                  ("'" ++ py_type_name request ++ "' object has no attribute 'get'")),
         w)
  end.
Proof.
  destruct request as [| | | | | |d]; try reflexivity.
  unfold audit_compliance, try_except.
  destruct (audit_body (VDict d) w) as [[r|e] w'] eqn:Hbody.
  - exists r, w'. split; [reflexivity|]. left.
    destruct (audit_body_returns d w w' r Hbody)
      as (items & names & resources & w1 & w2 & fs & sc & rounded & at_
          & _ & _ & Hinv & _ & _ & ->).
    repeat split. eexists. split; [reflexivity|].
    apply generated_inventory_count. exact Hinv.
  - unfold audit_compliance_handler, bind, py_get, ret, utcnow.
    eexists. eexists. split; [reflexivity|]. right.
    repeat split. exists e. split; reflexivity.
Qed.



(** X23.  [generate_resources] never raises.  On a dict it returns the
    COMPLETED dict, whose count is the number of resources it lists, between
    15 and 48, and the resources are a generated inventory; on any other
    request it returns the ERROR dict of two fields with the AttributeError's
    text. *)
Theorem generate_resources_never_raises (request : pyval) (w : world) :
  exists (r : dict) (w' : world),
    resources_entry request w = (Ok r, w') /\
    if is_dict request then
      exists resources,
        r = [ ("resources", VList (map VDict resources));
              ("count", VInt (Z.of_nat (List.length resources)));
              ("status", VStr "COMPLETED") ] /\
        generated_inventory resources /\
        (15 <= Z.of_nat (List.length resources) <= 48)%Z
    else
      r = [ ("status", VStr "ERROR");
            ("error",
             VStr ("'" ++ py_type_name request ++ "' object has no attribute 'get'")) ]
      /\ w' = w.
Proof.
  unfold generate_resources, try_except.
  destruct request as [| | | | | |d];
    try (eexists; eexists; split; [reflexivity|]; split; reflexivity).
  cbv beta iota delta [bind ret py_get is_dict].
  destruct (generate_mock_resources_returns entropy uuid4_hex days_ago_isoformat
              (dict_get_or "scanConfig" d (VDict [])) w)
    as (resources & w1 & -> & Hinv).
  eexists. eexists. split; [reflexivity|].
  exists resources. split; [reflexivity|]. split; [exact Hinv|].
  apply generated_inventory_count. exact Hinv.
Qed.

End EntryPointProperties.


(* ================================================================== *)
(** ** trigger_scan.py: the simulated scan *)
(* ================================================================== *)

Lemma py_iter_pure v w w' : py_iter v w' = (fst (py_iter v w), w').
Proof. destruct v; reflexivity. Qed.

Lemma join_items_pure items : forall i w w',
  join_items items i w' = (fst (join_items items i w), w').
Proof.
  induction items as [|item items IH]; intros i w w'; [reflexivity|].
  cbn [join_items]. destruct item; try reflexivity.
  unfold bind. rewrite (IH (S i) w w').
  destruct (join_items items (S i) w) as [[rest|e] w1]; reflexivity.
Qed.

(** Joining reads nothing of the outside: its result is the same in every
    world, and the world stays. *)
Lemma join_iter_pure v w w' : join_iter v w' = (fst (join_iter v w), w').
Proof. destruct v; reflexivity. Qed.

Lemma py_join_pure sep v w w' : py_join sep v w' = (fst (py_join sep v w), w').
Proof.
  unfold py_join, bind. rewrite (join_iter_pure v w w').
  destruct (join_iter v w) as [[items|e] w1] eqn:Hiter; cbn [fst]; [|reflexivity].
  assert (w1 = w) as ->.
  { destruct v; cbn in Hiter; injection Hiter as _ <-; reflexivity. }
  rewrite (join_items_pure items 0 w w').
  destruct (join_items items 0 w) as [[names|e] w2]; reflexivity.
Qed.

Lemma drawn_cases {A} (n : nat) (first second : A) :
  drawn n first second = first \/ drawn n first second = second.
Proof.
  unfold drawn. pose proof (Nat.mod_upper_bound n 2 ltac:(discriminate)) as H.
  destruct (n mod 2)%nat as [|[|k]]; [left | right | lia]; reflexivity.
Qed.

Section SimulatedScan.

Variable entropy : world -> nat.
Variable py_repr : pyval -> string.

Local Notation "'simulate'" := (simulate_compliance_scan entropy py_repr).

Lemma choice_of_two {A} (first second : A) w :
  choice entropy first [second] w = (Ok (drawn (entropy w) first second), S w).
Proof. reflexivity. Qed.

Lemma risk_score_drawn n first second x y :
  dict_get first risk_scores = Some (VInt x) ->
  dict_get second risk_scores = Some (VInt y) ->
  dict_get (drawn n first second) risk_scores = Some (VInt (drawn n x y)).
Proof.
  unfold drawn. intros Hx Hy.
  pose proof (Nat.mod_upper_bound n 2 ltac:(discriminate)) as H.
  destruct (n mod 2)%nat as [|[|k]]; [assumption | assumption | lia].
Qed.

(** The score of four findings whose risk scores are two draws, 90 and 70. *)
Lemma scan_score (r1 r3 : Z) (w : world) :
  r1 = 70%Z \/ r1 = 90%Z -> r3 = 50%Z \/ r3 = 70%Z ->
  exists score,
    py_round1
      (py_max_0
         (100 -
          (0 + inject_Z r1 + inject_Z r3 + inject_Z 90 + inject_Z 70) /
          inject_Z (Z.max (Z.of_nat 4 * 100) 1) * 100)) w
    = (Ok (VFloat score), w) /\
    score == 100 - inject_Z (r1 + r3 + 160)%Z / 4 /\
    20 <= score <= 30.
Proof.
  intros [-> | ->] [-> | ->]; eexists;
    (split; [lazy; reflexivity|]);
    (split; [vm_compute; reflexivity|]);
    split; vm_compute; discriminate.
Qed.

(** X24.  Let [str] of the function's config show the name DB_PASSWORD, as
    Python's does.  When the framework names cannot be joined (the value is
    not an iterable of strs), the simulated scan raises that TypeError and
    draws nothing.  Otherwise it returns after four draws, with one finding
    per resource, in the order of the resources.  The severity and the risk
    score of the bucket's finding come from two separate draws, and so do
    those of the instance's: a finding can be HIGH with risk score 90, or
    CRITICAL with 70.  The score is [100 - (sum of the risk scores) / 4],
    between 20 and 30, and the scan configuration plays no part. *)
Theorem simulated_scan_outcome (compliance_frameworks scan_config : pyval) (w : world) :
  str_contains "DB_PASSWORD" (py_str py_repr function_config) = true ->
  match fst (py_join ", " compliance_frameworks w) with
  | Ok _ =>
      exists (findings : list dict) (score : Q),
        simulate compliance_frameworks scan_config w
        = (Ok [ ("findings", VList (map VDict findings));
                ("compliance_score", VFloat score);
                ("summary", VStr "Found 4 compliance issues across 4 resources");
                ("scanned_resources", VInt 4);
                ("compliance_frameworks", compliance_frameworks) ],
           S (S (S (S w)))) /\
        scan_verdicts findings
        = [ (Some (VStr "S3_BUCKET"),
             Some (VStr (drawn (entropy w) "HIGH" "CRITICAL")),
             Some (VInt (drawn (entropy (S w)) 70%Z 90%Z)));
            (Some (VStr "EC2_INSTANCE"),
             Some (VStr (drawn (entropy (S (S w))) "MEDIUM" "HIGH")),
             Some (VInt (drawn (entropy (S (S (S w)))) 50%Z 70%Z)));
            (Some (VStr "IAM_ROLE"), Some (VStr "CRITICAL"), Some (VInt 90));
            (Some (VStr "LAMBDA_FUNCTION"), Some (VStr "HIGH"), Some (VInt 70)) ] /\
        score == 100 - inject_Z (drawn (entropy (S w)) 70 90
                                 + drawn (entropy (S (S (S w)))) 50 70 + 160)%Z / 4 /\
        20 <= score <= 30
  | Raise e => simulate compliance_frameworks scan_config w = (Raise e, w)
  end.
Proof.
  intros Hrepr.
  pose proof (fun w' => py_join_pure ", " compliance_frameworks w w') as Hjoin.
  unfold simulate_compliance_scan.
  cbn [scan_resources mock_resources].
  unfold scan_resource, type_and, config_flag, wildcard_permission,
    password_in_text, scan_finding, drawn_risk_score.
  cbv beta iota delta [bind ret py_subscript py_str_in].
  cbn [dict_get String.eqb Ascii.eqb Bool.eqb py_eq_str py_truthy existsb orb].
  fold function_config. rewrite Hrepr.
  destruct (fst (py_join ", " compliance_frameworks w)) as [names|e].
  - repeat (first [ rewrite Hjoin | rewrite choice_of_two
                  | rewrite (risk_score_drawn _ "HIGH" "CRITICAL" 70 90
                               eq_refl eq_refl)
                  | rewrite (risk_score_drawn _ "MEDIUM" "HIGH" 50 70
                               eq_refl eq_refl) ];
            cbv beta iota).
    cbn [app total_risk_score].
    cbv beta iota delta [bind ret py_subscript].
    cbn [dict_get String.eqb Ascii.eqb Bool.eqb as_number List.length py_str].
    destruct (scan_score _ _ (S (S (S (S w))))
                (drawn_cases (entropy (S w)) 70%Z 90%Z)
                (drawn_cases (entropy (S (S (S w)))) 50%Z 70%Z))
      as (score & -> & Hscore & Hrange).
    eexists. exists score.
    split; [reflexivity|]. split; [reflexivity|]. split; assumption.
  - rewrite Hjoin. reflexivity.
Qed.

End SimulatedScan.

Lemma simulated_scan_outcome_witness :
  str_contains "DB_PASSWORD" (py_str Demo.repr_nested function_config) = true /\
  exists (findings : list dict) (score : Q),
    simulate_compliance_scan Demo.entropy Demo.repr_nested
      (VList [VStr "GDPR"; VStr "SOC2"]) (VDict []) 0%nat
    = (Ok [ ("findings", VList (map VDict findings));
            ("compliance_score", VFloat score);
            ("summary", VStr "Found 4 compliance issues across 4 resources");
            ("scanned_resources", VInt 4);
            ("compliance_frameworks", VList [VStr "GDPR"; VStr "SOC2"]) ],
       4%nat) /\
    scan_verdicts findings
    = [ (Some (VStr "S3_BUCKET"), Some (VStr "CRITICAL"), Some (VInt 70));
        (Some (VStr "EC2_INSTANCE"), Some (VStr "HIGH"), Some (VInt 50));
        (Some (VStr "IAM_ROLE"), Some (VStr "CRITICAL"), Some (VInt 90));
        (Some (VStr "LAMBDA_FUNCTION"), Some (VStr "HIGH"), Some (VInt 70)) ] /\
    score == 100 - inject_Z (70 + 50 + 160)%Z / 4 /\
    20 <= score <= 30.
Proof.
  split; [reflexivity|].
  exact (simulated_scan_outcome Demo.entropy Demo.repr_nested
           (VList [VStr "GDPR"; VStr "SOC2"]) (VDict []) 0%nat eq_refl).
Defined.
